(** * Webflow and Resend tools for the AI SDK: a shallow embedding

    The repository holds two adapter libraries.  [src/index.ts] exposes
    seven Webflow operations and the second [index.ts] exposes nine Resend
    operations, each as a tool whose [execute] function performs one or two
    remote calls inside a [try]/[catch] and reshapes the answer.

    The embedding follows the code at the level of JavaScript values:
    upstream answers are untyped ([Record<string, unknown>]), so the
    reshaping code is modelled on a datatype of JSON-like values with the
    coercions the code applies ([String], [Number], [Boolean], [??], [?.],
    truthiness).  Exceptions are an explicit error monad and remote calls
    are logged in a state monad, so that "no call was made" and "nothing
    escapes the tool" are statements about values. *)

From Stdlib Require Import List String Ascii ZArith Bool Lia DecimalString.
From Stdlib Require Floats.
Import ListNotations.
Open Scope string_scope.

(* ================================================================== *)
(** ** JavaScript values and the built-ins the tools rely on *)
(* ================================================================== *)

Module Js.

(** Numbers are the binary64 values, with [NaN], the two infinities and
    the two zeros.  [Int z] is the number nearest to the integer [z], which
    is [z] itself up to [2^53].  Strings are sequences of code units below
    256. *)
Definition number : Type := PrimFloat.float.

Definition NaN : number := PrimFloat.nan.

Definition Int (z : Z) : number :=
  FloatOps.SF2Prim
    (SpecFloat.binary_normalize FloatOps.prec FloatOps.emax z 0 false).

(** Values.  An object is the list of its own properties in the order
    [Object.entries] lists them, with distinct keys; parsed JSON has no
    [undefined], but the reshaping code produces it.  [JFun name] is the
    built-in function of that name, which a value only holds after it was
    read from a prototype. *)
#[warnings="-register-all"]
Inductive JsValue : Type :=
| JUndefined
| JNull
| JBool (b : bool)
| JNum (n : number)
| JStr (s : string)
| JArr (items : list JsValue)
| JObj (fields : list (string * JsValue))
| JFun (name : string).

(** What a [throw] carries: an [Error] instance with its [message], or any
    other value. *)
Inductive Thrown : Type :=
| ThrowError (message : string)
| ThrowValue (v : JsValue).

(** Result of an expression that may throw. *)
Inductive Exc (A : Type) : Type :=
| Ret (a : A)
| Raise (t : Thrown).
Arguments Ret {A} a.
Arguments Raise {A} t.

Definition bindE {A B} (m : Exc A) (k : A -> Exc B) : Exc B :=
  match m with
  | Ret a => k a
  | Raise t => Raise t
  end.

(** A computation that may throw and that performs remote calls; the state
    is the log of the calls made so far, oldest first. *)
Definition M (Req A : Type) : Type := list Req -> Exc A * list Req.

Definition retM {Req A} (a : A) : M Req A := fun log => (Ret a, log).

Definition bindM {Req A B} (m : M Req A) (k : A -> M Req B) : M Req B :=
  fun log =>
    match m log with
    | (Ret a, log') => k a log'
    | (Raise t, log') => (Raise t, log')
    end.

Definition lift {Req A} (e : Exc A) : M Req A := fun log => (e, log).

Definition throw {Req A} (t : Thrown) : M Req A := fun log => (Raise t, log).

(** [try { body } catch (error) { handler error }] *)
Definition try_catch {Req A} (body : M Req A) (handler : Thrown -> M Req A)
  : M Req A :=
  fun log =>
    match body log with
    | (Ret a, log') => (Ret a, log')
    | (Raise t, log') => handler t log'
    end.

Class Monad (m : Type -> Type) : Type :=
  { ret : forall {A}, A -> m A;
    bind : forall {A B}, m A -> (A -> m B) -> m B }.

#[global] Instance Monad_Exc : Monad Exc :=
  {| ret := @Ret; bind := @bindE |}.

#[global] Instance Monad_M {Req} : Monad (M Req) :=
  {| ret := @retM Req; bind := @bindM Req |}.

Declare Scope js_scope.
Delimit Scope js_scope with js.
Notation "x <- c1 ;; c2" := (bind c1 (fun x => c2))
  (at level 100, c1 at next level, right associativity) : js_scope.
Open Scope js_scope.

(** One invocation, started with an empty log: its outcome and the calls
    it made. *)
Definition run {Req A} (m : M Req A) : Exc A * list Req := m [].

Definition TypeError {A} (message : string) : Exc A :=
  Raise (ThrowError message).

(** [error instanceof Error ? error.message : fallback] *)
Definition errorMessage (error : Thrown) (fallback : string) : string :=
  match error with
  | ThrowError message => message
  | ThrowValue _ => fallback
  end.

(** *** Truthiness and nullishness *)

Definition isNullish (v : JsValue) : bool :=
  match v with
  | JUndefined | JNull => true
  | _ => false
  end.

(** ToBoolean: [undefined], [null], [false], the two zeros, [NaN] and the
    empty string are falsy; everything else, every array, object and
    function included, is truthy. *)
Definition truthy (v : JsValue) : bool :=
  match v with
  | JUndefined | JNull => false
  | JBool b => b
  | JNum n => negb (PrimFloat.eqb n (Int 0) || PrimFloat.is_nan n)
  | JStr s => negb (s =? "")
  | JArr _ | JObj _ | JFun _ => true
  end.

Definition isUndefined (v : JsValue) : bool :=
  match v with
  | JUndefined => true
  | _ => false
  end.

(** [a ?? b] *)
Definition coalesce (a b : JsValue) : JsValue :=
  if isNullish a then b else a.

(** [a || b] *)
Definition or_else (a b : JsValue) : JsValue :=
  if truthy a then a else b.

(** *** Properties *)

Fixpoint assoc (key : string) (fields : list (string * JsValue)) : JsValue :=
  match fields with
  | [] => JUndefined
  | (k, v) :: rest => if k =? key then v else assoc key rest
  end.

Definition hasOwn (key : string) (fields : list (string * JsValue)) : bool :=
  existsb (fun kv => fst kv =? key) fields.

(** The names of the function members of [Object.prototype], besides
    [constructor]. *)
Definition objectPrototypeFunctions : list string :=
  ["toString"; "toLocaleString"; "valueOf"; "hasOwnProperty";
   "isPrototypeOf"; "propertyIsEnumerable"; "__defineGetter__";
   "__defineSetter__"; "__lookupGetter__"; "__lookupSetter__"].

(** What a plain object inherits under a key: the members of
    [Object.prototype].  The prototype itself, which [__proto__] gives, is
    an object without enumerable properties and is modelled as the empty
    object, whose members are these again. *)
Definition objectPrototype (key : string) : JsValue :=
  if key =? "__proto__" then JObj []
  else if key =? "constructor" then JFun "Object"
  else if existsb (String.eqb key) objectPrototypeFunctions then JFun key
  else JUndefined.

(** A key under which a plain object inherits nothing. *)
Definition ownOnly (key : string) : Prop := objectPrototype key = JUndefined.

(** The member of an object under a key: its own property, else what it
    inherits. *)
Definition member (key : string) (fields : list (string * JsValue))
  : JsValue :=
  if hasOwn key fields then assoc key fields else objectPrototype key.

(** [o[key]] and [o.key] on a value.  Reading a property of [undefined]
    or [null] throws; an object answers with its own property, else with
    the member of that name it inherits from [Object.prototype], else with
    [undefined]; a function answers with its [name].  The members of
    arrays, strings, numbers and booleans and the other members of
    functions are not modelled: from such a value the tools read only
    property names that are written out in the source, none of which
    names a member of theirs. *)
Definition getProp (o : JsValue) (key : string) : Exc JsValue :=
  match o with
  | JUndefined =>
      TypeError ("Cannot read properties of undefined (reading '" ++ key ++ "')")
  | JNull =>
      TypeError ("Cannot read properties of null (reading '" ++ key ++ "')")
  | JObj fields => Ret (member key fields)
  | JFun name => Ret (if key =? "name" then JStr name else JUndefined)
  | _ => Ret JUndefined
  end.

(** Total reading of an own property of an object, used to state
    properties of results and of upstream records. *)
Definition field (o : JsValue) (key : string) : JsValue :=
  match o with
  | JObj fields => assoc key fields
  | JFun name => if key =? "name" then JStr name else JUndefined
  | _ => JUndefined
  end.

(** The first property read by [const { key, ... } = v], where [v] is
    the value of an expression: destructuring [undefined] or [null]
    throws, naming that property. *)
Definition destructured (v : JsValue) (key : string) : Exc JsValue :=
  match v with
  | JUndefined =>
      TypeError ("Cannot destructure property '" ++ key
                   ++ "' of '(intermediate value)' as it is undefined.")
  | JNull =>
      TypeError ("Cannot destructure property '" ++ key
                   ++ "' of '(intermediate value)' as it is null.")
  | _ => getProp v key
  end.

(** [o?.key] *)
Definition optProp (o : JsValue) (key : string) : Exc JsValue :=
  if isNullish o then Ret JUndefined else getProp o key.

(** [o[key] = v] on a plain object: overwrite in place or append.  Writing
    the key [__proto__] runs the inherited setter and creates no own
    property. *)
Fixpoint setField (key : string) (v : JsValue) (fields : list (string * JsValue))
  : list (string * JsValue) :=
  match fields with
  | [] => [(key, v)]
  | (k, v') :: rest =>
      if k =? key then (k, v) :: rest else (k, v') :: setField key v rest
  end.

Definition assignField (key : string) (v : JsValue)
  (fields : list (string * JsValue)) : list (string * JsValue) :=
  if key =? "__proto__" then fields else setField key v fields.

(** *** Coercions *)

(** [String(n)] of a number (Number::toString): the shortest decimal that
    rounds to the number, the one nearest to it when several are as short,
    laid out with an exponent from [1e21] up and below [1e-6]. *)

(** Decimal digits of a natural number. *)
Definition digits (z : Z) : string := NilZero.string_of_uint (N.to_uint (Z.to_N z)).

Fixpoint zeros (n : nat) : string :=
  match n with O => "" | S k => String "0" (zeros k) end.

(** Comparison of the rationals [a/b] and [c/d], for positive [b] and [d]. *)
Definition qcompare (a b c d : Z) : comparison := (a * d ?= c * b)%Z.

(** [s * 10^p] as a fraction. *)
Definition scaled (s p : Z) : Z * Z :=
  if (0 <=? p)%Z then (s * 10 ^ p, 1)%Z else (s, 10 ^ (- p))%Z.

Section Shortest.
(** The finite positive double [m * 2^e]. *)
Variables (m : positive) (e : Z).

(** The value and the two ends of its rounding interval, over the common
    denominator [den]: the numerators count quarters of the unit in the
    last place. *)
Definition den : Z := if (2 <=? e)%Z then 1%Z else (2 ^ (2 - e))%Z.
Definition unit4 : Z := if (2 <=? e)%Z then (2 ^ (e - 2))%Z else 1%Z.
Definition value : Z := (4 * Z.pos m * unit4)%Z.
Definition lowEnd : Z :=
  ((4 * Z.pos m
    - (if (Z.pos m =? 2 ^ 52)%Z && (-1074 <? e)%Z then 1 else 2)) * unit4)%Z.
Definition highEnd : Z := ((4 * Z.pos m + 2) * unit4)%Z.

(** A decimal [s * 10^p] rounds to the double: it lies inside the
    interval, the ends included when the mantissa is even. *)
Definition roundsHere (s p : Z) : bool :=
  let '(a, b) := scaled s p in
  match qcompare lowEnd den a b, qcompare a b highEnd den with
  | Lt, Lt => true
  | Gt, _ | _, Gt => false
  | _, _ => Z.even (Z.pos m)
  end.

(** The least [n] with [value < 10^n], searched upwards from below an
    estimate by the binary logarithm. *)
Fixpoint magnitude (fuel : nat) (n : Z) : Z :=
  match fuel with
  | O => n
  | S k =>
      let '(a, b) := scaled 1 n in
      match qcompare value den a b with
      | Lt => n
      | _ => magnitude k (n + 1)%Z
      end
  end.

Definition exponent10 : Z :=
  let bits := (Z.log2 (Z.pos m) + 1 + e)%Z in
  magnitude 8 ((bits * 30103) / 100000 - 2)%Z.

(** The candidate with [k] digits: the nearer of the two neighbours of the
    value on the grid [10^p] that round to it, the even one on a tie. *)
Definition candidate (p : Z) : option Z :=
  let below :=
    (if (0 <=? p) then value / (den * 10 ^ p)
     else (value * 10 ^ (- p)) / den)%Z in
  let above := (below + 1)%Z in
  match roundsHere below p, roundsHere above p with
  | true, false => Some below
  | false, true => Some above
  | false, false => None
  | true, true =>
      (* twice the value against the sum of the neighbours *)
      let '(a, b) := scaled (below + above) p in
      match qcompare (2 * value) den a b with
      | Lt => Some below
      | Gt => Some above
      | Eq => Some (if Z.even below then below else above)
      end
  end.

Fixpoint shortest (fuel : nat) (k : Z) : Z * Z :=
  match fuel with
  | O => (0, 0)%Z
  | S f =>
      let p := (exponent10 - k)%Z in
      match candidate p with
      | Some s => (s, p)
      | None => shortest f (k + 1)%Z
      end
  end.

End Shortest.

(** Drops the trailing zeros of the digits, raising the exponent. *)
Fixpoint trimZeros (fuel : nat) (s p : Z) : Z * Z :=
  match fuel with
  | O => (s, p)
  | S f => if (s mod 10 =? 0)%Z then trimZeros f (s / 10)%Z (p + 1)%Z else (s, p)
  end.

Definition substring_from (n : nat) (s : string) : string :=
  String.substring n (String.length s - n) s.

(** The layout of Number::toString for the digits [ds] of [s] and the
    position [n] of the decimal point. *)
Definition layout (ds : string) (n : Z) : string :=
  let k := Z.of_nat (String.length ds) in
  if ((k <=? n) && (n <=? 21))%Z then ds ++ zeros (Z.to_nat (n - k))
  else if ((0 <? n) && (n <=? 21))%Z
  then String.substring 0 (Z.to_nat n) ds ++ "." ++ substring_from (Z.to_nat n) ds
  else if ((-6 <? n) && (n <=? 0))%Z
  then "0." ++ zeros (Z.to_nat (- n)) ++ ds
  else
    let e := (n - 1)%Z in
    let sign := if (0 <=? e)%Z then "+" else "-" in
    let mantissa :=
      if (k =? 1)%Z then ds
      else String.substring 0 1 ds ++ "." ++ substring_from 1 ds in
    mantissa ++ "e" ++ sign ++ digits (Z.abs e).

Definition NumberToString (x : number) : string :=
  match FloatOps.Prim2SF x with
  | SpecFloat.S754_nan => "NaN"
  | SpecFloat.S754_zero _ => "0"
  | SpecFloat.S754_infinity s => if s then "-Infinity" else "Infinity"
  | SpecFloat.S754_finite s m e =>
      let '(d, p) := shortest m e 17 1 in
      let '(d, p) := trimZeros 17 d p in
      let ds := digits d in
      (if s then "-" else "") ++ layout ds (p + Z.of_nat (String.length ds))
  end.

Fixpoint mapE {A B} (f : A -> Exc B) (l : list A) : Exc (list B) :=
  match l with
  | [] => Ret []
  | x :: rest =>
      y <- f x ;;
      ys <- mapE f rest ;;
      ret (y :: ys)
  end.

(** [String(v)].  An array joins the strings of its elements with commas,
    [null] and [undefined] elements giving the empty string.  A plain
    object gives ["[object Object]"] through the inherited [toString]; when
    it has an own [toString] property, which in parsed JSON is never a
    function, no conversion is left and a [TypeError] is thrown.  A
    built-in function gives its source text, which names it. *)
Fixpoint ToString (v : JsValue) : Exc string :=
  match v with
  | JUndefined => Ret "undefined"
  | JNull => Ret "null"
  | JBool true => Ret "true"
  | JBool false => Ret "false"
  | JNum n => Ret (NumberToString n)
  | JStr s => Ret s
  | JArr items =>
      parts <- (fix elements (l : list JsValue) : Exc (list string) :=
                  match l with
                  | [] => Ret []
                  | x :: rest =>
                      s <- (if isNullish x then Ret "" else ToString x) ;;
                      ss <- elements rest ;;
                      ret (s :: ss)
                  end) items ;;
      ret (String.concat "," parts)
  | JObj fields =>
      if hasOwn "toString" fields
      then TypeError "Cannot convert object to primitive value"
      else Ret "[object Object]"
  | JFun name => Ret ("function " ++ name ++ "() { [native code] }")
  end.

(** [String(v)] as a value. *)
Definition String_ (v : JsValue) : Exc JsValue :=
  s <- ToString v ;;
  ret (JStr s).

(** [Boolean(v)] *)
Definition ToBoolean (v : JsValue) : JsValue := JBool (truthy v).

Section ToNumber.

(** The runtime's parser of numeric strings (StringToNumber). *)
Variable StringToNumber : string -> number.

(** [Number(v)].  Arrays, objects and functions are first converted to a
    primitive, which for parsed JSON is the string [String] gives. *)
Definition ToNumber (v : JsValue) : Exc JsValue :=
  match v with
  | JUndefined => Ret (JNum NaN)
  | JNull => Ret (JNum (Int 0))
  | JBool true => Ret (JNum (Int 1))
  | JBool false => Ret (JNum (Int 0))
  | JNum n => Ret (JNum n)
  | JStr s => Ret (JNum (StringToNumber s))
  | JArr _ | JObj _ | JFun _ =>
      s <- ToString v ;;
      ret (JNum (StringToNumber s))
  end.

End ToNumber.

(** [s.startsWith(p)] *)
Fixpoint startsWith (s p : string) {struct p} : bool :=
  match p with
  | EmptyString => true
  | String c p' =>
      match s with
      | EmptyString => false
      | String d s' => (c =? d)%char && startsWith s' p'
      end
  end.

(** [s.includes(sub)] *)
Fixpoint includes (s sub : string) : bool :=
  if startsWith s sub then true
  else match s with
       | EmptyString => false
       | String _ rest => includes rest sub
       end.

(** ["x".repeat(n)] *)
Fixpoint repeatString (s : string) (n : nat) : string :=
  match n with
  | O => ""
  | S k => s ++ repeatString s k
  end.

(** A word between double quotes. *)
Definition quoted (s : string) : string :=
  String (ascii_of_nat 34) (s ++ String (ascii_of_nat 34) EmptyString).

(** [v.length] of an array, as a number value. *)
Definition lengthOf {A} (l : list A) : JsValue :=
  JNum (Int (Z.of_nat (List.length l))).

(** [v.map(f)]: only an array has a callable [map]. *)
Definition arrayMap (what : string) (f : JsValue -> Exc JsValue) (v : JsValue)
  : Exc (list JsValue) :=
  match v with
  | JArr items => mapE f items
  | JUndefined =>
      TypeError "Cannot read properties of undefined (reading 'map')"
  | JNull => TypeError "Cannot read properties of null (reading 'map')"
  | _ => TypeError (what ++ ".map is not a function")
  end.

(** [v?.map(f)]; the error names the callee as it is written, [v?.map]. *)
Definition optArrayMap (what : string) (f : JsValue -> Exc JsValue)
  (v : JsValue) : Exc JsValue :=
  if isNullish v then Ret JUndefined
  else (items <- arrayMap (what ++ "?") f v ;; ret (JArr items)).

(** [Object.entries(v)] of a truthy value, in enumeration order. *)
Fixpoint indexed (i : nat) (l : list JsValue) : list (string * JsValue) :=
  match l with
  | [] => []
  | x :: rest =>
      (NilZero.string_of_uint (Nat.to_uint i), x) :: indexed (S i) rest
  end.

Definition entries (v : JsValue) : list (string * JsValue) :=
  match v with
  | JObj fields => fields
  | JArr items => indexed 0 items
  | JStr s =>
      indexed 0 (map (fun c => JStr (String c EmptyString)) (list_ascii_of_string s))
  | _ => []
  end.

(** The expression [String(o.key ?? dflt)]. *)
Definition stringOr (o : JsValue) (key : string) (dflt : JsValue)
  : Exc JsValue :=
  v <- getProp o key ;;
  String_ (coalesce v dflt).

(** The expression [o.key ? String(o.key) : undefined]. *)
Definition stringIfTruthy (o : JsValue) (key : string) : Exc JsValue :=
  v <- getProp o key ;;
  if truthy v then String_ v else Ret JUndefined.

(** Optional input arguments as values. *)
Definition ofOptString (o : option string) : JsValue :=
  match o with Some s => JStr s | None => JUndefined end.

Definition ofOptNumber (o : option number) : JsValue :=
  match o with Some n => JNum n | None => JUndefined end.

Definition ofOptBool (o : option bool) : JsValue :=
  match o with Some b => JBool b | None => JUndefined end.

Definition ofOpt (o : option JsValue) : JsValue :=
  match o with Some v => v | None => JUndefined end.

End Js.

(* ================================================================== *)
(** ** The URL class, for the URLs of callApi *)
(* ================================================================== *)

(** [callApi] builds [new URL(BASE_URL + path)], sets search parameters on
    it and hands [url.toString()] to [fetch].  The module follows the URL
    Standard on inputs that start with the constant [BASE_URL]: the scheme
    [https], the host and the first path segment come from the constant,
    and the rest of the input goes through the path, query and fragment
    states of the parser.  Strings that stand for bytes hold one byte per
    character. *)
Module Url.

Local Open Scope nat_scope.

Definition origin : string := "https://api.webflow.com".

Definition BASE_URL : string := origin ++ "/v2".

Definition code (c : ascii) : nat := nat_of_ascii c.

(** *** Percent-encoding *)

Definition hexDigit (n : nat) : ascii :=
  ascii_of_nat (if n <? 10 then 48 + n else 55 + n).

Definition percentByte (n : nat) : string :=
  String "%" (String (hexDigit (n / 16)) (String (hexDigit (n mod 16)) "")).

(** The UTF-8 bytes of a code unit below 256. *)
Definition utf8 (c : ascii) : list nat :=
  if code c <? 128 then [code c]
  else [192 + code c / 64; 128 + code c mod 64].

(** A string of code units as the string of its UTF-8 bytes. *)
Fixpoint utf8Bytes (s : string) : string :=
  match s with
  | EmptyString => ""
  | String c rest =>
      (if code c <? 128 then String c ""
       else String (ascii_of_nat (192 + code c / 64))
              (String (ascii_of_nat (128 + code c mod 64)) ""))
      ++ utf8Bytes rest
  end.

(** The percent-encode sets, on code points below 128; every code point
    from 128 up is in each of them. *)
Definition c0ControlSet (n : nat) : bool := (n <=? 31) || (n =? 127).

Definition fragmentSet (n : nat) : bool :=
  c0ControlSet n || existsb (Nat.eqb n) [32; 34; 60; 62; 96].

Definition querySet (n : nat) : bool :=
  c0ControlSet n || existsb (Nat.eqb n) [32; 34; 35; 60; 62].

Definition specialQuerySet (n : nat) : bool := querySet n || (n =? 39).

Definition pathSet (n : nat) : bool :=
  querySet n || existsb (Nat.eqb n) [63; 94; 96; 123; 125].

(** UTF-8 percent-encode of a code unit with a set. *)
Definition percentEncode (inSet : nat -> bool) (c : ascii) : string :=
  if code c <? 128
  then (if inSet (code c) then percentByte (code c) else String c "")
  else String.concat "" (map percentByte (utf8 c)).

Fixpoint encodeWith (inSet : nat -> bool) (s : string) : string :=
  match s with
  | EmptyString => ""
  | String c rest => percentEncode inSet c ++ encodeWith inSet rest
  end.

(** *** Cleaning and cutting the input *)

Definition isC0OrSpace (c : ascii) : bool := code c <=? 32.

Definition isTabOrNewline (c : ascii) : bool :=
  existsb (Nat.eqb (code c)) [9; 10; 13].

(** Without the trailing C0 controls and spaces. *)
Fixpoint stripTrailing (s : string) : string :=
  match s with
  | EmptyString => ""
  | String c rest =>
      match stripTrailing rest with
      | EmptyString => if isC0OrSpace c then "" else String c ""
      | kept => String c kept
      end
  end.

Fixpoint removeTabsAndNewlines (s : string) : string :=
  match s with
  | EmptyString => ""
  | String c rest =>
      if isTabOrNewline c then removeTabsAndNewlines rest
      else String c (removeTabsAndNewlines rest)
  end.

(** The part before the first [c], and the part after it when there is
    one. *)
Fixpoint cut (c : ascii) (s : string) : string * option string :=
  match s with
  | EmptyString => ("", None)
  | String d rest =>
      if (c =? d)%char then ("", Some rest)
      else let '(before, after) := cut c rest in (String d before, after)
  end.

(** *** The path state *)

Definition lowerAscii (c : ascii) : ascii :=
  if (65 <=? code c) && (code c <=? 90) then ascii_of_nat (code c + 32) else c.

Fixpoint lower (s : string) : string :=
  match s with
  | EmptyString => ""
  | String c rest => String (lowerAscii c) (lower rest)
  end.

Definition isSingleDot (buffer : string) : bool :=
  existsb (String.eqb (lower buffer)) ["."; "%2e"].

Definition isDoubleDot (buffer : string) : bool :=
  existsb (String.eqb (lower buffer)) [".."; ".%2e"; "%2e."; "%2e%2e"].

Definition isSeparator (c : ascii) : bool := (c =? "/")%char || (c =? "\")%char.

(** The buffer meets a separator. *)
Definition flushSeparator (buffer : string) (path : list string)
  : list string :=
  if isDoubleDot buffer then removelast path
  else if isSingleDot buffer then path
  else (path ++ [buffer])%list.

(** The buffer meets the end of the path. *)
Definition flushEnd (buffer : string) (path : list string) : list string :=
  if isDoubleDot buffer then (removelast path ++ [""])%list
  else if isSingleDot buffer then (path ++ [""])%list
  else (path ++ [buffer])%list.

Fixpoint pathState (input : string) (path : list string) (buffer : string)
  : list string :=
  match input with
  | EmptyString => flushEnd buffer path
  | String c rest =>
      if isSeparator c then pathState rest (flushSeparator buffer path) ""
      else pathState rest path (buffer ++ percentEncode pathSet c)
  end.

(** *** The URL record and its serialization *)

Record URL : Type := mkURL
  { pathname : list string;
    query : option string;
    fragment : option string }.

(** [new URL(BASE_URL + path)].  The input starts with a letter, so
    only its end is stripped, and the constant has no character that is
    removed. *)
Definition parse (path : string) : URL :=
  let input := removeTabsAndNewlines (stripTrailing path) in
  let '(beforeFragment, rawFragment) := cut "#" input in
  let '(rawPath, rawQuery) := cut "?" beforeFragment in
  {| pathname := pathState ("v2" ++ rawPath) [] "";
     query := option_map (encodeWith specialQuerySet) rawQuery;
     fragment := option_map (encodeWith fragmentSet) rawFragment |}.

Fixpoint serializePath (path : list string) : string :=
  match path with
  | [] => ""
  | segment :: rest => "/" ++ segment ++ serializePath rest
  end.

(** [url.toString()] *)
Definition href (u : URL) : string :=
  origin ++ serializePath (pathname u)
  ++ match query u with Some q => "?" ++ q | None => "" end
  ++ match fragment u with Some f => "#" ++ f | None => "" end.

(** *** The search parameters *)

Definition hexValue (c : ascii) : option nat :=
  let n := code c in
  if (48 <=? n) && (n <=? 57) then Some (n - 48)
  else if (65 <=? n) && (n <=? 70) then Some (n - 55)
  else if (97 <=? n) && (n <=? 102) then Some (n - 87)
  else None.

Fixpoint percentDecode (s : string) : string :=
  match s with
  | EmptyString => ""
  | String c tail =>
      match tail with
      | String h (String l rest) =>
          match (c =? "%")%char, hexValue h, hexValue l with
          | true, Some a, Some b =>
              String (ascii_of_nat (16 * a + b)) (percentDecode rest)
          | _, _, _ => String c (percentDecode tail)
          end
      | _ => String c (percentDecode tail)
      end
  end.

(** The bytes of U+FFFD. *)
Definition replacement : string :=
  String (ascii_of_nat 239) (String (ascii_of_nat 191)
    (String (ascii_of_nat 189) "")).

(** The state of the UTF-8 decoder inside a sequence: the bytes still
    needed, the bounds of the next byte, and the bytes seen. *)
Definition Pending : Type := nat * nat * nat * string.

(** The decoder on a byte at the start of a sequence. *)
Definition startByte (b : ascii) : string * option Pending :=
  let n := code b in
  if n <=? 127 then (String b "", None)
  else if (194 <=? n) && (n <=? 223) then ("", Some (1, 128, 191, String b ""))
  else if (224 <=? n) && (n <=? 239)
  then ("", Some (2, if n =? 224 then 160 else 128,
                  if n =? 237 then 159 else 191, String b ""))
  else if (240 <=? n) && (n <=? 244)
  then ("", Some (3, if n =? 240 then 144 else 128,
                  if n =? 244 then 143 else 191, String b ""))
  else (replacement, None).

(** UTF-8 decode without BOM, the text again as UTF-8 bytes: a well-formed
    sequence is kept and every error gives U+FFFD. *)
Fixpoint utf8Decode (input : string) (state : option Pending) : string :=
  match input with
  | EmptyString =>
      match state with Some _ => replacement | None => "" end
  | String b rest =>
      match state with
      | None =>
          let '(out, next) := startByte b in out ++ utf8Decode rest next
      | Some (needed, lowerBound, upperBound, seen) =>
          if (lowerBound <=? code b) && (code b <=? upperBound)
          then
            match needed with
            | S (S k) =>
                utf8Decode rest (Some (S k, 128, 191, seen ++ String b ""))
            | _ => seen ++ String b "" ++ utf8Decode rest None
            end
          else
            let '(out, next) := startByte b in
            replacement ++ out ++ utf8Decode rest next
      end
  end.

Fixpoint splitOn (sep : ascii) (s : string) : list string :=
  match s with
  | EmptyString => [""]
  | String c rest =>
      if (c =? sep)%char then "" :: splitOn sep rest
      else
        match splitOn sep rest with
        | first :: others => String c first :: others
        | [] => [String c ""]
        end
  end.

Fixpoint plusToSpace (s : string) : string :=
  match s with
  | EmptyString => ""
  | String c rest =>
      String (if (c =? "+")%char then " "%char else c) (plusToSpace rest)
  end.

Definition decodeComponent (s : string) : string :=
  utf8Decode (percentDecode (plusToSpace s)) None.

(** The application/x-www-form-urlencoded parser, on a query. *)
Definition parseForm (q : string) : list (string * string) :=
  flat_map
    (fun piece =>
       match piece with
       | EmptyString => []
       | _ =>
           let '(name, value) := cut "=" piece in
           [(decodeComponent name,
             decodeComponent (match value with Some v => v | None => "" end))]
       end)
    (splitOn "&" q).

Definition isAlphanumeric (n : nat) : bool :=
  ((48 <=? n) && (n <=? 57)) || ((65 <=? n) && (n <=? 90))
  || ((97 <=? n) && (n <=? 122)).

(** The serializer of a byte: letters, digits and [*-._] stay, a space
    becomes a plus sign, every other byte is percent-encoded. *)
Definition formByte (c : ascii) : string :=
  let n := code c in
  if isAlphanumeric n || existsb (Nat.eqb n) [42; 45; 46; 95] then String c ""
  else if n =? 32 then "+"
  else percentByte n.

Fixpoint formEncode (bytes : string) : string :=
  match bytes with
  | EmptyString => ""
  | String c rest => formByte c ++ formEncode rest
  end.

Definition serializeForm (l : list (string * string)) : string :=
  String.concat "&"
    (map (fun nv => formEncode (fst nv) ++ "=" ++ formEncode (snd nv)) l).

(** [searchParams.set(name, value)] on the list: the first pair of that
    name gets the value and the others of that name go, or the pair is
    appended. *)
Fixpoint setParam (name value : string) (l : list (string * string))
  : list (string * string) :=
  match l with
  | [] => [(name, value)]
  | (n, v) :: rest =>
      if (n =? name)%string
      then (n, value) :: filter (fun nv => negb (fst nv =? name)%string) rest
      else (n, v) :: setParam name value rest
  end.

(** The calls [url.searchParams.set(key, value)] for the pairs of [q], in
    order; each call writes the serialized list back as the query. *)
Definition setAll (q : list (string * string)) (u : URL) : URL :=
  match q with
  | [] => u
  | _ :: _ =>
      let l :=
        fold_left (fun l kv => setParam (utf8Bytes (fst kv)) (utf8Bytes (snd kv)) l)
          q (parseForm (match query u with Some s => s | None => "" end)) in
      {| pathname := pathname u;
         query := Some (serializeForm l);
         fragment := fragment u |}
  end.

(** The string [callApi] hands to [fetch] for a path and the search
    parameters it sets. *)
Definition requested (path : string) (q : list (string * string)) : string :=
  href (setAll q (parse path)).

End Url.

(* ================================================================== *)
(** ** The part of zod the output schemas use *)
(* ================================================================== *)

Module Zod.
Import Js.

(** [z.string()], [z.number()], [z.boolean()], [z.unknown()],
    [s.optional()], [z.array(s)], [z.record(z.string(), s)] and
    [z.object({ key: s, ... })]. *)
#[warnings="-register-all"]
Inductive Schema : Type :=
| ZString
| ZNumber
| ZBoolean
| ZUnknown
| ZOptional (s : Schema)
| ZArray (item : Schema)
| ZRecord (value : Schema)
| ZObject (shape : list (string * Schema)).

End Zod.

(* ================================================================== *)
(** ** The Webflow tools ([src/index.ts]) *)
(* ================================================================== *)

Module Webflow.
Import Js Zod.

Inductive Method : Type := GET | POST | PUT.

(** A call of [fetch].  [url] is the string [fetch] receives,
    [url.toString()]; [path] and [query] are what [callApi] built the URL
    from, its path argument and the search parameters it set, in order;
    [body] is the value handed to [JSON.stringify]. *)
Record Request : Type := mkRequest
  { url : string;
    path : string;
    query : list (string * string);
    method : Method;
    authorization : string;
    contentTypeJson : bool;
    body : option JsValue }.

(** The part of a [fetch] response the code reads. *)
Record Response : Type := mkResponse
  { ok : bool;
    status : number;
    text : Exc string;
    json : Exc JsValue }.

Inductive FetchOutcome : Type :=
| FetchRejects (t : Thrown)
| FetchResolves (r : Response).

(** Everything outside the source: the process environment, the network
    (which may answer according to the calls received so far) and the
    runtime's parser of numeric strings. *)
Record World : Type := mkWorld
  { WEBFLOW_API_KEY : option string;
    WEBFLOW_SITE_ID : option string;
    fetch : list Request -> Request -> FetchOutcome;
    StringToNumber : string -> number }.

Definition await_fetch (w : World) (req : Request) : M Request Response :=
  fun log =>
    match fetch w log req with
    | FetchRejects t => (Raise t, (log ++ [req])%list)
    | FetchResolves r => (Ret r, (log ++ [req])%list)
    end.

Definition getApiKey (w : World) : Exc string :=
  match WEBFLOW_API_KEY w with
  | Some apiKey =>
      if apiKey =? ""
      then Raise (ThrowError "WEBFLOW_API_KEY environment variable is required")
      else Ret apiKey
  | None => Raise (ThrowError "WEBFLOW_API_KEY environment variable is required")
  end.

Record Options : Type := mkOptions
  { opt_method : option Method;
    opt_body : option JsValue;
    opt_params : option (list (string * JsValue)) }.

Definition noOptions : Options :=
  {| opt_method := None; opt_body := None; opt_params := None |}.

(** The loop over [Object.entries(params)]: entries whose value is
    [undefined] are skipped, the others are set as strings. *)
Fixpoint searchParams (params : list (string * JsValue))
  : Exc (list (string * string)) :=
  match params with
  | [] => Ret []
  | (key, value) :: rest =>
      match value with
      | JUndefined => searchParams rest
      | _ =>
          s <- ToString value ;;
          q <- searchParams rest ;;
          ret ((key, s) :: q)
      end
  end.

(** The end of [callApi]: a failure status throws with the status and the
    body text, a success status gives the parsed body. *)
Definition readResponse (response : Response) : Exc JsValue :=
  if negb (ok response)
  then
    text <- text response ;;
    Raise (ThrowError ("Webflow API error " ++ NumberToString (status response)
                         ++ ": " ++ text))
  else json response.

Definition callApi (w : World) (path : string) (options : Options)
  : M Request JsValue :=
  let method := match opt_method options with Some m => m | None => GET end in
  query <- lift (match opt_params options with
                 | Some params => searchParams params
                 | None => Ret []
                 end) ;;
  apiKey <- lift (getApiKey w) ;;
  response <- await_fetch w
                {| url := Url.requested path query;
                   path := path;
                   query := query;
                   method := method;
                   authorization := "Bearer " ++ apiKey;
                   contentTypeJson :=
                     match opt_body options with Some _ => true | None => false end;
                   body := opt_body options |} ;;
  lift (readResponse response).

Definition getDefaultSiteId (w : World) : string :=
  match WEBFLOW_SITE_ID w with
  | Some s => s
  | None => ""
  end.

Definition resolveSiteId (w : World) (siteId : option string) : Exc string :=
  let resolved :=
    match siteId with
    | Some s => if s =? "" then getDefaultSiteId w else s
    | None => getDefaultSiteId w
    end in
  if resolved =? ""
  then Raise (ThrowError "A site ID is required. Either pass a siteId or set the WEBFLOW_SITE_ID environment variable.")
  else Ret resolved.

Definition getStringField (obj : JsValue) (snakeCase camelCase : string)
  : Exc JsValue :=
  a <- getProp obj snakeCase ;;
  if truthy a then String_ a
  else
    b <- getProp obj camelCase ;;
    if truthy b then String_ b
    else Ret JUndefined.

(** The object literal assigned to [fields[key]] in the loop of
    [parseFormFields]. *)
Definition parseFormFields_field (value : JsValue) : Exc JsValue :=
  displayName <- stringIfTruthy value "displayName" ;;
  type <- stringIfTruthy value "type" ;;
  ret (JObj [("displayName", displayName); ("type", type)]).

Fixpoint parseFormFields_loop (rawEntries : list (string * JsValue))
  (fields : list (string * JsValue)) : Exc (list (string * JsValue)) :=
  match rawEntries with
  | [] => Ret fields
  | (key, value) :: rest =>
      field <- parseFormFields_field value ;;
      parseFormFields_loop rest (assignField key field fields)
  end.

Definition parseFormFields (rawFields : JsValue) : Exc JsValue :=
  if negb (truthy rawFields) then Ret JUndefined
  else
    fields <- parseFormFields_loop (entries rawFields) [] ;;
    ret (match fields with
         | [] => JUndefined
         | _ :: _ => JObj fields
         end).

(** The mapper [(d) => ({ id: String(d.id ?? ""), url: String(d.url ?? "") })]
    of [listSites] and [publishSite]. *)
Definition domainInfo (d : JsValue) : Exc JsValue :=
  id <- stringOr d "id" (JStr "") ;;
  url <- stringOr d "url" (JStr "") ;;
  ret (JObj [("id", id); ("url", url)]).

(** The pagination echo shared by the four paginated list tools. *)
Definition paginationEcho (w : World) (response : JsValue) : Exc JsValue :=
  pagination <- getProp response "pagination" ;;
  if truthy pagination
  then
    limit <- (v <- getProp pagination "limit" ;;
              ToNumber (StringToNumber w) (coalesce v (JNum (Int 0)))) ;;
    offset <- (v <- getProp pagination "offset" ;;
               ToNumber (StringToNumber w) (coalesce v (JNum (Int 0)))) ;;
    total <- (v <- getProp pagination "total" ;;
              ToNumber (StringToNumber w) (coalesce v (JNum (Int 0)))) ;;
    ret (JObj [("limit", limit); ("offset", offset); ("total", total)])
  else Ret JUndefined.

(** *** Output schemas *)

(** The object schema of a custom domain, which [SiteInfoSchema] and
    [PublishSiteResultSchema] both spell out. *)
Definition DomainSchema : Schema :=
  ZObject [("id", ZString); ("url", ZString)].

Definition SiteInfoSchema : Schema :=
  ZObject [("id", ZString);
           ("displayName", ZString);
           ("shortName", ZString);
           ("lastPublished", ZOptional ZString);
           ("lastUpdated", ZOptional ZString);
           ("previewUrl", ZOptional ZString);
           ("timeZone", ZOptional ZString);
           ("customDomains", ZOptional (ZArray DomainSchema))].

Definition ListSitesResultSchema : Schema :=
  ZObject [("sites", ZArray SiteInfoSchema);
           ("count", ZNumber);
           ("error", ZOptional ZString)].

Definition PublishSiteResultSchema : Schema :=
  ZObject [("success", ZBoolean);
           ("publishedDomains", ZOptional (ZArray DomainSchema));
           ("error", ZOptional ZString)].

Definition PageInfoSchema : Schema :=
  ZObject [("id", ZString);
           ("title", ZString);
           ("slug", ZString);
           ("archived", ZOptional ZBoolean);
           ("draft", ZOptional ZBoolean);
           ("createdOn", ZOptional ZString);
           ("lastUpdated", ZOptional ZString);
           ("publishedPath", ZOptional ZString);
           ("seo",
            ZOptional (ZObject [("title", ZOptional ZString);
                                ("description", ZOptional ZString)]))].

(** The pagination object the four paginated results spell out. *)
Definition PaginationSchema : Schema :=
  ZObject [("limit", ZNumber); ("offset", ZNumber); ("total", ZNumber)].

Definition ListPagesResultSchema : Schema :=
  ZObject [("pages", ZArray PageInfoSchema);
           ("count", ZNumber);
           ("pagination", ZOptional PaginationSchema);
           ("error", ZOptional ZString)].

Definition FormInfoSchema : Schema :=
  ZObject [("id", ZString);
           ("displayName", ZString);
           ("pageId", ZOptional ZString);
           ("pageName", ZOptional ZString);
           ("formElementId", ZOptional ZString);
           ("fields",
            ZOptional (ZRecord (ZObject [("displayName", ZOptional ZString);
                                         ("type", ZOptional ZString)])));
           ("createdOn", ZOptional ZString);
           ("lastUpdated", ZOptional ZString)].

Definition ListFormsResultSchema : Schema :=
  ZObject [("forms", ZArray FormInfoSchema);
           ("count", ZNumber);
           ("pagination", ZOptional PaginationSchema);
           ("error", ZOptional ZString)].

Definition FormSubmissionSchema : Schema :=
  ZObject [("id", ZString);
           ("displayName", ZOptional ZString);
           ("dateSubmitted", ZOptional ZString);
           ("formResponse", ZOptional (ZRecord ZUnknown))].

Definition ListFormSubmissionsResultSchema : Schema :=
  ZObject [("formSubmissions", ZArray FormSubmissionSchema);
           ("count", ZNumber);
           ("pagination", ZOptional PaginationSchema);
           ("error", ZOptional ZString)].

Definition ScriptSchema : Schema :=
  ZObject [("id", ZString); ("location", ZString); ("version", ZString)].

Definition CustomCodeBlockSchema : Schema :=
  ZObject [("siteId", ZString);
           ("pageId", ZOptional ZString);
           ("type", ZOptional ZString);
           ("scripts", ZArray ScriptSchema);
           ("createdOn", ZOptional ZString);
           ("lastUpdated", ZOptional ZString)].

Definition ListCustomCodeResultSchema : Schema :=
  ZObject [("blocks", ZArray CustomCodeBlockSchema);
           ("count", ZNumber);
           ("pagination", ZOptional PaginationSchema);
           ("error", ZOptional ZString)].

Definition AddCustomCodeResultSchema : Schema :=
  ZObject [("success", ZBoolean);
           ("scriptId", ZString);
           ("appliedTo", ZOptional ZString);
           ("error", ZOptional ZString)].

(** *** listSites *)

Definition listSites_site (raw : JsValue) : Exc JsValue :=
  domains <- getProp raw "customDomains" ;;
  id <- stringOr raw "id" (JStr "") ;;
  displayName <- stringOr raw "displayName" (JStr "") ;;
  shortName <- stringOr raw "shortName" (JStr "") ;;
  lastPublished <- getStringField raw "last_published" "lastPublished" ;;
  lastUpdated <- getStringField raw "last_updated" "lastUpdated" ;;
  previewUrl <- stringIfTruthy raw "previewUrl" ;;
  timeZone <- stringIfTruthy raw "timeZone" ;;
  designerUrl <- (v <- getProp raw "shortName" ;;
                  s <- ToString v ;;
                  ret (JStr ("https://" ++ s ++ ".design.webflow.com"))) ;;
  settingsUrl <- (v <- getProp raw "shortName" ;;
                  s <- ToString v ;;
                  ret (JStr ("https://webflow.com/dashboard/sites/" ++ s
                               ++ "/general"))) ;;
  customDomains <- optArrayMap "domains" domainInfo domains ;;
  ret (JObj [("id", id);
             ("displayName", displayName);
             ("shortName", shortName);
             ("lastPublished", lastPublished);
             ("lastUpdated", lastUpdated);
             ("previewUrl", previewUrl);
             ("timeZone", timeZone);
             ("designerUrl", designerUrl);
             ("settingsUrl", settingsUrl);
             ("customDomains", customDomains)]).

Definition listSites_try (w : World) : M Request JsValue :=
  response <- callApi w "/sites" noOptions ;;
  lift (v <- getProp response "sites" ;;
        let rawSites := coalesce v (JArr []) in
        sites <- arrayMap "rawSites" listSites_site rawSites ;;
        ret (JObj [("sites", JArr sites); ("count", lengthOf sites)])).

Definition listSites_catch (error : Thrown) : M Request JsValue :=
  ret (JObj [("sites", JArr []);
             ("count", JNum (Int 0));
             ("error", JStr (errorMessage error "Failed to list sites"))]).

Definition listSites (w : World) : M Request JsValue :=
  try_catch (listSites_try w) listSites_catch.

(** *** publishSite *)

Definition publishSite_body (customDomains : option (list string))
  (publishToWebflowSubdomain : option bool) : JsValue :=
  let body :=
    [("publishToWebflowSubdomain",
      coalesce (ofOptBool publishToWebflowSubdomain) (JBool false))] in
  match customDomains with
  | Some (d :: ds) =>
      JObj (assignField "customDomains" (JArr (map JStr (d :: ds))) body)
  | _ => JObj body
  end.

(** The result built from the answer of the publish call. *)
Definition publishSite_result (response : JsValue) : Exc JsValue :=
  domains <- getProp response "customDomains" ;;
  publishedDomains <- optArrayMap "domains" domainInfo domains ;;
  ret (JObj [("success", JBool true);
             ("publishedDomains", publishedDomains)]).

Definition publishSite_try (w : World) (siteId : option string)
  (customDomains : option (list string))
  (publishToWebflowSubdomain : option bool) : M Request JsValue :=
  resolvedSiteId <- lift (resolveSiteId w siteId) ;;
  let body := publishSite_body customDomains publishToWebflowSubdomain in
  response <- callApi w ("/sites/" ++ resolvedSiteId ++ "/publish")
                {| opt_method := Some POST;
                   opt_body := Some body;
                   opt_params := None |} ;;
  lift (publishSite_result response).

Definition publishSite_catch (error : Thrown) : M Request JsValue :=
  ret (JObj [("success", JBool false);
             ("error", JStr (errorMessage error "Failed to publish site"))]).

Definition publishSite (w : World) (siteId : option string)
  (customDomains : option (list string))
  (publishToWebflowSubdomain : option bool) : M Request JsValue :=
  try_catch (publishSite_try w siteId customDomains publishToWebflowSubdomain)
    publishSite_catch.

(** *** listPages *)

(** The [seo] field of a page: [seo ? { title, description } : undefined]. *)
Definition listPages_seo (seo : JsValue) : Exc JsValue :=
  if truthy seo
  then
    title <- stringIfTruthy seo "title" ;;
    description <- stringIfTruthy seo "description" ;;
    ret (JObj [("title", title); ("description", description)])
  else Ret JUndefined.

Definition listPages_page (page : JsValue) : Exc JsValue :=
  seo <- getProp page "seo" ;;
  id <- stringOr page "id" (JStr "") ;;
  title <- stringOr page "title" (JStr "") ;;
  slug <- stringOr page "slug" (JStr "") ;;
  archived <- (v <- getProp page "archived" ;;
               ret (if truthy v then ToBoolean v else JUndefined)) ;;
  draft <- (v <- getProp page "draft" ;;
            ret (if truthy v then ToBoolean v else JUndefined)) ;;
  createdOn <- getStringField page "created_on" "createdOn" ;;
  lastUpdated <- getStringField page "last_updated" "lastUpdated" ;;
  publishedPath <- stringIfTruthy page "publishedPath" ;;
  seoOut <- listPages_seo seo ;;
  ret (JObj [("id", id);
             ("title", title);
             ("slug", slug);
             ("archived", archived);
             ("draft", draft);
             ("createdOn", createdOn);
             ("lastUpdated", lastUpdated);
             ("publishedPath", publishedPath);
             ("seo", seoOut)]).

(** The result built from the answer of the call. *)
Definition listPages_result (w : World) (response : JsValue) : Exc JsValue :=
  v <- getProp response "pages" ;;
  let rawPages := coalesce v (JArr []) in
  pages <- arrayMap "rawPages" listPages_page rawPages ;;
  pagination <- paginationEcho w response ;;
  ret (JObj [("pages", JArr pages);
             ("count", lengthOf pages);
             ("pagination", pagination)]).

Definition listPages_try (w : World) (siteId : option string)
  (limit offset : option number) : M Request JsValue :=
  resolvedSiteId <- lift (resolveSiteId w siteId) ;;
  response <- callApi w ("/sites/" ++ resolvedSiteId ++ "/pages")
                {| opt_method := None;
                   opt_body := None;
                   opt_params := Some [("limit", ofOptNumber limit);
                                       ("offset", ofOptNumber offset)] |} ;;
  lift (listPages_result w response).

Definition listPages_catch (error : Thrown) : M Request JsValue :=
  ret (JObj [("pages", JArr []);
             ("count", JNum (Int 0));
             ("error", JStr (errorMessage error "Failed to list pages"))]).

Definition listPages (w : World) (siteId : option string)
  (limit offset : option number) : M Request JsValue :=
  try_catch (listPages_try w siteId limit offset) listPages_catch.

(** *** listForms *)

Definition listForms_form (form : JsValue) : Exc JsValue :=
  id <- stringOr form "id" (JStr "") ;;
  displayName <- stringOr form "displayName" (JStr "") ;;
  pageId <- stringIfTruthy form "pageId" ;;
  pageName <- stringIfTruthy form "pageName" ;;
  formElementId <- getStringField form "form_element_id" "formElementId" ;;
  fields <- (v <- getProp form "fields" ;; parseFormFields v) ;;
  createdOn <- getStringField form "created_on" "createdOn" ;;
  lastUpdated <- getStringField form "last_updated" "lastUpdated" ;;
  ret (JObj [("id", id);
             ("displayName", displayName);
             ("pageId", pageId);
             ("pageName", pageName);
             ("formElementId", formElementId);
             ("fields", fields);
             ("createdOn", createdOn);
             ("lastUpdated", lastUpdated)]).

(** The result built from the answer of the call. *)
Definition listForms_result (w : World) (response : JsValue) : Exc JsValue :=
  v <- getProp response "forms" ;;
  let rawForms := coalesce v (JArr []) in
  forms <- arrayMap "rawForms" listForms_form rawForms ;;
  pagination <- paginationEcho w response ;;
  ret (JObj [("forms", JArr forms);
             ("count", lengthOf forms);
             ("pagination", pagination)]).

Definition listForms_try (w : World) (siteId : option string)
  (limit offset : option number) : M Request JsValue :=
  resolvedSiteId <- lift (resolveSiteId w siteId) ;;
  response <- callApi w ("/sites/" ++ resolvedSiteId ++ "/forms")
                {| opt_method := None;
                   opt_body := None;
                   opt_params := Some [("limit", ofOptNumber limit);
                                       ("offset", ofOptNumber offset)] |} ;;
  lift (listForms_result w response).

Definition listForms_catch (error : Thrown) : M Request JsValue :=
  ret (JObj [("forms", JArr []);
             ("count", JNum (Int 0));
             ("error", JStr (errorMessage error "Failed to list forms"))]).

Definition listForms (w : World) (siteId : option string)
  (limit offset : option number) : M Request JsValue :=
  try_catch (listForms_try w siteId limit offset) listForms_catch.

(** *** listFormSubmissions *)

Definition listFormSubmissions_submission (submission : JsValue)
  : Exc JsValue :=
  id <- stringOr submission "id" (JStr "") ;;
  displayName <- stringIfTruthy submission "displayName" ;;
  dateSubmitted <- getStringField submission "date_submitted" "dateSubmitted" ;;
  formResponse <- (v <- getProp submission "formResponse" ;;
                   ret (coalesce v (JObj []))) ;;
  ret (JObj [("id", id);
             ("displayName", displayName);
             ("dateSubmitted", dateSubmitted);
             ("formResponse", formResponse)]).

(** The result built from the answer of the call. *)
Definition listFormSubmissions_result (w : World) (response : JsValue)
  : Exc JsValue :=
  v <- getProp response "formSubmissions" ;;
  let rawSubmissions := coalesce v (JArr []) in
  formSubmissions <-
    arrayMap "rawSubmissions" listFormSubmissions_submission rawSubmissions ;;
  pagination <- paginationEcho w response ;;
  ret (JObj [("formSubmissions", JArr formSubmissions);
             ("count", lengthOf formSubmissions);
             ("pagination", pagination)]).

Definition listFormSubmissions_try (w : World) (siteId elementId : option string)
  (limit offset : option number) : M Request JsValue :=
  resolvedSiteId <- lift (resolveSiteId w siteId) ;;
  response <- callApi w ("/sites/" ++ resolvedSiteId ++ "/form_submissions")
                {| opt_method := None;
                   opt_body := None;
                   opt_params := Some [("elementId", ofOptString elementId);
                                       ("limit", ofOptNumber limit);
                                       ("offset", ofOptNumber offset)] |} ;;
  lift (listFormSubmissions_result w response).

Definition listFormSubmissions_catch (error : Thrown) : M Request JsValue :=
  ret (JObj [("formSubmissions", JArr []);
             ("count", JNum (Int 0));
             ("error",
              JStr (errorMessage error "Failed to list form submissions"))]).

Definition listFormSubmissions (w : World) (siteId elementId : option string)
  (limit offset : option number) : M Request JsValue :=
  try_catch (listFormSubmissions_try w siteId elementId limit offset)
    listFormSubmissions_catch.

(** *** listCustomCode *)

Definition listCustomCode_script (script : JsValue) : Exc JsValue :=
  id <- stringOr script "id" (JStr "") ;;
  location <- stringOr script "location" (JStr "") ;;
  version <- stringOr script "version" (JStr "") ;;
  ret (JObj [("id", id); ("location", location); ("version", version)]).

Definition listCustomCode_block (block : JsValue) : Exc JsValue :=
  rawScripts <- (v <- getProp block "scripts" ;; ret (coalesce v (JArr []))) ;;
  siteId <- stringOr block "siteId" (JStr "") ;;
  pageId <- stringIfTruthy block "pageId" ;;
  type <- stringIfTruthy block "type" ;;
  scripts <- arrayMap "rawScripts" listCustomCode_script rawScripts ;;
  createdOn <- getStringField block "created_on" "createdOn" ;;
  lastUpdated <- getStringField block "last_updated" "lastUpdated" ;;
  ret (JObj [("siteId", siteId);
             ("pageId", pageId);
             ("type", type);
             ("scripts", JArr scripts);
             ("createdOn", createdOn);
             ("lastUpdated", lastUpdated)]).

(** The result built from the answer of the call. *)
Definition listCustomCode_result (w : World) (response : JsValue) : Exc JsValue :=
  v <- getProp response "blocks" ;;
  let rawBlocks := coalesce v (JArr []) in
  blocks <- arrayMap "rawBlocks" listCustomCode_block rawBlocks ;;
  pagination <- paginationEcho w response ;;
  ret (JObj [("blocks", JArr blocks);
             ("count", lengthOf blocks);
             ("pagination", pagination)]).

Definition listCustomCode_try (w : World) (siteId : option string)
  (limit offset : option number) : M Request JsValue :=
  resolvedSiteId <- lift (resolveSiteId w siteId) ;;
  response <- callApi w ("/sites/" ++ resolvedSiteId ++ "/custom_code/blocks")
                {| opt_method := None;
                   opt_body := None;
                   opt_params := Some [("limit", ofOptNumber limit);
                                       ("offset", ofOptNumber offset)] |} ;;
  lift (listCustomCode_result w response).

Definition listCustomCode_catch (error : Thrown) : M Request JsValue :=
  ret (JObj [("blocks", JArr []);
             ("count", JNum (Int 0));
             ("error", JStr (errorMessage error "Failed to list custom code"))]).

Definition listCustomCode (w : World) (siteId : option string)
  (limit offset : option number) : M Request JsValue :=
  try_catch (listCustomCode_try w siteId limit offset) listCustomCode_catch.

(** *** addCustomCode *)

Inductive Target : Type := site | page.
Inductive Location : Type := header | footer.

Definition locationName (l : Location) : string :=
  match l with header => "header" | footer => "footer" end.

Definition isPage (t : Target) : bool :=
  match t with page => true | site => false end.

Record AddCustomCodeInput : Type := mkAddCustomCodeInput
  { siteId : option string;
    target : Target;
    pageId : option string;
    sourceCode : string;
    displayName : string;
    version : string;
    location : Location }.

(** The interpolation [${pageId}] of an optional string. *)
Definition interpolate (o : option string) : string :=
  match o with Some s => s | None => "undefined" end.

(** The message of the first guard; the word page is quoted in it. *)
Definition pageIdRequired : string :=
  "A pageId is required when target is " ++ quoted "page"
    ++ ". Use listPages to find page IDs.".

Definition addCustomCode_try (w : World) (i : AddCustomCodeInput)
  : M Request JsValue :=
  if isPage (target i) && negb (truthy (ofOptString (pageId i)))
  then ret (JObj [("success", JBool false);
                  ("scriptId", JStr "");
                  ("error", JStr pageIdRequired)])
  else if (2000 <? String.length (sourceCode i))%nat
  then ret (JObj [("success", JBool false);
                  ("scriptId", JStr "");
                  ("error",
                   JStr ("Script exceeds the 2000 character limit ("
                         ++ NumberToString
                              (Int (Z.of_nat (String.length (sourceCode i))))
                         ++ " characters). Consider hosting the script externally."))])
  else
    resolvedSiteId <- lift (resolveSiteId w (siteId i)) ;;
    registered <- callApi w
                    ("/sites/" ++ resolvedSiteId ++ "/registered_scripts/inline")
                    {| opt_method := Some POST;
                       opt_body :=
                         Some (JObj [("sourceCode", JStr (sourceCode i));
                                     ("version", JStr (version i));
                                     ("displayName", JStr (displayName i))]);
                       opt_params := None |} ;;
    scriptId <- lift (v <- getProp registered "id" ;;
                      ToString (coalesce v (JStr ""))) ;;
    if scriptId =? ""
    then ret (JObj [("success", JBool false);
                    ("scriptId", JStr "");
                    ("error",
                     JStr "Failed to register script: no script ID returned")])
    else
      let scriptPayload :=
        JObj [("scripts",
               JArr [JObj [("id", JStr scriptId);
                           ("location", JStr (locationName (location i)));
                           ("version", JStr (version i))]])] in
      _ <- (if isPage (target i) && truthy (ofOptString (pageId i))
            then callApi w ("/pages/" ++ interpolate (pageId i) ++ "/custom_code")
                   {| opt_method := Some PUT;
                      opt_body := Some scriptPayload;
                      opt_params := None |}
            else callApi w ("/sites/" ++ resolvedSiteId ++ "/custom_code")
                   {| opt_method := Some PUT;
                      opt_body := Some scriptPayload;
                      opt_params := None |}) ;;
      ret (JObj [("success", JBool true);
                 ("scriptId", JStr scriptId);
                 ("appliedTo",
                  JStr (if isPage (target i)
                        then "page:" ++ interpolate (pageId i)
                        else "site:" ++ resolvedSiteId))]).

Definition addCustomCode_catch (error : Thrown) : M Request JsValue :=
  ret (JObj [("success", JBool false);
             ("scriptId", JStr "");
             ("error", JStr (errorMessage error "Failed to add custom code"))]).

Definition addCustomCode (w : World) (i : AddCustomCodeInput)
  : M Request JsValue :=
  try_catch (addCustomCode_try w i) addCustomCode_catch.

(** *** The seven tools together *)

Inductive ToolCall : Type :=
| ListSites
| PublishSite (siteId : option string) (customDomains : option (list string))
    (publishToWebflowSubdomain : option bool)
| ListPages (siteId : option string) (limit offset : option number)
| ListForms (siteId : option string) (limit offset : option number)
| ListFormSubmissions (siteId elementId : option string)
    (limit offset : option number)
| ListCustomCode (siteId : option string) (limit offset : option number)
| AddCustomCode (input : AddCustomCodeInput).

Definition tryBlock (w : World) (c : ToolCall) : M Request JsValue :=
  match c with
  | ListSites => listSites_try w
  | PublishSite s d p => publishSite_try w s d p
  | ListPages s l o => listPages_try w s l o
  | ListForms s l o => listForms_try w s l o
  | ListFormSubmissions s e l o => listFormSubmissions_try w s e l o
  | ListCustomCode s l o => listCustomCode_try w s l o
  | AddCustomCode i => addCustomCode_try w i
  end.

Definition catchBlock (c : ToolCall) : Thrown -> M Request JsValue :=
  match c with
  | ListSites => listSites_catch
  | PublishSite _ _ _ => publishSite_catch
  | ListPages _ _ _ => listPages_catch
  | ListForms _ _ _ => listForms_catch
  | ListFormSubmissions _ _ _ _ => listFormSubmissions_catch
  | ListCustomCode _ _ _ => listCustomCode_catch
  | AddCustomCode _ => addCustomCode_catch
  end.

Definition execute (w : World) (c : ToolCall) : M Request JsValue :=
  match c with
  | ListSites => listSites w
  | PublishSite s d p => publishSite w s d p
  | ListPages s l o => listPages w s l o
  | ListForms s l o => listForms w s l o
  | ListFormSubmissions s e l o => listFormSubmissions w s e l o
  | ListCustomCode s l o => listCustomCode w s l o
  | AddCustomCode i => addCustomCode w i
  end.

Definition outputSchema (c : ToolCall) : Schema :=
  match c with
  | ListSites => ListSitesResultSchema
  | PublishSite _ _ _ => PublishSiteResultSchema
  | ListPages _ _ _ => ListPagesResultSchema
  | ListForms _ _ _ => ListFormsResultSchema
  | ListFormSubmissions _ _ _ _ => ListFormSubmissionsResultSchema
  | ListCustomCode _ _ _ => ListCustomCodeResultSchema
  | AddCustomCode _ => AddCustomCodeResultSchema
  end.

(** The key of the collection a list tool returns; [None] for the tools
    that report [success]. *)
Definition collectionKey (c : ToolCall) : option string :=
  match c with
  | ListSites => Some "sites"
  | ListPages _ _ _ => Some "pages"
  | ListForms _ _ _ => Some "forms"
  | ListFormSubmissions _ _ _ _ => Some "formSubmissions"
  | ListCustomCode _ _ _ => Some "blocks"
  | PublishSite _ _ _ | AddCustomCode _ => None
  end.

End Webflow.

(* ================================================================== *)
(** ** The Resend tools (the second [index.ts]) *)
(* ================================================================== *)

Module Resend.
Import Js Zod.

(** The SDK methods the tools call, with their argument. *)
Inductive SdkCall : Type :=
| EmailsSend (params : JsValue)
| BatchSend (emails : JsValue)
| EmailsGet (emailId : string)
| EmailsList
| ContactsCreate (params : JsValue)
| ContactsList
| ContactsRemove (options : JsValue)
| TemplatesList (params : JsValue)
| TemplatesGet (id : string).

(** A call on a client built by [new Resend(apiKey)]. *)
Record Request : Type := mkRequest
  { clientKey : string;
    call : SdkCall }.

(** The promise an SDK method returns rejects, or resolves to a value that
    the tools destructure as [{ data, error }]. *)
Inductive SdkOutcome : Type :=
| SdkRejects (t : Thrown)
| SdkResolves (v : JsValue).

Record World : Type := mkWorld
  { RESEND_API_KEY : option string;
    RESEND_EMAIL_DOMAIN : option string;
    sdk : list Request -> Request -> SdkOutcome }.

(** The client is the key it was built with. *)
Definition getClient (w : World) : Exc string :=
  match RESEND_API_KEY w with
  | Some apiKey =>
      if apiKey =? ""
      then Raise (ThrowError "RESEND_API_KEY environment variable is required")
      else Ret apiKey
  | None => Raise (ThrowError "RESEND_API_KEY environment variable is required")
  end.

Definition getEmailDomain (w : World) : string :=
  match RESEND_EMAIL_DOMAIN w with
  | Some d => d
  | None => ""
  end.

(** [const { data, error } = await resend.<method>(...)] *)
Definition await_sdk (w : World) (resend : string) (c : SdkCall)
  : M Request (JsValue * JsValue) :=
  fun log =>
    let req := {| clientKey := resend; call := c |} in
    match sdk w log req with
    | SdkRejects t => (Raise t, (log ++ [req])%list)
    | SdkResolves v =>
        ((data <- destructured v "data" ;;
          error <- getProp v "error" ;;
          ret (data, error)), (log ++ [req])%list)
    end.

Definition getStringField (obj : JsValue) (snakeCase camelCase : string)
  : Exc JsValue :=
  a <- getProp obj snakeCase ;;
  if truthy a then String_ a
  else
    b <- getProp obj camelCase ;;
    if truthy b then String_ b
    else Ret JUndefined.

Definition toStringArray (value : JsValue) : JsValue :=
  match value with
  | JArr _ => value
  | JStr _ => JArr [value]
  | _ => JArr []
  end.

(** [if (v !== undefined) { params.key = v; }] *)
Definition setIfDefined (key : string) (v : JsValue)
  (params : list (string * JsValue)) : list (string * JsValue) :=
  match v with
  | JUndefined => params
  | _ => assignField key v params
  end.

Definition strings (l : list string) : JsValue := JArr (map JStr l).

Definition ofOptStrings (o : option (list string)) : JsValue :=
  match o with Some l => strings l | None => JUndefined end.

(** *** Output schemas *)

Definition SendResultSchema : Schema :=
  ZObject [("success", ZBoolean);
           ("id", ZString);
           ("error", ZOptional ZString)].

Definition BatchSendResultSchema : Schema :=
  ZObject [("success", ZBoolean);
           ("ids", ZArray ZString);
           ("count", ZNumber);
           ("error", ZOptional ZString)].

Definition EmailInfoSchema : Schema :=
  ZObject [("id", ZString);
           ("from", ZString);
           ("to", ZArray ZString);
           ("subject", ZString);
           ("lastEvent", ZOptional ZString);
           ("createdAt", ZOptional ZString)].

Definition GetEmailResultSchema : Schema :=
  ZObject [("success", ZBoolean);
           ("id", ZString);
           ("from", ZOptional ZString);
           ("to", ZOptional (ZArray ZString));
           ("subject", ZOptional ZString);
           ("lastEvent", ZOptional ZString);
           ("createdAt", ZOptional ZString);
           ("error", ZOptional ZString)].

Definition ListEmailsResultSchema : Schema :=
  ZObject [("emails", ZArray EmailInfoSchema);
           ("count", ZNumber);
           ("error", ZOptional ZString)].

Definition CreateContactResultSchema : Schema :=
  ZObject [("success", ZBoolean);
           ("id", ZString);
           ("error", ZOptional ZString)].

Definition ContactInfoSchema : Schema :=
  ZObject [("id", ZString);
           ("email", ZString);
           ("firstName", ZOptional ZString);
           ("lastName", ZOptional ZString);
           ("unsubscribed", ZBoolean)].

Definition ListContactsResultSchema : Schema :=
  ZObject [("contacts", ZArray ContactInfoSchema);
           ("count", ZNumber);
           ("error", ZOptional ZString)].

Definition RemoveContactResultSchema : Schema :=
  ZObject [("success", ZBoolean);
           ("deleted", ZBoolean);
           ("id", ZString);
           ("error", ZOptional ZString)].

Definition TemplateVariableSchema : Schema :=
  ZObject [("id", ZString);
           ("key", ZString);
           ("type", ZString);
           ("fallbackValue", ZOptional ZString)].

Definition TemplateInfoSchema : Schema :=
  ZObject [("id", ZString);
           ("name", ZString);
           ("alias", ZOptional ZString);
           ("status", ZString);
           ("createdAt", ZOptional ZString);
           ("updatedAt", ZOptional ZString);
           ("publishedAt", ZOptional ZString)].

Definition GetTemplateResultSchema : Schema :=
  ZObject [("success", ZBoolean);
           ("id", ZString);
           ("name", ZOptional ZString);
           ("alias", ZOptional ZString);
           ("status", ZOptional ZString);
           ("from", ZOptional ZString);
           ("subject", ZOptional ZString);
           ("replyTo", ZOptional ZString);
           ("variables", ZOptional (ZArray TemplateVariableSchema));
           ("createdAt", ZOptional ZString);
           ("updatedAt", ZOptional ZString);
           ("publishedAt", ZOptional ZString);
           ("error", ZOptional ZString)].

Definition ListTemplatesResultSchema : Schema :=
  ZObject [("templates", ZArray TemplateInfoSchema);
           ("count", ZNumber);
           ("hasMore", ZOptional ZBoolean);
           ("error", ZOptional ZString)].

(** *** sendEmail *)

Record SendEmailInput : Type := mkSendEmailInput
  { from : string;
    to : list string;
    subject : string;
    html : option string;
    text : option string;
    replyTo : option JsValue;
    cc : option (list string);
    bcc : option (list string);
    scheduledAt : option string;
    tags : option JsValue;
    attachments : option JsValue;
    template : option JsValue;
    topicId : option string }.

Definition sendEmail_params (i : SendEmailInput) : JsValue :=
  let params := [("from", JStr (from i));
                 ("to", strings (to i));
                 ("subject", JStr (subject i))] in
  let params := setIfDefined "html" (ofOptString (html i)) params in
  let params := setIfDefined "text" (ofOptString (text i)) params in
  let params := setIfDefined "replyTo" (ofOpt (replyTo i)) params in
  let params := setIfDefined "cc" (ofOptStrings (cc i)) params in
  let params := setIfDefined "bcc" (ofOptStrings (bcc i)) params in
  let params := setIfDefined "scheduledAt" (ofOptString (scheduledAt i)) params in
  let params := setIfDefined "tags" (ofOpt (tags i)) params in
  let params := setIfDefined "attachments" (ofOpt (attachments i)) params in
  let params := setIfDefined "template" (ofOpt (template i)) params in
  let params := setIfDefined "topicId" (ofOptString (topicId i)) params in
  JObj params.

Definition sendEmail_try (w : World) (i : SendEmailInput) : M Request JsValue :=
  resend <- lift (getClient w) ;;
  let params := sendEmail_params i in
  r <- await_sdk w resend (EmailsSend params) ;;
  let '(data, error) := r in
  if truthy error
  then lift (message <- getProp error "message" ;;
             ret (JObj [("success", JBool false);
                        ("id", JStr "");
                        ("error", message)]))
  else lift (id <- optProp data "id" ;;
             ret (JObj [("success", JBool true);
                        ("id", coalesce id (JStr ""))])).

Definition sendEmail_catch (error : Thrown) : M Request JsValue :=
  ret (JObj [("success", JBool false);
             ("id", JStr "");
             ("error", JStr (errorMessage error "Failed to send email"))]).

Definition sendEmail (w : World) (i : SendEmailInput) : M Request JsValue :=
  try_catch (sendEmail_try w i) sendEmail_catch.

(** *** sendBatchEmails *)

Definition sendBatchEmails_try (w : World) (emails : list JsValue)
  : M Request JsValue :=
  resend <- lift (getClient w) ;;
  r <- await_sdk w resend (BatchSend (JArr emails)) ;;
  let '(data, error) := r in
  if truthy error
  then lift (message <- getProp error "message" ;;
             ret (JObj [("success", JBool false);
                        ("ids", JArr []);
                        ("count", JNum (Int 0));
                        ("error", message)]))
  else lift (v <- optProp data "data" ;;
             let results := coalesce v (JArr []) in
             ids <- arrayMap "results" (fun r => getProp r "id") results ;;
             ret (JObj [("success", JBool true);
                        ("ids", JArr ids);
                        ("count", lengthOf ids)])).

Definition sendBatchEmails_catch (error : Thrown) : M Request JsValue :=
  ret (JObj [("success", JBool false);
             ("ids", JArr []);
             ("count", JNum (Int 0));
             ("error", JStr (errorMessage error "Failed to send batch emails"))]).

Definition sendBatchEmails (w : World) (emails : list JsValue)
  : M Request JsValue :=
  try_catch (sendBatchEmails_try w emails) sendBatchEmails_catch.

(** *** getEmail *)

(** The result built from the email the SDK returned. *)
Definition getEmail_result (emailId : string) (email : JsValue) : Exc JsValue :=
  id <- stringOr email "id" (JStr emailId) ;;
  from <- stringOr email "from" (JStr "") ;;
  to <- getProp email "to" ;;
  subject <- stringOr email "subject" (JStr "") ;;
  lastEvent <- getStringField email "last_event" "lastEvent" ;;
  createdAt <- getStringField email "created_at" "createdAt" ;;
  ret (JObj [("success", JBool true);
             ("id", id);
             ("from", from);
             ("to", toStringArray to);
             ("subject", subject);
             ("lastEvent", coalesce lastEvent (JStr ""));
             ("createdAt", coalesce createdAt (JStr ""))]).

Definition getEmail_try (w : World) (emailId : string) : M Request JsValue :=
  resend <- lift (getClient w) ;;
  r <- await_sdk w resend (EmailsGet emailId) ;;
  let '(data, error) := r in
  if truthy error
  then lift (message <- getProp error "message" ;;
             ret (JObj [("success", JBool false);
                        ("id", JStr emailId);
                        ("error", message)]))
  else
    let email := data in
    lift (getEmail_result emailId email).

Definition getEmail_catch (emailId : string) (error : Thrown)
  : M Request JsValue :=
  ret (JObj [("success", JBool false);
             ("id", JStr emailId);
             ("error", JStr (errorMessage error "Failed to retrieve email"))]).

Definition getEmail (w : World) (emailId : string) : M Request JsValue :=
  try_catch (getEmail_try w emailId) (getEmail_catch emailId).

(** *** listEmails *)

Definition listEmails_email (email : JsValue) : Exc JsValue :=
  id <- stringOr email "id" (JStr "") ;;
  from <- stringOr email "from" (JStr "") ;;
  to <- getProp email "to" ;;
  subject <- stringOr email "subject" (JStr "") ;;
  lastEvent <- getStringField email "last_event" "lastEvent" ;;
  createdAt <- getStringField email "created_at" "createdAt" ;;
  ret (JObj [("id", id);
             ("from", from);
             ("to", toStringArray to);
             ("subject", subject);
             ("lastEvent", coalesce lastEvent (JStr ""));
             ("createdAt", coalesce createdAt (JStr ""))]).

Definition listEmails_try (w : World) : M Request JsValue :=
  resend <- lift (getClient w) ;;
  r <- await_sdk w resend EmailsList ;;
  let '(data, error) := r in
  if truthy error
  then lift (message <- getProp error "message" ;;
             ret (JObj [("emails", JArr []);
                        ("count", JNum (Int 0));
                        ("error", message)]))
  else lift (v <- optProp data "data" ;;
             let rawEmails := coalesce v (JArr []) in
             emails <- arrayMap "rawEmails" listEmails_email rawEmails ;;
             ret (JObj [("emails", JArr emails);
                        ("count", lengthOf emails)])).

Definition listEmails_catch (error : Thrown) : M Request JsValue :=
  ret (JObj [("emails", JArr []);
             ("count", JNum (Int 0));
             ("error", JStr (errorMessage error "Failed to list emails"))]).

Definition listEmails (w : World) : M Request JsValue :=
  try_catch (listEmails_try w) listEmails_catch.

(** *** createContact *)

Record CreateContactInput : Type := mkCreateContactInput
  { email : string;
    firstName : option string;
    lastName : option string;
    unsubscribed : option bool;
    properties : option JsValue;
    segments : option (list string);
    topics : option JsValue }.

Definition createContact_params (i : CreateContactInput) : JsValue :=
  let params := [("email", JStr (email i))] in
  let params := setIfDefined "firstName" (ofOptString (firstName i)) params in
  let params := setIfDefined "lastName" (ofOptString (lastName i)) params in
  let params := setIfDefined "unsubscribed" (ofOptBool (unsubscribed i)) params in
  let params := setIfDefined "properties" (ofOpt (properties i)) params in
  let params :=
    match segments i with
    | Some ids =>
        assignField "segments"
          (JArr (map (fun id => JObj [("id", JStr id)]) ids)) params
    | None => params
    end in
  let params := setIfDefined "topics" (ofOpt (topics i)) params in
  JObj params.

Definition createContact_try (w : World) (i : CreateContactInput)
  : M Request JsValue :=
  resend <- lift (getClient w) ;;
  let params := createContact_params i in
  r <- await_sdk w resend (ContactsCreate params) ;;
  let '(data, error) := r in
  if truthy error
  then lift (message <- getProp error "message" ;;
             ret (JObj [("success", JBool false);
                        ("id", JStr "");
                        ("error", message)]))
  else
    let result := data in
    lift (id <- stringOr result "id" (JStr "") ;;
          ret (JObj [("success", JBool true); ("id", id)])).

Definition createContact_catch (error : Thrown) : M Request JsValue :=
  ret (JObj [("success", JBool false);
             ("id", JStr "");
             ("error", JStr (errorMessage error "Failed to create contact"))]).

Definition createContact (w : World) (i : CreateContactInput)
  : M Request JsValue :=
  try_catch (createContact_try w i) createContact_catch.

(** *** listContacts *)

Definition listContacts_contact (contact : JsValue) : Exc JsValue :=
  id <- stringOr contact "id" (JStr "") ;;
  email <- stringOr contact "email" (JStr "") ;;
  firstName <- getStringField contact "first_name" "firstName" ;;
  lastName <- getStringField contact "last_name" "lastName" ;;
  unsubscribed <- (v <- getProp contact "unsubscribed" ;;
                   ret (ToBoolean (coalesce v (JBool false)))) ;;
  ret (JObj [("id", id);
             ("email", email);
             ("firstName", firstName);
             ("lastName", lastName);
             ("unsubscribed", unsubscribed)]).

Definition listContacts_try (w : World) : M Request JsValue :=
  resend <- lift (getClient w) ;;
  r <- await_sdk w resend ContactsList ;;
  let '(data, error) := r in
  if truthy error
  then lift (message <- getProp error "message" ;;
             ret (JObj [("contacts", JArr []);
                        ("count", JNum (Int 0));
                        ("error", message)]))
  else lift (v <- optProp data "data" ;;
             let rawContacts := coalesce v (JArr []) in
             contacts <- arrayMap "rawContacts" listContacts_contact rawContacts ;;
             ret (JObj [("contacts", JArr contacts);
                        ("count", lengthOf contacts)])).

Definition listContacts_catch (error : Thrown) : M Request JsValue :=
  ret (JObj [("contacts", JArr []);
             ("count", JNum (Int 0));
             ("error", JStr (errorMessage error "Failed to list contacts"))]).

Definition listContacts (w : World) : M Request JsValue :=
  try_catch (listContacts_try w) listContacts_catch.

(** *** removeContact *)

Definition removeContact_try (w : World) (id : string) : M Request JsValue :=
  resend <- lift (getClient w) ;;
  r <- await_sdk w resend (ContactsRemove (JObj [("id", JStr id)])) ;;
  let '(data, error) := r in
  if truthy error
  then lift (message <- getProp error "message" ;;
             ret (JObj [("success", JBool false);
                        ("deleted", JBool false);
                        ("id", JStr id);
                        ("error", message)]))
  else
    let result := data in
    lift (deleted <- (v <- getProp result "deleted" ;;
                      ret (ToBoolean (coalesce v (JBool true)))) ;;
          outId <- stringOr result "id" (JStr id) ;;
          ret (JObj [("success", JBool true);
                     ("deleted", deleted);
                     ("id", outId)])).

Definition removeContact_catch (id : string) (error : Thrown)
  : M Request JsValue :=
  ret (JObj [("success", JBool false);
             ("deleted", JBool false);
             ("id", JStr id);
             ("error", JStr (errorMessage error "Failed to remove contact"))]).

Definition removeContact (w : World) (id : string) : M Request JsValue :=
  try_catch (removeContact_try w id) (removeContact_catch id).

(** *** listTemplates *)

Definition listTemplates_params (limit : option number)
  (after before : option string) : JsValue :=
  let params := [] in
  let params := setIfDefined "limit" (ofOptNumber limit) params in
  let params := setIfDefined "after" (ofOptString after) params in
  let params := setIfDefined "before" (ofOptString before) params in
  JObj params.

Definition listTemplates_template (tmpl : JsValue) : Exc JsValue :=
  id <- stringOr tmpl "id" (JStr "") ;;
  name <- stringOr tmpl "name" (JStr "") ;;
  alias <- stringIfTruthy tmpl "alias" ;;
  status <- stringOr tmpl "status" (JStr "") ;;
  createdAt <- getStringField tmpl "created_at" "createdAt" ;;
  updatedAt <- getStringField tmpl "updated_at" "updatedAt" ;;
  publishedAt <- getStringField tmpl "published_at" "publishedAt" ;;
  ret (JObj [("id", id);
             ("name", name);
             ("alias", alias);
             ("status", status);
             ("createdAt", createdAt);
             ("updatedAt", updatedAt);
             ("publishedAt", publishedAt)]).

(** The result built from the page of templates the SDK returned. *)
Definition listTemplates_result (result : JsValue) : Exc JsValue :=
  v <- getProp result "data" ;;
  let rawTemplates := coalesce v (JArr []) in
  templates <- arrayMap "rawTemplates" listTemplates_template rawTemplates ;;
  hasMore <- (h <- getProp result "has_more" ;;
              ret (ToBoolean (coalesce h (JBool false)))) ;;
  ret (JObj [("templates", JArr templates);
             ("count", lengthOf templates);
             ("hasMore", hasMore)]).

Definition listTemplates_try (w : World) (limit : option number)
  (after before : option string) : M Request JsValue :=
  resend <- lift (getClient w) ;;
  let params := listTemplates_params limit after before in
  r <- await_sdk w resend (TemplatesList params) ;;
  let '(data, error) := r in
  if truthy error
  then lift (message <- getProp error "message" ;;
             ret (JObj [("templates", JArr []);
                        ("count", JNum (Int 0));
                        ("error", message)]))
  else
    let result := data in
    lift (listTemplates_result result).

Definition listTemplates_catch (error : Thrown) : M Request JsValue :=
  ret (JObj [("templates", JArr []);
             ("count", JNum (Int 0));
             ("error", JStr (errorMessage error "Failed to list templates"))]).

Definition listTemplates (w : World) (limit : option number)
  (after before : option string) : M Request JsValue :=
  try_catch (listTemplates_try w limit after before) listTemplates_catch.

(** *** getTemplate *)

Definition getTemplate_variable (v : JsValue) : Exc JsValue :=
  id <- stringOr v "id" (JStr "") ;;
  key <- stringOr v "key" (JStr "") ;;
  type <- stringOr v "type" (JStr "string") ;;
  fallbackValue <- getStringField v "fallback_value" "fallbackValue" ;;
  ret (JObj [("id", id);
             ("key", key);
             ("type", type);
             ("fallbackValue", fallbackValue)]).

(** The result built from the template the SDK returned. *)
Definition getTemplate_result (id : string) (result : JsValue) : Exc JsValue :=
  rawVariables <- getProp result "variables" ;;
  variables <- optArrayMap "rawVariables" getTemplate_variable rawVariables ;;
  outId <- stringOr result "id" (JStr id) ;;
  name <- stringIfTruthy result "name" ;;
  alias <- stringIfTruthy result "alias" ;;
  status <- stringIfTruthy result "status" ;;
  from <- stringIfTruthy result "from" ;;
  subject <- stringIfTruthy result "subject" ;;
  replyTo <- getStringField result "reply_to" "replyTo" ;;
  createdAt <- getStringField result "created_at" "createdAt" ;;
  updatedAt <- getStringField result "updated_at" "updatedAt" ;;
  publishedAt <- getStringField result "published_at" "publishedAt" ;;
  ret (JObj [("success", JBool true);
             ("id", outId);
             ("name", name);
             ("alias", alias);
             ("status", status);
             ("from", from);
             ("subject", subject);
             ("replyTo", replyTo);
             ("variables", variables);
             ("createdAt", createdAt);
             ("updatedAt", updatedAt);
             ("publishedAt", publishedAt)]).

Definition getTemplate_try (w : World) (id : string) : M Request JsValue :=
  resend <- lift (getClient w) ;;
  r <- await_sdk w resend (TemplatesGet id) ;;
  let '(data, error) := r in
  if truthy error
  then lift (message <- getProp error "message" ;;
             ret (JObj [("success", JBool false);
                        ("id", JStr id);
                        ("error", message)]))
  else
    let result := data in
    lift (getTemplate_result id result).

Definition getTemplate_catch (id : string) (error : Thrown)
  : M Request JsValue :=
  ret (JObj [("success", JBool false);
             ("id", JStr id);
             ("error", JStr (errorMessage error "Failed to get template"))]).

Definition getTemplate (w : World) (id : string) : M Request JsValue :=
  try_catch (getTemplate_try w id) (getTemplate_catch id).

(** *** The nine tools together *)

Inductive ToolCall : Type :=
| SendEmail (input : SendEmailInput)
| SendBatchEmails (emails : list JsValue)
| GetEmail (emailId : string)
| ListEmails
| CreateContact (input : CreateContactInput)
| ListContacts
| RemoveContact (id : string)
| ListTemplates (limit : option number) (after before : option string)
| GetTemplate (id : string).

Definition tryBlock (w : World) (c : ToolCall) : M Request JsValue :=
  match c with
  | SendEmail i => sendEmail_try w i
  | SendBatchEmails es => sendBatchEmails_try w es
  | GetEmail e => getEmail_try w e
  | ListEmails => listEmails_try w
  | CreateContact i => createContact_try w i
  | ListContacts => listContacts_try w
  | RemoveContact id => removeContact_try w id
  | ListTemplates l a b => listTemplates_try w l a b
  | GetTemplate id => getTemplate_try w id
  end.

Definition catchBlock (c : ToolCall) : Thrown -> M Request JsValue :=
  match c with
  | SendEmail _ => sendEmail_catch
  | SendBatchEmails _ => sendBatchEmails_catch
  | GetEmail e => getEmail_catch e
  | ListEmails => listEmails_catch
  | CreateContact _ => createContact_catch
  | ListContacts => listContacts_catch
  | RemoveContact id => removeContact_catch id
  | ListTemplates _ _ _ => listTemplates_catch
  | GetTemplate id => getTemplate_catch id
  end.

Definition execute (w : World) (c : ToolCall) : M Request JsValue :=
  match c with
  | SendEmail i => sendEmail w i
  | SendBatchEmails es => sendBatchEmails w es
  | GetEmail e => getEmail w e
  | ListEmails => listEmails w
  | CreateContact i => createContact w i
  | ListContacts => listContacts w
  | RemoveContact id => removeContact w id
  | ListTemplates l a b => listTemplates w l a b
  | GetTemplate id => getTemplate w id
  end.

Definition outputSchema (c : ToolCall) : Schema :=
  match c with
  | SendEmail _ => SendResultSchema
  | SendBatchEmails _ => BatchSendResultSchema
  | GetEmail _ => GetEmailResultSchema
  | ListEmails => ListEmailsResultSchema
  | CreateContact _ => CreateContactResultSchema
  | ListContacts => ListContactsResultSchema
  | RemoveContact _ => RemoveContactResultSchema
  | ListTemplates _ _ _ => ListTemplatesResultSchema
  | GetTemplate _ => GetTemplateResultSchema
  end.

(** The key of the collection a list tool returns; [None] for the tools
    that report [success]. *)
Definition collectionKey (c : ToolCall) : option string :=
  match c with
  | ListEmails => Some "emails"
  | ListContacts => Some "contacts"
  | ListTemplates _ _ _ => Some "templates"
  | _ => None
  end.

End Resend.

(* ================================================================== *)
(** ** Vocabulary of the properties and sample worlds *)
(* ================================================================== *)

Import Js.

(** An optional string that is there and not empty. *)
Definition supplied (o : option string) (s : string) : Prop :=
  o = Some s /\ s <> "".

(** An optional string that is absent or empty. *)
Definition missing (o : option string) : Prop :=
  o = None \/ o = Some "".




(** A character of a plain identifier: a letter, a digit, a hyphen or an
    underscore. *)
Definition plainChar (c : ascii) : bool :=
  Url.isAlphanumeric (Url.code c) || (c =? "-")%char || (c =? "_")%char.

(** A plain identifier, as the ones Webflow issues: the URL parser leaves
    it as it is. *)
Definition plainId (s : string) : Prop :=
  forallb plainChar (list_ascii_of_string s) = true.

(** A path whose segments are plain. *)
Definition plainPath (path : string) : Prop :=
  forallb (fun c => plainChar c || (c =? "/")%char) (list_ascii_of_string path)
  = true.

(** The query string of the search parameters [q], with its question
    mark, when the names of [q] are distinct: the serialization of the
    pairs, and nothing when there is none. *)
Definition queryString (q : list (string * string)) : string :=
  match q with
  | [] => ""
  | _ :: _ =>
      "?" ++ Url.serializeForm
               (map (fun kv => (Url.utf8Bytes (fst kv), Url.utf8Bytes (snd kv))) q)
  end.

(** The request [callApi] hands to [fetch] for a key, a path, its options
    and the search parameters that were set. *)
Definition webflowRequest (key path : string) (options : Webflow.Options)
  (q : list (string * string)) : Webflow.Request :=
  {| Webflow.url := Url.requested path q;
     Webflow.path := path;
     Webflow.query := q;
     Webflow.method :=
       match Webflow.opt_method options with
       | Some m => m
       | None => Webflow.GET
       end;
     Webflow.authorization := "Bearer " ++ key;
     Webflow.contentTypeJson :=
       match Webflow.opt_body options with Some _ => true | None => false end;
     Webflow.body := Webflow.opt_body options |}.

(** The result a tool gives for a failure: an error message string, with
    an empty collection and a zero count for a list tool (named by the key
    of its collection) and [success] false for the other tools. *)
Definition failureShape (collection : option string) (out : JsValue) : Prop :=
  (exists message, field out "error" = JStr message)
  /\ match collection with
     | Some key => field out key = JArr [] /\ field out "count" = JNum (Int 0)
     | None => field out "success" = JBool false
     end.

(** A field declared optional (or of unknown type, which admits
    [undefined]) need not be there. *)
Definition isOptional (s : Zod.Schema) : bool :=
  match s with
  | Zod.ZOptional _ | Zod.ZUnknown => true
  | _ => false
  end.

(** Whether each record in a value has every required field of its
    schema: in an object, a field that is not optional holds a value other
    than [undefined] and [null]; the records inside fields, arrays and
    records are looked at in turn. *)
Fixpoint requiredPopulated (s : Zod.Schema) (v : JsValue) {struct s} : bool :=
  match s with
  | Zod.ZString | Zod.ZNumber | Zod.ZBoolean | Zod.ZUnknown => true
  | Zod.ZOptional s' => if isNullish v then true else requiredPopulated s' v
  | Zod.ZArray item =>
      match v with
      | JArr items => forallb (requiredPopulated item) items
      | _ => true
      end
  | Zod.ZRecord value =>
      match v with
      | JObj fields => forallb (fun kv => requiredPopulated value (snd kv)) fields
      | _ => true
      end
  | Zod.ZObject shape =>
      forallb (fun ks =>
                 (isOptional (snd ks) || negb (isNullish (field v (fst ks))))
                 && requiredPopulated (snd ks) (field v (fst ks)))
        shape
  end.

(** The keys a schema of an object declares optional. *)
Definition optionalKeys (s : Zod.Schema) : list string :=
  match s with
  | Zod.ZObject shape =>
      map fst
        (filter (fun ks =>
                   match snd ks with Zod.ZOptional _ => true | _ => false end)
           shape)
  | _ => []
  end.

(** A kind of record the tools put in their results: the function that
    builds it from an upstream record, the schema declared for it, and its
    optional fields sorted by where their value comes from.  [copied]
    fields are read from the upstream record, each from the upstream keys
    listed with it; [defaulted] fields are given a value whatever upstream
    holds; [reported] is the [error] field of a result, set when the tool
    fails. *)
Record OutputRecord : Type := mkOutputRecord
  { build : JsValue -> Exc JsValue;
    declared : Zod.Schema;
    copied : list (string * list string);
    defaulted : list string;
    reported : list string }.

(** Each field of the table that is present in the output has a truthy
    value upstream under one of its keys. *)
Definition fromUpstream (table : list (string * list string))
  (upstream out : JsValue) : bool :=
  forallb (fun entry =>
             isUndefined (field out (fst entry))
             || existsb (fun source => truthy (field upstream source))
                  (snd entry))
    table.

(** Each listed field is present in the output. *)
Definition allPresent (keys : list string) (out : JsValue) : bool :=
  forallb (fun key => negb (isUndefined (field out key))) keys.

Definition webflowRecords (w : Webflow.World) : list OutputRecord :=
  [ {| build := Webflow.listSites_site;
       declared := Webflow.SiteInfoSchema;
       copied := [("lastPublished", ["last_published"; "lastPublished"]);
                  ("lastUpdated", ["last_updated"; "lastUpdated"]);
                  ("previewUrl", ["previewUrl"]);
                  ("timeZone", ["timeZone"]);
                  ("customDomains", ["customDomains"])];
       defaulted := [];
       reported := [] |};
    {| build := Webflow.publishSite_result;
       declared := Webflow.PublishSiteResultSchema;
       copied := [("publishedDomains", ["customDomains"])];
       defaulted := [];
       reported := ["error"] |};
    {| build := Webflow.listPages_page;
       declared := Webflow.PageInfoSchema;
       copied := [("archived", ["archived"]);
                  ("draft", ["draft"]);
                  ("createdOn", ["created_on"; "createdOn"]);
                  ("lastUpdated", ["last_updated"; "lastUpdated"]);
                  ("publishedPath", ["publishedPath"]);
                  ("seo", ["seo"])];
       defaulted := [];
       reported := [] |};
    {| build := Webflow.listPages_seo;
       declared := Zod.ZObject [("title", Zod.ZOptional Zod.ZString);
                                ("description", Zod.ZOptional Zod.ZString)];
       copied := [("title", ["title"]); ("description", ["description"])];
       defaulted := [];
       reported := [] |};
    {| build := Webflow.listPages_result w;
       declared := Webflow.ListPagesResultSchema;
       copied := [("pagination", ["pagination"])];
       defaulted := [];
       reported := ["error"] |};
    {| build := Webflow.listForms_form;
       declared := Webflow.FormInfoSchema;
       copied := [("pageId", ["pageId"]);
                  ("pageName", ["pageName"]);
                  ("formElementId", ["form_element_id"; "formElementId"]);
                  ("fields", ["fields"]);
                  ("createdOn", ["created_on"; "createdOn"]);
                  ("lastUpdated", ["last_updated"; "lastUpdated"])];
       defaulted := [];
       reported := [] |};
    {| build := Webflow.parseFormFields_field;
       declared := Zod.ZObject [("displayName", Zod.ZOptional Zod.ZString);
                                ("type", Zod.ZOptional Zod.ZString)];
       copied := [("displayName", ["displayName"]); ("type", ["type"])];
       defaulted := [];
       reported := [] |};
    {| build := Webflow.listForms_result w;
       declared := Webflow.ListFormsResultSchema;
       copied := [("pagination", ["pagination"])];
       defaulted := [];
       reported := ["error"] |};
    {| build := Webflow.listFormSubmissions_submission;
       declared := Webflow.FormSubmissionSchema;
       copied := [("displayName", ["displayName"]);
                  ("dateSubmitted", ["date_submitted"; "dateSubmitted"])];
       defaulted := ["formResponse"];
       reported := [] |};
    {| build := Webflow.listFormSubmissions_result w;
       declared := Webflow.ListFormSubmissionsResultSchema;
       copied := [("pagination", ["pagination"])];
       defaulted := [];
       reported := ["error"] |};
    {| build := Webflow.listCustomCode_block;
       declared := Webflow.CustomCodeBlockSchema;
       copied := [("pageId", ["pageId"]);
                  ("type", ["type"]);
                  ("createdOn", ["created_on"; "createdOn"]);
                  ("lastUpdated", ["last_updated"; "lastUpdated"])];
       defaulted := [];
       reported := [] |};
    {| build := Webflow.listCustomCode_result w;
       declared := Webflow.ListCustomCodeResultSchema;
       copied := [("pagination", ["pagination"])];
       defaulted := [];
       reported := ["error"] |} ].

Definition resendRecords (id : string) : list OutputRecord :=
  [ {| build := Resend.getEmail_result id;
       declared := Resend.GetEmailResultSchema;
       copied := [];
       defaulted := ["from"; "to"; "subject"; "lastEvent"; "createdAt"];
       reported := ["error"] |};
    {| build := Resend.listEmails_email;
       declared := Resend.EmailInfoSchema;
       copied := [];
       defaulted := ["lastEvent"; "createdAt"];
       reported := [] |};
    {| build := Resend.listContacts_contact;
       declared := Resend.ContactInfoSchema;
       copied := [("firstName", ["first_name"; "firstName"]);
                  ("lastName", ["last_name"; "lastName"])];
       defaulted := [];
       reported := [] |};
    {| build := Resend.listTemplates_template;
       declared := Resend.TemplateInfoSchema;
       copied := [("alias", ["alias"]);
                  ("createdAt", ["created_at"; "createdAt"]);
                  ("updatedAt", ["updated_at"; "updatedAt"]);
                  ("publishedAt", ["published_at"; "publishedAt"])];
       defaulted := [];
       reported := [] |};
    {| build := Resend.listTemplates_result;
       declared := Resend.ListTemplatesResultSchema;
       copied := [];
       defaulted := ["hasMore"];
       reported := ["error"] |};
    {| build := Resend.getTemplate_result id;
       declared := Resend.GetTemplateResultSchema;
       copied := [("name", ["name"]);
                  ("alias", ["alias"]);
                  ("status", ["status"]);
                  ("from", ["from"]);
                  ("subject", ["subject"]);
                  ("replyTo", ["reply_to"; "replyTo"]);
                  ("variables", ["variables"]);
                  ("createdAt", ["created_at"; "createdAt"]);
                  ("updatedAt", ["updated_at"; "updatedAt"]);
                  ("publishedAt", ["published_at"; "publishedAt"])];
       defaulted := [];
       reported := ["error"] |};
    {| build := Resend.getTemplate_variable;
       declared := Resend.TemplateVariableSchema;
       copied := [("fallbackValue", ["fallback_value"; "fallbackValue"])];
       defaulted := [];
       reported := [] |} ].

(** The SDK call each Resend tool makes. *)
Definition sdkCallOf (c : Resend.ToolCall) : Resend.SdkCall :=
  match c with
  | Resend.SendEmail i => Resend.EmailsSend (Resend.sendEmail_params i)
  | Resend.SendBatchEmails emails => Resend.BatchSend (JArr emails)
  | Resend.GetEmail emailId => Resend.EmailsGet emailId
  | Resend.ListEmails => Resend.EmailsList
  | Resend.CreateContact i => Resend.ContactsCreate (Resend.createContact_params i)
  | Resend.ListContacts => Resend.ContactsList
  | Resend.RemoveContact id => Resend.ContactsRemove (JObj [("id", JStr id)])
  | Resend.ListTemplates limit after before =>
      Resend.TemplatesList (Resend.listTemplates_params limit after before)
  | Resend.GetTemplate id => Resend.TemplatesGet id
  end.

(** The list tools that echo pagination. *)
Definition paginated (c : Webflow.ToolCall) : Prop :=
  match c with
  | Webflow.ListPages _ _ _
  | Webflow.ListForms _ _ _
  | Webflow.ListFormSubmissions _ _ _ _
  | Webflow.ListCustomCode _ _ _ => True
  | _ => False
  end.

(** The first guard of [addCustomCode] in words: the target is a page and
    no page is named. *)
Definition pageWithoutId (i : Webflow.AddCustomCodeInput) : Prop :=
  Webflow.target i = Webflow.page /\ missing (Webflow.pageId i).

(** The decimal numeral of a length, as the template literal prints it. *)
Definition decimal (n : nat) : string := NumberToString (Int (Z.of_nat n)).

(** The registration call of [addCustomCode]. *)
Definition registerRequest (key site : string) (i : Webflow.AddCustomCodeInput)
  : Webflow.Request :=
  webflowRequest key ("/sites/" ++ site ++ "/registered_scripts/inline")
    {| Webflow.opt_method := Some Webflow.POST;
       Webflow.opt_body :=
         Some (JObj [("sourceCode", JStr (Webflow.sourceCode i));
                     ("version", JStr (Webflow.version i));
                     ("displayName", JStr (Webflow.displayName i))]);
       Webflow.opt_params := None |} [].

(** The apply call of [addCustomCode] for a script id and an endpoint. *)
Definition applyRequest (key endpoint : string) (i : Webflow.AddCustomCodeInput)
  (scriptId : string) : Webflow.Request :=
  webflowRequest key endpoint
    {| Webflow.opt_method := Some Webflow.PUT;
       Webflow.opt_body :=
         Some (JObj [("scripts",
                      JArr [JObj [("id", JStr scriptId);
                                  ("location",
                                   JStr (Webflow.locationName (Webflow.location i)));
                                  ("version", JStr (Webflow.version i))]])]);
       Webflow.opt_params := None |} [].

(** Where a script is applied: the endpoint and the label reported in
    [appliedTo], for a site target and for a page target with its page. *)
Inductive Scope (i : Webflow.AddCustomCodeInput) (site : string)
  : string -> string -> Prop :=
| SiteScope :
    Webflow.target i = Webflow.site ->
    Scope i site ("/sites/" ++ site ++ "/custom_code") ("site:" ++ site)
| PageScope (p : string) :
    Webflow.target i = Webflow.page ->
    supplied (Webflow.pageId i) p ->
    Scope i site ("/pages/" ++ p ++ "/custom_code") ("page:" ++ p).

(** One figure of the pagination echo, [Number(pagination.key ?? 0)],
    read from the [pagination] value of the answer. *)
Definition figure (w : Webflow.World) (pagination : JsValue) (key : string)
  : Exc JsValue :=
  ToNumber (Webflow.StringToNumber w) (coalesce (field pagination key) (JNum (Int 0))).

(** The identifier the endpoint of the scope is built from: the site for
    a site target, the page for a page target. *)
Definition scopeId (i : Webflow.AddCustomCodeInput) (site : string) : string :=
  match Webflow.target i with
  | Webflow.site => site
  | Webflow.page => Webflow.interpolate (Webflow.pageId i)
  end.

(** The script id [addCustomCode] extracts from the registration answer:
    [String(registered.id ?? "")]. *)
Definition extractedId (registered : JsValue) : Exc string :=
  v <- getProp registered "id" ;;
  ToString (coalesce v (JStr "")).

Module Samples.

(** A response with a success status whose body parses to [v]. *)
Definition okJson (v : JsValue) : Webflow.FetchOutcome :=
  Webflow.FetchResolves
    {| Webflow.ok := true;
       Webflow.status := Int 200;
       Webflow.text := Ret "";
       Webflow.json := Ret v |}.

(** A response with a failure status and the given body text. *)
Definition failed (status : Z) (text : string) : Webflow.FetchOutcome :=
  Webflow.FetchResolves
    {| Webflow.ok := false;
       Webflow.status := Int status;
       Webflow.text := Ret text;
       Webflow.json := Raise (ThrowError "Unexpected token") |}.

(** A network that answers the n-th call with the n-th queued outcome. *)
Definition queued (answers : list Webflow.FetchOutcome)
  : list Webflow.Request -> Webflow.Request -> Webflow.FetchOutcome :=
  fun log _ =>
    nth (List.length log) answers
      (Webflow.FetchRejects (ThrowError "fetch failed")).

(** The environment of the test suite. *)
Definition webflow (answers : list Webflow.FetchOutcome) : Webflow.World :=
  {| Webflow.WEBFLOW_API_KEY := Some "test-api-key";
     Webflow.WEBFLOW_SITE_ID := Some "test-site-id";
     Webflow.fetch := queued answers;
     Webflow.StringToNumber := fun _ => NaN |}.

(** No default site and no key. *)
Definition unconfigured : Webflow.World :=
  {| Webflow.WEBFLOW_API_KEY := None;
     Webflow.WEBFLOW_SITE_ID := None;
     Webflow.fetch := queued [];
     Webflow.StringToNumber := fun _ => NaN |}.

Definition resend (answer : Resend.SdkOutcome) : Resend.World :=
  {| Resend.RESEND_API_KEY := Some "test-api-key";
     Resend.RESEND_EMAIL_DOMAIN := None;
     Resend.sdk := fun _ _ => answer |}.

(** [{ data, error: null }] *)
Definition sdkData (data : JsValue) : Resend.SdkOutcome :=
  Resend.SdkResolves (JObj [("data", data); ("error", JNull)]).

(** [{ data: null, error: { message } }] *)
Definition sdkError (message : string) : Resend.SdkOutcome :=
  Resend.SdkResolves
    (JObj [("data", JNull); ("error", JObj [("message", JStr message)])]).

(** The inputs of the test suite for [addCustomCode]. *)
Definition siteScript : Webflow.AddCustomCodeInput :=
  {| Webflow.siteId := Some "site-1";
     Webflow.target := Webflow.site;
     Webflow.pageId := None;
     Webflow.sourceCode := "console.log('hello');";
     Webflow.displayName := "Hello Script";
     Webflow.version := "1.0.0";
     Webflow.location := Webflow.footer |}.

Definition pageScript : Webflow.AddCustomCodeInput :=
  {| Webflow.siteId := Some "site-1";
     Webflow.target := Webflow.page;
     Webflow.pageId := Some "page-1";
     Webflow.sourceCode := "console.log('page');";
     Webflow.displayName := "Page Script";
     Webflow.version := "0.1.0";
     Webflow.location := Webflow.header |}.

Definition pageScriptWithoutPage : Webflow.AddCustomCodeInput :=
  {| Webflow.siteId := Some "site-1";
     Webflow.target := Webflow.page;
     Webflow.pageId := None;
     Webflow.sourceCode := "console.log('oops');";
     Webflow.displayName := "Oops";
     Webflow.version := "1.0.0";
     Webflow.location := Webflow.footer |}.

Definition tooLong : Webflow.AddCustomCodeInput :=
  {| Webflow.siteId := Some "site-1";
     Webflow.target := Webflow.site;
     Webflow.pageId := None;
     Webflow.sourceCode := repeatString "x" 2001;
     Webflow.displayName := "Too Long";
     Webflow.version := "1.0.0";
     Webflow.location := Webflow.footer |}.




(** A world that answers the one call of [listPages] with no page and a
    pagination whose [offset] is missing and whose [total] is null, and
    the result of [listPages] in it. *)
Definition pagesAnswered : Webflow.World :=
  webflow [okJson (JObj [("pages", JArr []);
                         ("pagination",
                          JObj [("limit", JNum (Int 100));
                                ("total", JNull)])])].

Definition pagesListed : JsValue :=
  JObj [("pages", JArr []);
        ("count", JNum (Int 0));
        ("pagination",
         JObj [("limit", JNum (Int 100));
               ("offset", JNum (Int 0));
               ("total", JNum (Int 0))])].

(** A page identifier that is a relative path. *)
Definition pageScriptOddPage : Webflow.AddCustomCodeInput :=
  {| Webflow.siteId := Some "site-1";
     Webflow.target := Webflow.page;
     Webflow.pageId := Some "../sites/victim";
     Webflow.sourceCode := "console.log('page');";
     Webflow.displayName := "Page Script";
     Webflow.version := "0.1.0";
     Webflow.location := Webflow.header |}.

(** Too long, and for a page that is not named. *)
Definition tooLongWithoutPage : Webflow.AddCustomCodeInput :=
  {| Webflow.siteId := Some "site-1";
     Webflow.target := Webflow.page;
     Webflow.pageId := None;
     Webflow.sourceCode := repeatString "x" 2001;
     Webflow.displayName := "Too Long";
     Webflow.version := "1.0.0";
     Webflow.location := Webflow.footer |}.

End Samples.

(* ================================================================== *)
(** ** Vocabulary of the further properties *)
(* ================================================================== *)

(** The site argument of a Webflow tool call; [listSites] has none. *)
Definition siteArg (c : Webflow.ToolCall) : option (option string) :=
  match c with
  | Webflow.ListSites => None
  | Webflow.PublishSite s _ _ => Some s
  | Webflow.ListPages s _ _ => Some s
  | Webflow.ListForms s _ _ => Some s
  | Webflow.ListFormSubmissions s _ _ _ => Some s
  | Webflow.ListCustomCode s _ _ => Some s
  | Webflow.AddCustomCode i => Some (Webflow.siteId i)
  end.

(** The site a call resolves, when it needs one. *)
Definition resolvedSite (w : Webflow.World) (c : Webflow.ToolCall) : Exc string :=
  match siteArg c with
  | Some s => Webflow.resolveSiteId w s
  | None => Ret ""
  end.

(** A search parameter that is set only when the caller gave it. *)
Definition optionalParam (key : string) (v : option string)
  : list (string * string) :=
  match v with
  | Some s => [(key, s)]
  | None => []
  end.

(** The search parameters of the request of a list tool. *)
Definition listQuery (c : Webflow.ToolCall) : list (string * string) :=
  match c with
  | Webflow.ListPages _ limit offset
  | Webflow.ListForms _ limit offset
  | Webflow.ListCustomCode _ limit offset =>
      (optionalParam "limit" (option_map NumberToString limit)
       ++ optionalParam "offset" (option_map NumberToString offset))%list
  | Webflow.ListFormSubmissions _ elementId limit offset =>
      (optionalParam "elementId" elementId
       ++ optionalParam "limit" (option_map NumberToString limit)
       ++ optionalParam "offset" (option_map NumberToString offset))%list
  | _ => []
  end.

(** The endpoint of a list tool for a site. *)
Definition listEndpoint (c : Webflow.ToolCall) (site : string) : string :=
  match c with
  | Webflow.ListPages _ _ _ => "/sites/" ++ site ++ "/pages"
  | Webflow.ListForms _ _ _ => "/sites/" ++ site ++ "/forms"
  | Webflow.ListFormSubmissions _ _ _ _ =>
      "/sites/" ++ site ++ "/form_submissions"
  | Webflow.ListCustomCode _ _ _ => "/sites/" ++ site ++ "/custom_code/blocks"
  | _ => "/sites"
  end.

(** The one request of a list tool. *)
Definition listRequest (key site : string) (c : Webflow.ToolCall)
  : Webflow.Request :=
  {| Webflow.url := Url.requested (listEndpoint c site) (listQuery c);
     Webflow.path := listEndpoint c site;
     Webflow.query := listQuery c;
     Webflow.method := Webflow.GET;
     Webflow.authorization := "Bearer " ++ key;
     Webflow.contentTypeJson := false;
     Webflow.body := None |}.

(** The mapper a list tool applies to each upstream record. *)
Definition listMapper (c : Webflow.ToolCall) : JsValue -> Exc JsValue :=
  match c with
  | Webflow.ListSites => Webflow.listSites_site
  | Webflow.ListPages _ _ _ => Webflow.listPages_page
  | Webflow.ListForms _ _ _ => Webflow.listForms_form
  | Webflow.ListFormSubmissions _ _ _ _ => Webflow.listFormSubmissions_submission
  | Webflow.ListCustomCode _ _ _ => Webflow.listCustomCode_block
  | _ => fun v => Ret v
  end.

(** The input of [addCustomCode] passes both guards. *)
Definition passesValidation (c : Webflow.ToolCall) : Prop :=
  match c with
  | Webflow.AddCustomCode i =>
      ~ pageWithoutId i /\ (String.length (Webflow.sourceCode i) <= 2000)%nat
  | _ => True
  end.

(** The first request of a Webflow tool: the one request of a list tool,
    the publish request, or the registration request. *)
Definition firstRequest (key site : string) (c : Webflow.ToolCall)
  : Webflow.Request :=
  match c with
  | Webflow.PublishSite _ customDomains flag =>
      webflowRequest key ("/sites/" ++ site ++ "/publish")
        {| Webflow.opt_method := Some Webflow.POST;
           Webflow.opt_body := Some (Webflow.publishSite_body customDomains flag);
           Webflow.opt_params := None |} []
  | Webflow.AddCustomCode i => registerRequest key site i
  | _ => listRequest key site c
  end.

(** The key under which a Resend tool returns a counted sequence. *)
Definition countedKey (c : Resend.ToolCall) : option string :=
  match c with
  | Resend.SendBatchEmails _ => Some "ids"
  | _ => Resend.collectionKey c
  end.

(** Every property of an object holds a value other than [undefined]. *)
Definition allDefined (fields : list (string * JsValue)) : Prop :=
  Forall (fun kv => snd kv <> JUndefined) fields.

(** A network that answers every request with the same failure status and
    body text. *)
Definition alwaysFails (w : Webflow.World) (status : number) (text : string)
  : Prop :=
  forall log req,
    exists r,
      Webflow.fetch w log req = Webflow.FetchResolves r
      /\ Webflow.ok r = false
      /\ Webflow.status r = status
      /\ Webflow.text r = Ret text.


(** The mapper a Resend tool applies to each upstream record of its
    counted sequence. *)
Definition recordMapper (c : Resend.ToolCall) : JsValue -> Exc JsValue :=
  match c with
  | Resend.SendBatchEmails _ => fun r => getProp r "id"
  | Resend.ListEmails => Resend.listEmails_email
  | Resend.ListContacts => Resend.listContacts_contact
  | Resend.ListTemplates _ _ _ => Resend.listTemplates_template
  | _ => fun v => Ret v
  end.

(** The [id] a Resend tool reports on failure: the caller's lookup key for
    the tools that look a record up, the empty string for the tools that
    create one. *)
Definition failureId (c : Resend.ToolCall) : option string :=
  match c with
  | Resend.SendEmail _ | Resend.CreateContact _ => Some ""
  | Resend.GetEmail id | Resend.RemoveContact id | Resend.GetTemplate id =>
      Some id
  | _ => None
  end.

(** The arguments of a tool that builds a [params] object, by the key
    they are stored under, in the order of the assignments; an argument
    the caller left out is [undefined]. *)
Definition suppliedArguments (c : Resend.ToolCall) : list (string * JsValue) :=
  match c with
  | Resend.SendEmail i =>
      [("from", JStr (Resend.from i));
       ("to", Resend.strings (Resend.to i));
       ("subject", JStr (Resend.subject i));
       ("html", ofOptString (Resend.html i));
       ("text", ofOptString (Resend.text i));
       ("replyTo", ofOpt (Resend.replyTo i));
       ("cc", Resend.ofOptStrings (Resend.cc i));
       ("bcc", Resend.ofOptStrings (Resend.bcc i));
       ("scheduledAt", ofOptString (Resend.scheduledAt i));
       ("tags", ofOpt (Resend.tags i));
       ("attachments", ofOpt (Resend.attachments i));
       ("template", ofOpt (Resend.template i));
       ("topicId", ofOptString (Resend.topicId i))]
  | Resend.CreateContact i =>
      [("email", JStr (Resend.email i));
       ("firstName", ofOptString (Resend.firstName i));
       ("lastName", ofOptString (Resend.lastName i));
       ("unsubscribed", ofOptBool (Resend.unsubscribed i));
       ("properties", ofOpt (Resend.properties i));
       ("segments",
        match Resend.segments i with
        | Some ids => JArr (map (fun id => JObj [("id", JStr id)]) ids)
        | None => JUndefined
        end);
       ("topics", ofOpt (Resend.topics i))]
  | Resend.ListTemplates limit after before =>
      [("limit", ofOptNumber limit);
       ("after", ofOptString after);
       ("before", ofOptString before)]
  | _ => []
  end.

(** The [params] object a tool hands to the SDK, for the tools that build
    one. *)
Definition paramsOf (c : Resend.ToolCall) : option JsValue :=
  match sdkCallOf c with
  | Resend.EmailsSend params
  | Resend.ContactsCreate params
  | Resend.TemplatesList params => Some params
  | _ => None
  end.

(** An entry whose value is not [undefined]. *)
Definition defined (kv : string * JsValue) : bool :=
  negb (isUndefined (snd kv)).

(** The assignments [if (v !== undefined) { params.key = v; }] for the
    entries of a table, in order. *)
Definition assignAll (table params : list (string * JsValue))
  : list (string * JsValue) :=
  fold_left (fun p kv => Resend.setIfDefined (fst kv) (snd kv) p) table params.

(** What a Resend tool reports when something that is not an [Error] was
    thrown. *)
Definition fallbackMessage (c : Resend.ToolCall) : string :=
  match c with
  | Resend.SendEmail _ => "Failed to send email"
  | Resend.SendBatchEmails _ => "Failed to send batch emails"
  | Resend.GetEmail _ => "Failed to retrieve email"
  | Resend.ListEmails => "Failed to list emails"
  | Resend.CreateContact _ => "Failed to create contact"
  | Resend.ListContacts => "Failed to list contacts"
  | Resend.RemoveContact _ => "Failed to remove contact"
  | Resend.ListTemplates _ _ _ => "Failed to list templates"
  | Resend.GetTemplate _ => "Failed to get template"
  end.





(** A request as the Webflow tools send it: authorized with the
    configured key, declared as JSON exactly when it has a body, and
    without a body exactly when it is a GET. *)
Definition wellFormed (w : Webflow.World) (req : Webflow.Request) : Prop :=
  exists key,
    supplied (Webflow.WEBFLOW_API_KEY w) key
    /\ Webflow.authorization req = "Bearer " ++ key
    /\ Webflow.contentTypeJson req
       = match Webflow.body req with Some _ => true | None => false end
    /\ (Webflow.method req = Webflow.GET <-> Webflow.body req = None).

(** A computation that sends only requests with a property, given that
    the requests sent before it have it. *)
Definition keeps {A} (P : Webflow.Request -> Prop) (m : M Webflow.Request A)
  : Prop :=
  forall log, Forall P log -> Forall P (snd (m log)).
(* ================================================================== *)
(** ** Properties *)
(* ================================================================== *)

(** *** Strings *)

Lemma eqb_empty_false (s : string) : s <> "" -> (s =? "") = false.
Proof. intros H. now apply String.eqb_neq. Qed.

Lemma startsWith_app (p s : string) : startsWith (p ++ s) p = true.
Proof.
  induction p as [|c p IH]; simpl.
  - reflexivity.
  - now rewrite Ascii.eqb_refl.
Qed.

Lemma startsWith_split (p s : string) :
  startsWith s p = true -> exists post, s = p ++ post.
Proof.
  revert s. induction p as [|c p IH]; intros s H; simpl in *.
  - now exists s.
  - destruct s as [|d s]; [discriminate|].
    apply andb_true_iff in H as [Hc Hs].
    apply Ascii.eqb_eq in Hc as ->.
    destruct (IH s Hs) as [post ->]. now exists post.
Qed.

Lemma includes_app (pre sub post : string) :
  includes (pre ++ sub ++ post) sub = true.
Proof.
  induction pre as [|c pre IH].
  - cbn [append]. destruct (sub ++ post) eqn:E; cbn [includes];
      rewrite <- E, startsWith_app; reflexivity.
  - cbn [append includes]. rewrite IH.
    now destruct (startsWith (String c (pre ++ sub ++ post)) sub).
Qed.

Lemma includes_split (s sub : string) :
  includes s sub = true -> exists pre post, s = pre ++ sub ++ post.
Proof.
  induction s as [|c s IH]; cbn [includes]; intros H.
  - destruct (startsWith "" sub) eqn:E; [|discriminate].
    destruct (startsWith_split _ _ E) as [post ->]. now exists "", post.
  - destruct (startsWith (String c s) sub) eqn:E.
    + destruct (startsWith_split _ _ E) as [post ->]. now exists "", post.
    + destruct (IH H) as (pre & post & ->). now exists (String c pre), post.
Qed.

(** *** The URL of a plain path *)

(** What the parser does with one plain character, by cases on the
    character. *)
Lemma plainChar_kept (c : ascii) :
  plainChar c = true ->
  Url.isC0OrSpace c = false
  /\ Url.isTabOrNewline c = false
  /\ (("#" =? c)%char = false /\ ("?" =? c)%char = false)
  /\ Url.isSeparator c = false
  /\ Url.percentEncode Url.pathSet c = String c ""
  /\ ((Url.lowerAscii c =? ".")%char = false
      /\ (Url.lowerAscii c =? "%")%char = false).
Proof.
  destruct c as [[|] [|] [|] [|] [|] [|] [|] [|]];
    intros H; try discriminate H; vm_compute; auto 10.
Qed.

Lemma slash_kept :
  Url.isC0OrSpace "/" = false
  /\ Url.isTabOrNewline "/" = false
  /\ (("#" =? "/")%char = false /\ ("?" =? "/")%char = false).
Proof. vm_compute. auto. Qed.

Lemma plainPath_cons (c : ascii) (rest : string) :
  plainPath (String c rest) ->
  (plainChar c = true \/ c = "/"%char) /\ plainPath rest.
Proof.
  unfold plainPath. cbn [list_ascii_of_string forallb]. intros H.
  apply andb_prop in H as [Hc Hrest]. split; [|exact Hrest].
  apply orb_prop in Hc as [Hc|Hc]; [now left|].
  right. now apply Ascii.eqb_eq in Hc.
Qed.

Lemma plainPath_clean (path : string) :
  plainPath path ->
  Url.stripTrailing path = path
  /\ Url.removeTabsAndNewlines path = path
  /\ Url.cut "#" path = (path, None)
  /\ Url.cut "?" path = (path, None).
Proof.
  induction path as [|c rest IH]; intros H; [repeat split|].
  apply plainPath_cons in H as [Hc Hrest].
  destruct (IH Hrest) as (Hs & Hr & Hf & Hq).
  assert (Hkept : Url.isC0OrSpace c = false
                  /\ Url.isTabOrNewline c = false
                  /\ (("#" =? c)%char = false /\ ("?" =? c)%char = false)).
  { destruct Hc as [Hc | ->]; [|exact slash_kept].
    destruct (plainChar_kept c Hc) as (H1 & H2 & H3 & _). auto. }
  destruct Hkept as (H1 & H2 & H3 & H4).
  cbn [Url.stripTrailing Url.removeTabsAndNewlines Url.cut].
  rewrite Hs, Hr, Hf, Hq, H1, H2, H3, H4.
  repeat split. now destruct rest.
Qed.

Lemma plain_buffer_is_no_dot (buffer : string) :
  plainId buffer -> Url.isDoubleDot buffer = false /\ Url.isSingleDot buffer = false.
Proof.
  destruct buffer as [|c rest]; [split; reflexivity|].
  unfold plainId. cbn [list_ascii_of_string forallb]. intros H.
  apply andb_prop in H as [Hc _].
  destruct (plainChar_kept c Hc) as (_ & _ & _ & _ & _ & Hdot & Hpercent).
  unfold Url.isDoubleDot, Url.isSingleDot.
  cbn [Url.lower existsb String.eqb]. rewrite Hdot, Hpercent. split; reflexivity.
Qed.

Lemma plainId_snoc (buffer : string) (c : ascii) :
  plainId buffer -> plainChar c = true -> plainId (buffer ++ String c "").
Proof.
  unfold plainId. induction buffer as [|b rest IH]; cbn [append list_ascii_of_string forallb].
  - intros _ ->. reflexivity.
  - intros H Hc. apply andb_prop in H as [Hb Hrest].
    rewrite Hb. now apply IH.
Qed.

Lemma append_assoc (a b c : string) : (a ++ b) ++ c = a ++ b ++ c.
Proof. induction a as [|x a IH]; cbn [append]; [reflexivity | now rewrite IH]. Qed.

Lemma append_empty (a : string) : a ++ "" = a.
Proof. induction a as [|x a IH]; cbn [append]; [reflexivity | now rewrite IH]. Qed.

Lemma serializePath_snoc (path : list string) (segment : string) :
  Url.serializePath (path ++ [segment])
  = Url.serializePath path ++ "/" ++ segment.
Proof.
  induction path as [|s rest IH]; cbn [app Url.serializePath].
  - now rewrite append_empty.
  - rewrite IH. cbn [append]. now rewrite append_assoc.
Qed.

(** The path state on a plain rest of the input, after plain segments
    and with a plain buffer: every segment is kept as it is. *)
Lemma pathState_plain (input : string) (path : list string) (buffer : string) :
  plainPath input ->
  plainId buffer ->
  Url.serializePath (Url.pathState input path buffer)
  = Url.serializePath path ++ "/" ++ buffer ++ input.
Proof.
  revert path buffer.
  induction input as [|c rest IH]; intros path buffer Hin Hbuf.
  - cbn [Url.pathState]. unfold Url.flushEnd.
    destruct (plain_buffer_is_no_dot buffer Hbuf) as [-> ->].
    now rewrite serializePath_snoc, append_empty.
  - apply plainPath_cons in Hin as [Hc Hrest]. cbn [Url.pathState].
    destruct Hc as [Hc | ->].
    + destruct (plainChar_kept c Hc) as (_ & _ & _ & -> & -> & _).
      rewrite (IH path _ Hrest (plainId_snoc buffer c Hbuf Hc)).
      now rewrite append_assoc.
    + change (Url.isSeparator "/") with true. cbv iota.
      unfold Url.flushSeparator.
      destruct (plain_buffer_is_no_dot buffer Hbuf) as [-> ->].
      rewrite (IH _ "" Hrest eq_refl), serializePath_snoc.
      cbn [append]. now rewrite !append_assoc.
Qed.

(** A plain path is requested as it is, under the base URL. *)
Lemma requested_plain (path : string) :
  plainPath path -> Url.requested path [] = Url.BASE_URL ++ path.
Proof.
  intros H. unfold Url.requested, Url.parse. cbn [Url.setAll].
  destruct (plainPath_clean path H) as (-> & -> & -> & ->).
  unfold Url.href. cbn [Url.pathname Url.query Url.fragment option_map].
  change (Url.pathState ("v2" ++ path) [] "") with (Url.pathState path [] "v2").
  rewrite (pathState_plain path [] "v2" H eq_refl).
  rewrite !append_empty. reflexivity.
Qed.

(** With search parameters, the serialized pairs follow the path. *)
Lemma requested_plain_query (path : string) (q : list (string * string)) :
  plainPath path ->
  q <> [] ->
  Url.requested path q
  = Url.BASE_URL ++ path ++ "?"
    ++ Url.serializeForm
         (fold_left
            (fun l kv => Url.setParam (Url.utf8Bytes (fst kv))
                           (Url.utf8Bytes (snd kv)) l) q []).
Proof.
  intros H Hq. unfold Url.requested, Url.parse.
  destruct (plainPath_clean path H) as (-> & -> & -> & ->).
  destruct q as [|kv q]; [now elim Hq|].
  unfold Url.setAll, Url.href.
  cbn [Url.pathname Url.query Url.fragment option_map].
  change (Url.parseForm "") with (@nil (string * string)).
  change (Url.pathState ("v2" ++ path) [] "") with (Url.pathState path [] "v2").
  rewrite (pathState_plain path [] "v2" H eq_refl).
  rewrite !append_empty. cbn [Url.serializePath append].
  unfold Url.BASE_URL, Url.origin. cbn [append].
  now rewrite ?append_assoc.
Qed.

Lemma plainPath_app (a b : string) :
  plainPath a -> plainPath b -> plainPath (a ++ b).
Proof.
  unfold plainPath. induction a as [|c a IH]; cbn [append list_ascii_of_string forallb].
  - auto.
  - intros H Hb. apply andb_prop in H as [Hc Ha]. rewrite Hc. now apply IH.
Qed.

Lemma plainId_path (s : string) : plainId s -> plainPath s.
Proof.
  unfold plainId, plainPath.
  induction s as [|c s IH]; cbn [list_ascii_of_string forallb]; [auto|].
  intros H. apply andb_prop in H as [Hc Hs]. rewrite Hc. now apply IH.
Qed.

(** A path made of fixed plain words and plain identifiers. *)
Ltac plain_path :=
  repeat first
    [ assumption
    | reflexivity
    | apply plainId_path; assumption
    | apply plainPath_app ].

(** *** The monads *)

Ltac js_simpl :=
  cbv beta iota delta
    [bind ret Monad_Exc Monad_M bindE bindM retM lift throw run try_catch] in *.

Lemma try_catch_returns {Req A} (body : M Req A) (handler : Thrown -> M Req A)
  (log : list Req) :
  (forall t l, exists a, handler t l = (Ret a, l)) ->
  exists a log', try_catch body handler log = (Ret a, log').
Proof.
  intros Hh. unfold try_catch.
  destruct (body log) as [[a|t] log'].
  - now exists a, log'.
  - destruct (Hh t log') as [a Ha]. exists a, log'. exact Ha.
Qed.

Lemma try_catch_raised {Req A} (body : M Req A) (handler : Thrown -> M Req A)
  (log log' : list Req) (t : Thrown) :
  body log = (Raise t, log') -> try_catch body handler log = handler t log'.
Proof. intros H. unfold try_catch. now rewrite H. Qed.

Lemma try_catch_returned {Req A} (body : M Req A) (handler : Thrown -> M Req A)
  (log log' : list Req) (a : A) :
  body log = (Ret a, log') -> try_catch body handler log = (Ret a, log').
Proof. intros H. unfold try_catch. now rewrite H. Qed.

(** *** Identifier resolution (C7) *)

(** C7.  [resolveSiteId] returns the explicit argument when it is not
    empty; otherwise the configured default [WEBFLOW_SITE_ID] when that is
    not empty; otherwise it throws the error that asks for a site ID.  An
    explicit non-empty argument therefore wins over any default. *)
Theorem resolveSiteId_precedence (w : Webflow.World) (explicit : option string) :
  (forall s, supplied explicit s -> Webflow.resolveSiteId w explicit = Ret s)
  /\ (missing explicit ->
      forall d, supplied (Webflow.WEBFLOW_SITE_ID w) d ->
                Webflow.resolveSiteId w explicit = Ret d)
  /\ (missing explicit -> missing (Webflow.WEBFLOW_SITE_ID w) ->
      Webflow.resolveSiteId w explicit =
        Raise (ThrowError "A site ID is required. Either pass a siteId or set the WEBFLOW_SITE_ID environment variable.")).
Proof.
  unfold Webflow.resolveSiteId, Webflow.getDefaultSiteId, supplied, missing.
  repeat split.
  - intros s [-> Hs]. now rewrite !(eqb_empty_false s Hs).
  - intros [-> | ->] d [-> Hd]; simpl; now rewrite (eqb_empty_false d Hd).
  - intros [-> | ->] [-> | ->]; reflexivity.
Qed.

Lemma resolveSiteId_precedence_witness :
  Webflow.resolveSiteId (Samples.webflow []) (Some "site-1") = Ret "site-1"
  /\ Webflow.resolveSiteId (Samples.webflow []) None = Ret "test-site-id"
  /\ Webflow.resolveSiteId Samples.unconfigured (Some "") =
       Raise (ThrowError "A site ID is required. Either pass a siteId or set the WEBFLOW_SITE_ID environment variable.").
Proof.
  split; [|split].
  - apply (proj1 (resolveSiteId_precedence (Samples.webflow []) (Some "site-1"))).
    unfold supplied. split; [reflexivity | discriminate].
  - apply (proj1 (proj2 (resolveSiteId_precedence (Samples.webflow []) None))).
    + left; reflexivity.
    + unfold supplied. split; [reflexivity | discriminate].
  - apply (proj2 (proj2 (resolveSiteId_precedence Samples.unconfigured (Some "")))).
    + right; reflexivity.
    + left; reflexivity.
Defined.

(** *** Field normalization (C4) *)



Lemma assoc_not_own (key : string) (fields : list (string * JsValue)) :
  hasOwn key fields = false -> assoc key fields = JUndefined.
Proof.
  unfold hasOwn. induction fields as [|[k v] rest IH]; cbn [existsb assoc fst].
  - reflexivity.
  - destruct (k =? key); [discriminate | exact IH].
Qed.

(** Under a key that names no member of [Object.prototype], an object
    answers with its own property. *)
Lemma member_own (key : string) (fields : list (string * JsValue)) :
  ownOnly key -> member key fields = assoc key fields.
Proof.
  intros Hk. unfold member. rewrite Hk.
  destruct (hasOwn key fields) eqn:Ho; [reflexivity|].
  now rewrite (assoc_not_own key fields Ho).
Qed.

Lemma getProp_own (fields : list (string * JsValue)) (key : string) :
  ownOnly key -> getProp (JObj fields) key = Ret (assoc key fields).
Proof. intros Hk. cbn [getProp]. now rewrite (member_own key fields Hk). Qed.




(** *** The transport helper *)

Lemma callApi_without_key (w : Webflow.World) (path : string)
  (options : Webflow.Options) (log : list Webflow.Request) (t : Thrown) :
  Webflow.opt_params options = None ->
  Webflow.getApiKey w = Raise t ->
  Webflow.callApi w path options log = (Raise t, log).
Proof.
  intros Hp Hk. unfold Webflow.callApi. rewrite Hp, Hk. reflexivity.
Qed.

Lemma callApi_sent (w : Webflow.World) (path : string)
  (options : Webflow.Options) (log : list Webflow.Request)
  (key : string) (q : list (string * string)) :
  match Webflow.opt_params options with
  | Some params => Webflow.searchParams params
  | None => Ret []
  end = Ret q ->
  Webflow.getApiKey w = Ret key ->
  Webflow.callApi w path options log =
    (match Webflow.fetch w log
             (webflowRequest key path options q) with
     | Webflow.FetchRejects t => Raise t
     | Webflow.FetchResolves r => Webflow.readResponse r
     end,
     (log ++ [webflowRequest key path options q])%list).
Proof.
  intros Hq Hk. unfold Webflow.callApi. rewrite Hq, Hk. js_simpl.
  unfold Webflow.await_fetch, webflowRequest.
  now destruct (Webflow.fetch w log _).
Qed.

(** *** publishSite (C3) *)

(** Case analysis on the innermost scrutinee of the goal, repeated. *)
Ltac destruct_matches :=
  repeat match goal with
         | |- context [match ?x with _ => _ end] =>
             lazymatch x with
             | context [match _ with _ => _ end] => fail
             | _ => destruct x eqn:?
             end
         end.

Lemma publishSite_calls (w : Webflow.World) (siteId : option string)
  (customDomains : option (list string))
  (publishToWebflowSubdomain : option bool) :
  let calls :=
    snd (run (Webflow.publishSite w siteId customDomains
                publishToWebflowSubdomain)) in
  match Webflow.resolveSiteId w siteId, Webflow.getApiKey w with
  | Ret site, Ret key =>
      calls =
        [webflowRequest key ("/sites/" ++ site ++ "/publish")
           {| Webflow.opt_method := Some Webflow.POST;
              Webflow.opt_body :=
                Some (Webflow.publishSite_body customDomains
                        publishToWebflowSubdomain);
              Webflow.opt_params := None |} []]
  | _, _ => calls = []
  end.
Proof.
  unfold Webflow.publishSite, Webflow.publishSite_try,
    Webflow.publishSite_catch.
  destruct (Webflow.resolveSiteId w siteId) as [site|t] eqn:Hs;
    [|js_simpl; reflexivity].
  destruct (Webflow.getApiKey w) as [key|t] eqn:Hk; js_simpl.
  - erewrite callApi_sent; [|reflexivity|exact Hk].
    destruct_matches; reflexivity.
  - erewrite callApi_without_key; [|reflexivity|exact Hk]. reflexivity.
Qed.

Lemma publishSite_body_fields (customDomains : option (list string))
  (publishToWebflowSubdomain : option bool) :
  exists fields,
    Webflow.publishSite_body customDomains publishToWebflowSubdomain
    = JObj fields
    /\ hasOwn "publishToWebflowSubdomain" fields = true
    /\ assoc "publishToWebflowSubdomain" fields
       = JBool (match publishToWebflowSubdomain with
                | Some b => b
                | None => false
                end)
    /\ match customDomains with
       | Some (d :: ds) =>
           hasOwn "customDomains" fields = true
           /\ assoc "customDomains" fields = JArr (map JStr (d :: ds))
       | _ => hasOwn "customDomains" fields = false
       end.
Proof.
  unfold Webflow.publishSite_body.
  destruct customDomains as [[|d ds]|], publishToWebflowSubdomain as [b|];
    eexists; (split; [reflexivity|]); repeat split; reflexivity.
Qed.

(** C3.  Every request [publishSite] sends carries a body that has the key
    [publishToWebflowSubdomain], with the caller's value or [false] when
    the caller gave none, and that has the key [customDomains] exactly when
    the caller gave a non-empty list, which is then sent as it is; with no
    list or an empty one the key is absent.  When the key and the site can
    be resolved the tool sends exactly one such request, a POST to the
    publish endpoint of the site. *)
Theorem publishSite_request_body (w : Webflow.World) (siteId : option string)
  (customDomains : option (list string))
  (publishToWebflowSubdomain : option bool) :
  let calls :=
    snd (run (Webflow.publishSite w siteId customDomains
                publishToWebflowSubdomain)) in
  (forall req, In req calls ->
     exists fields,
       Webflow.body req = Some (JObj fields)
       /\ hasOwn "publishToWebflowSubdomain" fields = true
       /\ assoc "publishToWebflowSubdomain" fields
          = JBool (match publishToWebflowSubdomain with
                   | Some b => b
                   | None => false
                   end)
       /\ match customDomains with
          | Some (d :: ds) =>
              hasOwn "customDomains" fields = true
              /\ assoc "customDomains" fields = JArr (map JStr (d :: ds))
          | _ => hasOwn "customDomains" fields = false
          end)
  /\ (forall key site,
        Webflow.getApiKey w = Ret key ->
        Webflow.resolveSiteId w siteId = Ret site ->
        exists req,
          calls = [req]
          /\ Webflow.method req = Webflow.POST
          /\ Webflow.path req = "/sites/" ++ site ++ "/publish").
Proof.
  intros calls.
  pose proof (publishSite_calls w siteId customDomains
                publishToWebflowSubdomain) as Hc.
  fold calls in Hc. cbv zeta in Hc. split.
  - intros req Hin.
    destruct (Webflow.resolveSiteId w siteId) as [site|t];
      [|rewrite Hc in Hin; destruct Hin].
    destruct (Webflow.getApiKey w) as [key|t];
      [|rewrite Hc in Hin; destruct Hin].
    rewrite Hc in Hin. destruct Hin as [<-|[]].
    destruct (publishSite_body_fields customDomains publishToWebflowSubdomain)
      as (fields & Hb & Hrest).
    exists fields. split; [|exact Hrest].
    unfold webflowRequest; simpl. now rewrite Hb.
  - intros key site Hk Hs. rewrite Hs, Hk in Hc.
    eexists. split; [exact Hc|]. split; reflexivity.
Qed.

Lemma publishSite_request_body_witness :
  exists req,
    snd (run (Webflow.publishSite (Samples.webflow [Samples.okJson (JObj [])])
                (Some "site-1") None None)) = [req]
    /\ Webflow.method req = Webflow.POST
    /\ Webflow.path req = "/sites/site-1/publish".
Proof.
  apply (proj2 (publishSite_request_body
                  (Samples.webflow [Samples.okJson (JObj [])])
                  (Some "site-1") None None) "test-api-key" "site-1");
    reflexivity.
Defined.

(** *** addCustomCode: validation (C2) *)

Lemma pageId_guard (i : Webflow.AddCustomCodeInput) :
  Webflow.isPage (Webflow.target i)
  && negb (truthy (ofOptString (Webflow.pageId i))) = true
  <-> pageWithoutId i.
Proof.
  unfold pageWithoutId, missing.
  destruct (Webflow.target i), (Webflow.pageId i) as [p|]; simpl.
  - split; [discriminate | intros [H _]; discriminate].
  - split; [discriminate | intros [H _]; discriminate].
  - destruct (p =? "") eqn:E; simpl.
    + apply String.eqb_eq in E as ->. split; auto.
    + apply String.eqb_neq in E. split; [discriminate|].
      intros [_ [H|H]]; [discriminate | congruence].
  - split; auto.
Qed.

Lemma pageId_guard_false (i : Webflow.AddCustomCodeInput) :
  ~ pageWithoutId i ->
  Webflow.isPage (Webflow.target i)
  && negb (truthy (ofOptString (Webflow.pageId i))) = false.
Proof.
  intros H. apply not_true_is_false. intros E. now apply H, pageId_guard.
Qed.

(** C2, the part that fails as stated.  With a source of 2001 characters
    for a page that is not named, the first guard answers: the message is
    the one about the page and does not contain 2001. *)
Lemma addCustomCode_long_source_counterexample :
  (2000 <? String.length (Webflow.sourceCode Samples.tooLongWithoutPage))%nat
  = true
  /\ decimal (String.length (Webflow.sourceCode Samples.tooLongWithoutPage))
     = "2001"
  /\ run (Webflow.addCustomCode (Samples.webflow []) Samples.tooLongWithoutPage)
     = (Ret (JObj [("success", JBool false);
                   ("scriptId", JStr "");
                   ("error", JStr Webflow.pageIdRequired)]), [])
  /\ includes Webflow.pageIdRequired "2001" = false.
Proof. vm_compute. repeat split. Qed.

(** C2, amended.  With target page and no page id the tool makes no remote
    call and returns success false with a message containing the words
    pageId is required.  With a source longer than 2000 characters, in
    every input that passes that first guard, the tool makes no remote
    call and returns success false with a message containing the decimal
    numeral of the length of the source. *)
Theorem addCustomCode_validation (w : Webflow.World)
  (i : Webflow.AddCustomCodeInput) :
  (pageWithoutId i ->
   exists msg,
     run (Webflow.addCustomCode w i)
     = (Ret (JObj [("success", JBool false);
                   ("scriptId", JStr "");
                   ("error", JStr msg)]), [])
     /\ includes msg "pageId is required" = true)
  /\ (~ pageWithoutId i ->
      (2000 < String.length (Webflow.sourceCode i))%nat ->
      exists msg,
        run (Webflow.addCustomCode w i)
        = (Ret (JObj [("success", JBool false);
                      ("scriptId", JStr "");
                      ("error", JStr msg)]), [])
        /\ includes msg (decimal (String.length (Webflow.sourceCode i))) = true).
Proof.
  unfold Webflow.addCustomCode, Webflow.addCustomCode_try. split.
  - intros H. apply pageId_guard in H. js_simpl. rewrite H.
    exists Webflow.pageIdRequired. split; reflexivity.
  - intros H Hlen. rewrite (pageId_guard_false i H).
    apply Nat.ltb_lt in Hlen. js_simpl. rewrite Hlen.
    eexists. split; [reflexivity|]. apply includes_app.
Qed.

Lemma addCustomCode_validation_witness :
  (exists msg,
     run (Webflow.addCustomCode (Samples.webflow []) Samples.pageScriptWithoutPage)
     = (Ret (JObj [("success", JBool false);
                   ("scriptId", JStr "");
                   ("error", JStr msg)]), [])
     /\ includes msg "pageId is required" = true)
  /\ (exists msg,
        run (Webflow.addCustomCode (Samples.webflow []) Samples.tooLong)
        = (Ret (JObj [("success", JBool false);
                      ("scriptId", JStr "");
                      ("error", JStr msg)]), [])
        /\ includes msg "2001" = true).
Proof.
  split.
  - apply (proj1 (addCustomCode_validation (Samples.webflow [])
                    Samples.pageScriptWithoutPage)).
    split; [reflexivity | left; reflexivity].
  - apply (proj2 (addCustomCode_validation (Samples.webflow []) Samples.tooLong)).
    + intros [H _]. discriminate H.
    + apply Nat.ltb_lt. vm_compute. reflexivity.
Defined.

(** *** addCustomCode: registration and application (C5, C6) *)

Lemma length_guard_false (src : string) :
  (String.length src <= 2000)%nat -> (2000 <? String.length src)%nat = false.
Proof. intros H. now apply Nat.ltb_ge. Qed.

(** The run of [addCustomCode] up to the extraction of the script id, for
    an input that passes both guards, with the key and the site resolved
    and a registration answer from which an id is extracted. *)
Lemma addCustomCode_registered (w : Webflow.World)
  (i : Webflow.AddCustomCodeInput) (key site : string)
  (r : Webflow.Response) (registered : JsValue) (scriptId : string) :
  ~ pageWithoutId i ->
  (String.length (Webflow.sourceCode i) <= 2000)%nat ->
  Webflow.resolveSiteId w (Webflow.siteId i) = Ret site ->
  Webflow.getApiKey w = Ret key ->
  Webflow.fetch w [] (registerRequest key site i) = Webflow.FetchResolves r ->
  Webflow.readResponse r = Ret registered ->
  extractedId registered = Ret scriptId ->
  run (Webflow.addCustomCode_try w i)
  = (if scriptId =? ""
     then retM (JObj [("success", JBool false);
                      ("scriptId", JStr "");
                      ("error",
                       JStr "Failed to register script: no script ID returned")])
     else
       bindM
         (if Webflow.isPage (Webflow.target i)
             && truthy (ofOptString (Webflow.pageId i))
          then Webflow.callApi w
                 ("/pages/" ++ Webflow.interpolate (Webflow.pageId i)
                    ++ "/custom_code")
                 {| Webflow.opt_method := Some Webflow.PUT;
                    Webflow.opt_body :=
                      Webflow.body (applyRequest key "" i scriptId);
                    Webflow.opt_params := None |}
          else Webflow.callApi w ("/sites/" ++ site ++ "/custom_code")
                 {| Webflow.opt_method := Some Webflow.PUT;
                    Webflow.opt_body :=
                      Webflow.body (applyRequest key "" i scriptId);
                    Webflow.opt_params := None |})
         (fun _ =>
            retM (JObj [("success", JBool true);
                        ("scriptId", JStr scriptId);
                        ("appliedTo",
                         JStr (if Webflow.isPage (Webflow.target i)
                               then "page:" ++ Webflow.interpolate (Webflow.pageId i)
                               else "site:" ++ site))])))
      [registerRequest key site i].
Proof.
  intros Hg Hlen Hs Hk Hf Hr Hid.
  unfold Webflow.addCustomCode_try.
  rewrite (pageId_guard_false i Hg), (length_guard_false _ Hlen).
  js_simpl. rewrite Hs.
  erewrite callApi_sent; [|reflexivity|exact Hk].
  fold (registerRequest key site i). rewrite Hf, Hr.
  unfold extractedId in Hid. js_simpl. rewrite Hid. reflexivity.
Qed.

(** C5.  For an input that passes validation, when the registration answer
    yields an empty script id the tool returns success false with the
    error about the missing script ID, and the registration call is the
    only remote call it makes. *)
Theorem addCustomCode_no_script_id (w : Webflow.World)
  (i : Webflow.AddCustomCodeInput) (key site : string)
  (r : Webflow.Response) (registered : JsValue) :
  ~ pageWithoutId i ->
  (String.length (Webflow.sourceCode i) <= 2000)%nat ->
  Webflow.resolveSiteId w (Webflow.siteId i) = Ret site ->
  Webflow.getApiKey w = Ret key ->
  Webflow.fetch w [] (registerRequest key site i) = Webflow.FetchResolves r ->
  Webflow.readResponse r = Ret registered ->
  extractedId registered = Ret "" ->
  run (Webflow.addCustomCode w i)
  = (Ret (JObj [("success", JBool false);
                ("scriptId", JStr "");
                ("error",
                 JStr "Failed to register script: no script ID returned")]),
     [registerRequest key site i]).
Proof.
  intros Hg Hlen Hs Hk Hf Hr Hid.
  unfold Webflow.addCustomCode, run.
  apply try_catch_returned.
  exact (addCustomCode_registered w i key site r registered ""
           Hg Hlen Hs Hk Hf Hr Hid).
Qed.

Lemma addCustomCode_no_script_id_witness :
  run (Webflow.addCustomCode
         (Samples.webflow [Samples.okJson (JObj [("id", JNull)])])
         Samples.siteScript)
  = (Ret (JObj [("success", JBool false);
                ("scriptId", JStr "");
                ("error",
                 JStr "Failed to register script: no script ID returned")]),
     [registerRequest "test-api-key" "site-1" Samples.siteScript]).
Proof.
  eapply (addCustomCode_no_script_id
            (Samples.webflow [Samples.okJson (JObj [("id", JNull)])])
            Samples.siteScript "test-api-key" "site-1").
  - intros [H _]. discriminate H.
  - apply Nat.leb_le. reflexivity.
  - reflexivity.
  - reflexivity.
  - reflexivity.
  - reflexivity.
  - reflexivity.
Defined.

Lemma scope_passes_guard (i : Webflow.AddCustomCodeInput) (site : string)
  (endpoint label : string) :
  Scope i site endpoint label -> ~ pageWithoutId i.
Proof.
  intros Hsc [Ht Hm]. destruct Hsc as [Hsite | p _ [Hp Hne]].
  - congruence.
  - destruct Hm as [Hm|Hm]; congruence.
Qed.

(** The URLs of the two requests of [addCustomCode], when the
    identifiers in their paths are plain. *)
Lemma registerRequest_url (key site : string) (i : Webflow.AddCustomCodeInput) :
  plainId site ->
  Webflow.url (registerRequest key site i)
  = Url.BASE_URL ++ "/sites/" ++ site ++ "/registered_scripts/inline".
Proof.
  intros Hplain. unfold registerRequest, webflowRequest. cbn [Webflow.url].
  apply requested_plain. plain_path.
Qed.

Lemma applyRequest_url (key site endpoint label : string)
  (i : Webflow.AddCustomCodeInput) (S : string) :
  Scope i site endpoint label ->
  plainId (scopeId i site) ->
  Webflow.url (applyRequest key endpoint i S) = Url.BASE_URL ++ endpoint.
Proof.
  intros Hsc Hplain. unfold applyRequest, webflowRequest. cbn [Webflow.url].
  apply requested_plain. unfold scopeId in Hplain.
  destruct Hsc as [Ht | p Ht [Hp Hne]]; rewrite Ht in Hplain.
  - plain_path.
  - rewrite Hp in Hplain. cbn [Webflow.interpolate] in Hplain. plain_path.
Qed.

(** C6, as stated, fails on a page identifier that is a relative path:
    the tool reports the page, while the URL built from the interpolated
    path resolves to the site-scoped endpoint of another site, and that
    is where the payload is sent. *)
Lemma addCustomCode_odd_page_counterexample :
  run (Webflow.addCustomCode
         (Samples.webflow [Samples.okJson (JObj [("id", JStr "script-456")]);
                           Samples.okJson (JObj [])])
         Samples.pageScriptOddPage)
  = (Ret (JObj [("success", JBool true);
                ("scriptId", JStr "script-456");
                ("appliedTo", JStr "page:../sites/victim")]),
     [registerRequest "test-api-key" "site-1" Samples.pageScriptOddPage;
      applyRequest "test-api-key" "/pages/../sites/victim/custom_code"
        Samples.pageScriptOddPage "script-456"])
  /\ Webflow.url
       (applyRequest "test-api-key" "/pages/../sites/victim/custom_code"
          Samples.pageScriptOddPage "script-456")
     = "https://api.webflow.com/v2/sites/victim/custom_code"
  /\ Url.requested "/sites/victim/custom_code" []
     = "https://api.webflow.com/v2/sites/victim/custom_code"
  /\ includes "https://api.webflow.com/v2/sites/victim/custom_code" "/pages/"
     = false.
Proof. repeat split. Qed.

(** C6, amended.  When registration returns the script id [S] and the
    apply call returns, the tool makes exactly the two calls, the second
    one a PUT of the payload with the one script [S], its location and its
    version, built from the path of the page endpoint for a page target
    and of the site endpoint for a site target, and it returns success
    true with [scriptId] equal to [S] and [appliedTo] naming the page,
    respectively the resolved site.  When the identifier in that path (the
    page, respectively the site) is plain, the URL requested is that
    endpoint under the base URL. *)
Theorem addCustomCode_applied (w : Webflow.World)
  (i : Webflow.AddCustomCodeInput) (key site endpoint label : string)
  (r1 r2 : Webflow.Response) (registered applied : JsValue) (S : string) :
  Scope i site endpoint label ->
  (String.length (Webflow.sourceCode i) <= 2000)%nat ->
  Webflow.resolveSiteId w (Webflow.siteId i) = Ret site ->
  Webflow.getApiKey w = Ret key ->
  Webflow.fetch w [] (registerRequest key site i) = Webflow.FetchResolves r1 ->
  Webflow.readResponse r1 = Ret registered ->
  extractedId registered = Ret S ->
  S <> "" ->
  Webflow.fetch w [registerRequest key site i] (applyRequest key endpoint i S)
  = Webflow.FetchResolves r2 ->
  Webflow.readResponse r2 = Ret applied ->
  run (Webflow.addCustomCode w i)
  = (Ret (JObj [("success", JBool true);
                ("scriptId", JStr S);
                ("appliedTo", JStr label)]),
     [registerRequest key site i; applyRequest key endpoint i S])
  /\ (plainId (scopeId i site) ->
      Webflow.url (applyRequest key endpoint i S) = Url.BASE_URL ++ endpoint).
Proof.
  intros Hsc Hlen Hs Hk Hf1 Hr1 Hid HS Hf2 Hr2. split.
  - unfold Webflow.addCustomCode, run.
    apply try_catch_returned.
    pose proof (addCustomCode_registered w i key site r1 registered S
                  (scope_passes_guard i site endpoint label Hsc)
                  Hlen Hs Hk Hf1 Hr1 Hid) as H.
    unfold run in H. rewrite H, (eqb_empty_false S HS). clear H.
    unfold applyRequest, webflowRequest in Hf2 |- *.
    cbn [Webflow.body Webflow.opt_body Webflow.opt_method] in Hf2 |- *.
    destruct Hsc as [Ht | p Ht [Hp Hne]]; rewrite Ht; cbn [Webflow.isPage andb].
    + unfold bindM.
      erewrite callApi_sent; [|reflexivity|exact Hk].
      unfold webflowRequest.
      cbn [Webflow.body Webflow.opt_body Webflow.opt_method].
      rewrite Hf2, Hr2. reflexivity.
    + rewrite Hp. cbn [ofOptString Webflow.interpolate truthy].
      rewrite (eqb_empty_false p Hne). cbn [negb]. unfold bindM.
      erewrite callApi_sent; [|reflexivity|exact Hk].
      unfold webflowRequest.
      cbn [Webflow.body Webflow.opt_body Webflow.opt_method].
      rewrite Hf2, Hr2. reflexivity.
  - exact (applyRequest_url key site endpoint label i S Hsc).
Qed.

Lemma addCustomCode_applied_witness :
  (run (Webflow.addCustomCode
          (Samples.webflow [Samples.okJson (JObj [("id", JStr "script-123")]);
                            Samples.okJson (JObj [])])
          Samples.siteScript)
   = (Ret (JObj [("success", JBool true);
                 ("scriptId", JStr "script-123");
                 ("appliedTo", JStr "site:site-1")]),
      [registerRequest "test-api-key" "site-1" Samples.siteScript;
       applyRequest "test-api-key" "/sites/site-1/custom_code"
         Samples.siteScript "script-123"])
   /\ Webflow.url
        (applyRequest "test-api-key" "/sites/site-1/custom_code"
           Samples.siteScript "script-123")
      = "https://api.webflow.com/v2/sites/site-1/custom_code")
  /\ (run (Webflow.addCustomCode
             (Samples.webflow [Samples.okJson (JObj [("id", JStr "script-456")]);
                               Samples.okJson (JObj [])])
             Samples.pageScript)
      = (Ret (JObj [("success", JBool true);
                    ("scriptId", JStr "script-456");
                    ("appliedTo", JStr "page:page-1")]),
         [registerRequest "test-api-key" "site-1" Samples.pageScript;
          applyRequest "test-api-key" "/pages/page-1/custom_code"
            Samples.pageScript "script-456"])
      /\ Webflow.url
           (applyRequest "test-api-key" "/pages/page-1/custom_code"
              Samples.pageScript "script-456")
         = "https://api.webflow.com/v2/pages/page-1/custom_code").
Proof.
  split.
  - edestruct (addCustomCode_applied
                 (Samples.webflow
                    [Samples.okJson (JObj [("id", JStr "script-123")]);
                     Samples.okJson (JObj [])])
                 Samples.siteScript "test-api-key" "site-1"
                 "/sites/site-1/custom_code" "site:site-1")
      as [Hrun Hurl].
    + apply (SiteScope Samples.siteScript "site-1"). reflexivity.
    + apply Nat.leb_le. reflexivity.
    + reflexivity.
    + reflexivity.
    + reflexivity.
    + reflexivity.
    + reflexivity.
    + discriminate.
    + reflexivity.
    + reflexivity.
    + split; [exact Hrun | exact (Hurl eq_refl)].
  - edestruct (addCustomCode_applied
                 (Samples.webflow
                    [Samples.okJson (JObj [("id", JStr "script-456")]);
                     Samples.okJson (JObj [])])
                 Samples.pageScript "test-api-key" "site-1"
                 "/pages/page-1/custom_code" "page:page-1")
      as [Hrun Hurl].
    + apply (PageScope Samples.pageScript "site-1" "page-1").
      * reflexivity.
      * split; [reflexivity | discriminate].
    + apply Nat.leb_le. reflexivity.
    + reflexivity.
    + reflexivity.
    + reflexivity.
    + reflexivity.
    + reflexivity.
    + discriminate.
    + reflexivity.
    + reflexivity.
    + split; [exact Hrun | exact (Hurl eq_refl)].
Defined.

(** *** Pagination echo (C8) *)

Lemma callApi_returned (w : Webflow.World) (path : string)
  (options : Webflow.Options) (log log' : list Webflow.Request)
  (response : JsValue) :
  Webflow.callApi w path options log = (Ret response, log') ->
  exists req r,
    log' = (log ++ [req])%list
    /\ Webflow.fetch w log req = Webflow.FetchResolves r
    /\ Webflow.readResponse r = Ret response
    /\ Webflow.path req = path
    /\ Webflow.body req = Webflow.opt_body options.
Proof.
  unfold Webflow.callApi. js_simpl.
  destruct (match Webflow.opt_params options with
            | Some params => Webflow.searchParams params
            | None => Ret []
            end) as [q|t]; [|discriminate].
  destruct (Webflow.getApiKey w) as [key|t]; [|discriminate].
  unfold Webflow.await_fetch.
  match goal with
  | |- context [Webflow.fetch w log ?req] =>
      destruct (Webflow.fetch w log req) as [t|r] eqn:Hf; [discriminate|];
      intros H; exists req, r
  end.
  destruct (Webflow.readResponse r) as [v|t]; [|discriminate].
  inversion H; subst. repeat split. exact Hf.
Qed.

(** The shape shared by the Webflow tools that resolve the site, make one
    call and reshape its answer: either the handler answered, or one call
    was made and the result is the reshaped answer. *)
Lemma fetched_then_reshaped (w : Webflow.World) (siteId : option string)
  (mkPath : string -> string) (options : Webflow.Options)
  (reshape : JsValue -> Exc JsValue) (handler : Thrown -> M Webflow.Request JsValue)
  (h : Thrown -> JsValue) (out : JsValue) (calls : list Webflow.Request) :
  (forall t l, handler t l = (Ret (h t), l)) ->
  run (try_catch
         (resolvedSiteId <- lift (Webflow.resolveSiteId w siteId) ;;
          response <- Webflow.callApi w (mkPath resolvedSiteId) options ;;
          lift (reshape response))
         handler) = (Ret out, calls) ->
  (exists t, out = h t)
  \/ (exists req r response,
        calls = [req]
        /\ Webflow.fetch w [] req = Webflow.FetchResolves r
        /\ Webflow.readResponse r = Ret response
        /\ reshape response = Ret out).
Proof.
  intros Hh. js_simpl.
  destruct (Webflow.resolveSiteId w siteId) as [site|t].
  - destruct (Webflow.callApi w (mkPath site) options []) as [[response|t] log']
      eqn:Hc.
    + destruct (callApi_returned _ _ _ _ _ _ Hc) as (req & r & -> & Hf & Hr & _).
      destruct (reshape response) as [v|t] eqn:Hre.
      * intros H; inversion H; subst. right. exists req, r, response.
        repeat split; assumption.
      * rewrite Hh. intros H; inversion H; subst. left. now exists t.
    + rewrite Hh. intros H; inversion H; subst. left. now exists t.
  - rewrite Hh. intros H; inversion H; subst. left. now exists t.
Qed.

Lemma getProp_field (o : JsValue) (key : string) (v : JsValue) :
  ownOnly key -> getProp o key = Ret v -> v = field o key.
Proof.
  intros Hk. destruct o as [| | | | | |fields|name];
    try (simpl; intros H; inversion H; reflexivity).
  rewrite (getProp_own fields key Hk). intros H. now injection H as <-.
Qed.

Lemma ToNumber_number (stn : string -> number) (v x : JsValue) :
  ToNumber stn v = Ret x -> exists n, x = JNum n.
Proof.
  destruct v as [| |[|]|n|s|items|fields|name]; cbn [ToNumber]; js_simpl;
    try (intros H; inversion H; eauto; fail).
  - destruct (ToString (JArr items)); intros H; inversion H; eauto.
  - destruct (ToString (JObj fields)); intros H; inversion H; eauto.
Qed.

Lemma paginationEcho_spec (w : Webflow.World) (response pag : JsValue) :
  Webflow.paginationEcho w response = Ret pag ->
  (truthy (field response "pagination") = false -> pag = JUndefined)
  /\ (truthy (field response "pagination") = true ->
      exists limit offset total,
        pag = JObj [("limit", JNum limit);
                    ("offset", JNum offset);
                    ("total", JNum total)]).
Proof.
  unfold Webflow.paginationEcho. js_simpl.
  destruct (getProp response "pagination") as [p|t] eqn:Hp; [|discriminate].
  apply getProp_field in Hp; [|reflexivity]. subst p.
  destruct (truthy (field response "pagination")).
  - destruct (getProp (field response "pagination") "limit") as [l|]; [|discriminate].
    destruct (ToNumber _ (coalesce l _)) as [l'|] eqn:Hl; [|discriminate].
    destruct (getProp (field response "pagination") "offset") as [o|]; [|discriminate].
    destruct (ToNumber _ (coalesce o _)) as [o'|] eqn:Ho; [|discriminate].
    destruct (getProp (field response "pagination") "total") as [t|]; [|discriminate].
    destruct (ToNumber _ (coalesce t _)) as [t'|] eqn:Ht; [|discriminate].
    apply ToNumber_number in Hl as [nl ->].
    apply ToNumber_number in Ho as [no ->].
    apply ToNumber_number in Ht as [nt ->].
    intros H; inversion H; subst. split; [discriminate|]. intros _. eauto.
  - intros H; inversion H; subst. split; [reflexivity | discriminate].
Qed.

(** The three figures of a pagination echo are the numbers of the
    [limit], [offset] and [total] of the answer's [pagination]. *)
Lemma paginationEcho_figures (w : Webflow.World) (response pag : JsValue) :
  Webflow.paginationEcho w response = Ret pag ->
  truthy (field response "pagination") = true ->
  exists limit offset total,
    pag = JObj [("limit", JNum limit);
                ("offset", JNum offset);
                ("total", JNum total)]
    /\ figure w (field response "pagination") "limit" = Ret (JNum limit)
    /\ figure w (field response "pagination") "offset" = Ret (JNum offset)
    /\ figure w (field response "pagination") "total" = Ret (JNum total).
Proof.
  unfold Webflow.paginationEcho, figure. js_simpl.
  destruct (getProp response "pagination") as [p|t] eqn:Hp; [|discriminate].
  apply getProp_field in Hp; [|reflexivity]. subst p.
  intros H Ht. rewrite Ht in H.
  destruct (getProp (field response "pagination") "limit") as [l|] eqn:Hl;
    [|discriminate].
  apply getProp_field in Hl; [|reflexivity]. subst l.
  destruct (ToNumber _ (coalesce (field _ "limit") _)) as [l'|] eqn:Hl';
    [|discriminate].
  destruct (getProp (field response "pagination") "offset") as [o|] eqn:Ho;
    [|discriminate].
  apply getProp_field in Ho; [|reflexivity]. subst o.
  destruct (ToNumber _ (coalesce (field _ "offset") _)) as [o'|] eqn:Ho';
    [|discriminate].
  destruct (getProp (field response "pagination") "total") as [t|] eqn:Htot;
    [|discriminate].
  apply getProp_field in Htot; [|reflexivity]. subst t.
  destruct (ToNumber _ (coalesce (field _ "total") _)) as [t'|] eqn:Ht';
    [|discriminate].
  destruct (ToNumber_number _ _ _ Hl') as [nl ->].
  destruct (ToNumber_number _ _ _ Ho') as [no ->].
  destruct (ToNumber_number _ _ _ Ht') as [nt ->].
  inversion H; subst. exists nl, no, nt. repeat split; assumption.
Qed.

(** The results of the reshaping step of a paginated list tool. *)
Lemma reshaped_pagination (w : Webflow.World) (key what : string)
  (f : JsValue -> Exc JsValue) (response out : JsValue) :
  (key =? "pagination") = false ->
  (v <- getProp response key ;;
   items <- arrayMap what f (coalesce v (JArr [])) ;;
   pagination <- Webflow.paginationEcho w response ;;
   ret (JObj [(key, JArr items);
              ("count", lengthOf items);
              ("pagination", pagination)])) = Ret out ->
  Webflow.paginationEcho w response = Ret (field out "pagination").
Proof.
  intros Hkey. js_simpl.
  destruct (getProp response key) as [v|]; [|discriminate].
  destruct (arrayMap what f (coalesce v (JArr []))) as [items|]; [|discriminate].
  destruct (Webflow.paginationEcho w response) as [pag|]; [|discriminate].
  intros H; inversion H; subst. cbn [field assoc]. rewrite Hkey. reflexivity.
Qed.

(** C8, as stated, fails on an answer whose [pagination] is present
    without being an object: the code tests it for truthiness, so [true]
    is echoed as an object with three zeros, not left out. *)
Lemma pagination_echo_counterexample :
  run (Webflow.execute
         (Samples.webflow
            [Samples.okJson (JObj [("pages", JArr []);
                                   ("pagination", JBool true)])])
         (Webflow.ListPages (Some "site-1") None None))
  = (Ret (JObj [("pages", JArr []);
                ("count", JNum (Int 0));
                ("pagination",
                 JObj [("limit", JNum (Int 0));
                       ("offset", JNum (Int 0));
                       ("total", JNum (Int 0))])]),
     [webflowRequest "test-api-key" "/sites/site-1/pages"
        {| Webflow.opt_method := None;
           Webflow.opt_body := None;
           Webflow.opt_params :=
             Some [("limit", JUndefined); ("offset", JUndefined)] |}
        []])
  /\ (forall fields, JBool true <> JObj fields)
  /\ field (JObj [("pages", JArr []);
                  ("count", JNum (Int 0));
                  ("pagination",
                   JObj [("limit", JNum (Int 0));
                         ("offset", JNum (Int 0));
                         ("total", JNum (Int 0))])]) "pagination"
     <> JUndefined.
Proof. repeat split; discriminate. Qed.

(** C8, amended.  In every invocation of [listPages], [listForms],
    [listFormSubmissions] or [listCustomCode] that succeeds (the result
    carries no [error]), exactly one call was made and answered, and the
    [pagination] field of the result is [undefined] when the [pagination]
    of the answer is missing or another falsy value, while for every
    truthy [pagination] it is an object with the three number fields
    [limit], [offset] and [total], each the number of the field of that
    name in the answer's [pagination], with 0 for a missing or null one. *)
Theorem pagination_echo (w : Webflow.World) (c : Webflow.ToolCall)
  (out : JsValue) (calls : list Webflow.Request) :
  paginated c ->
  run (Webflow.execute w c) = (Ret out, calls) ->
  field out "error" = JUndefined ->
  exists req r response,
    calls = [req]
    /\ Webflow.fetch w [] req = Webflow.FetchResolves r
    /\ Webflow.readResponse r = Ret response
    /\ (truthy (field response "pagination") = false ->
        field out "pagination" = JUndefined)
    /\ (truthy (field response "pagination") = true ->
        exists limit offset total,
          field out "pagination"
          = JObj [("limit", JNum limit);
                  ("offset", JNum offset);
                  ("total", JNum total)]
          /\ figure w (field response "pagination") "limit" = Ret (JNum limit)
          /\ figure w (field response "pagination") "offset" = Ret (JNum offset)
          /\ figure w (field response "pagination") "total" = Ret (JNum total)).
Proof.
  intros Hp Hrun Herr.
  assert (Hcase :
            (exists msg, field out "error" = JStr msg)
            \/ exists req r response,
                calls = [req]
                /\ Webflow.fetch w [] req = Webflow.FetchResolves r
                /\ Webflow.readResponse r = Ret response
                /\ Webflow.paginationEcho w response
                   = Ret (field out "pagination")).
  { destruct c; try contradiction; cbn [Webflow.execute] in Hrun.
    - unfold Webflow.listPages, Webflow.listPages_try in Hrun.
      eapply fetched_then_reshaped
        with (h := fun error =>
                     JObj [("pages", JArr []); ("count", JNum (Int 0));
                           ("error",
                            JStr (errorMessage error "Failed to list pages"))])
        in Hrun; [|reflexivity].
      destruct Hrun as [[t ->] | (req & r & response & Hc & Hf & Hr & Hre)].
      + left. eexists. reflexivity.
      + right. exists req, r, response. repeat split; try assumption.
        eapply reshaped_pagination; [|exact Hre]. reflexivity.
    - unfold Webflow.listForms, Webflow.listForms_try in Hrun.
      eapply fetched_then_reshaped
        with (h := fun error =>
                     JObj [("forms", JArr []); ("count", JNum (Int 0));
                           ("error",
                            JStr (errorMessage error "Failed to list forms"))])
        in Hrun; [|reflexivity].
      destruct Hrun as [[t ->] | (req & r & response & Hc & Hf & Hr & Hre)].
      + left. eexists. reflexivity.
      + right. exists req, r, response. repeat split; try assumption.
        eapply reshaped_pagination; [|exact Hre]. reflexivity.
    - unfold Webflow.listFormSubmissions, Webflow.listFormSubmissions_try in Hrun.
      eapply fetched_then_reshaped
        with (h := fun error =>
                     JObj [("formSubmissions", JArr []); ("count", JNum (Int 0));
                           ("error",
                            JStr (errorMessage error
                                    "Failed to list form submissions"))])
        in Hrun; [|reflexivity].
      destruct Hrun as [[t ->] | (req & r & response & Hc & Hf & Hr & Hre)].
      + left. eexists. reflexivity.
      + right. exists req, r, response. repeat split; try assumption.
        eapply reshaped_pagination; [|exact Hre]. reflexivity.
    - unfold Webflow.listCustomCode, Webflow.listCustomCode_try in Hrun.
      eapply fetched_then_reshaped
        with (h := fun error =>
                     JObj [("blocks", JArr []); ("count", JNum (Int 0));
                           ("error",
                            JStr (errorMessage error
                                    "Failed to list custom code"))])
        in Hrun; [|reflexivity].
      destruct Hrun as [[t ->] | (req & r & response & Hc & Hf & Hr & Hre)].
      + left. eexists. reflexivity.
      + right. exists req, r, response. repeat split; try assumption.
        eapply reshaped_pagination; [|exact Hre]. reflexivity. }
  destruct Hcase as [[msg Hmsg] | (req & r & response & Hc & Hf & Hr & Hpag)].
  - rewrite Hmsg in Herr. discriminate.
  - exists req, r, response.
    destruct (paginationEcho_spec w response _ Hpag) as [Hno _].
    repeat split; try assumption.
    apply (paginationEcho_figures w response _ Hpag).
Qed.

Lemma pagination_echo_witness :
  exists req r response,
    [webflowRequest "test-api-key" "/sites/site-1/pages"
       {| Webflow.opt_method := None;
          Webflow.opt_body := None;
          Webflow.opt_params := Some [("limit", JUndefined); ("offset", JUndefined)] |}
       []] = [req]
    /\ Webflow.fetch Samples.pagesAnswered [] req = Webflow.FetchResolves r
    /\ Webflow.readResponse r = Ret response
    /\ (truthy (field response "pagination") = false ->
        field Samples.pagesListed "pagination" = JUndefined)
    /\ (truthy (field response "pagination") = true ->
        exists limit offset total,
          field Samples.pagesListed "pagination"
          = JObj [("limit", JNum limit);
                  ("offset", JNum offset);
                  ("total", JNum total)]
          /\ figure Samples.pagesAnswered (field response "pagination") "limit"
             = Ret (JNum limit)
          /\ figure Samples.pagesAnswered (field response "pagination") "offset"
             = Ret (JNum offset)
          /\ figure Samples.pagesAnswered (field response "pagination") "total"
             = Ret (JNum total)).
Proof.
  apply (pagination_echo Samples.pagesAnswered
           (Webflow.ListPages (Some "site-1") None None)).
  - exact I.
  - reflexivity.
  - reflexivity.
Defined.

(** *** The Resend tools: one SDK call, then reshaping *)

Lemma destructured_returned (v : JsValue) (key : string) (x : JsValue) :
  destructured v key = Ret x -> getProp v key = Ret x.
Proof. destruct v; cbn [destructured]; try discriminate; exact (fun H => H). Qed.

(** The shape shared by the nine Resend tools: either the handler
    answered, or the client was built, one call was made and resolved to a
    value with [data] and [error], and the result comes from the branch
    chosen by the truthiness of [error]. *)
Lemma called_then_reshaped (w : Resend.World) (c : Resend.SdkCall)
  (onError onData : JsValue -> Exc JsValue)
  (handler : Thrown -> M Resend.Request JsValue) (h : Thrown -> JsValue)
  (out : JsValue) (calls : list Resend.Request) :
  (forall t l, handler t l = (Ret (h t), l)) ->
  run (try_catch
         (resend <- lift (Resend.getClient w) ;;
          r <- Resend.await_sdk w resend c ;;
          let '(data, error) := r in
          if truthy error then lift (onError error) else lift (onData data))
         handler) = (Ret out, calls) ->
  (exists t, out = h t)
  \/ (exists key v data error,
        Resend.getClient w = Ret key
        /\ calls = [{| Resend.clientKey := key; Resend.call := c |}]
        /\ Resend.sdk w [] {| Resend.clientKey := key; Resend.call := c |}
           = Resend.SdkResolves v
        /\ getProp v "data" = Ret data
        /\ getProp v "error" = Ret error
        /\ (if truthy error then onError error else onData data) = Ret out).
Proof.
  intros Hh. js_simpl.
  destruct (Resend.getClient w) as [key|t].
  - unfold Resend.await_sdk.
    destruct (Resend.sdk w [] _) as [t|v] eqn:Hsdk.
    + rewrite Hh. intros H; inversion H; subst. left. now exists t.
    + js_simpl.
      destruct (destructured v "data") as [data|t] eqn:Hd.
      * apply destructured_returned in Hd.
        destruct (getProp v "error") as [error|t] eqn:He.
        -- destruct (truthy error) eqn:Ht.
           ++ destruct (onError error) as [o|t] eqn:Ho.
              ** intros H; inversion H; subst. right.
                 exists key, v, data, error. rewrite Ht. auto 10.
              ** rewrite Hh. intros H; inversion H; subst. left. now exists t.
           ++ destruct (onData data) as [o|t] eqn:Ho.
              ** intros H; inversion H; subst. right.
                 exists key, v, data, error. rewrite Ht. auto 10.
              ** rewrite Hh. intros H; inversion H; subst. left. now exists t.
        -- rewrite Hh. intros H; inversion H; subst. left. now exists t.
      * rewrite Hh. intros H; inversion H; subst. left. now exists t.
  - rewrite Hh. intros H; inversion H; subst. left. now exists t.
Qed.

(** *** removeContact (C10) *)

(** C10.  When the SDK call of [removeContact] succeeds with a record, the
    tool returns success true, [deleted] equal to the record's boolean
    [deleted] or true when the record has none, and [id] equal to the
    record's string [id] or the caller's lookup key when the record has
    none.  On every failure path (success false) [deleted] is false and
    [id] is the caller's lookup key. *)
Theorem removeContact_outcome (w : Resend.World) (id : string) :
  (forall key v record (upstreamDeleted : option bool)
          (upstreamId : option string),
      Resend.getClient w = Ret key ->
      Resend.sdk w []
        {| Resend.clientKey := key;
           Resend.call := Resend.ContactsRemove (JObj [("id", JStr id)]) |}
      = Resend.SdkResolves v ->
      truthy (field v "error") = false ->
      field v "data" = JObj record ->
      assoc "deleted" record = ofOptBool upstreamDeleted ->
      assoc "id" record = ofOptString upstreamId ->
      fst (run (Resend.removeContact w id))
      = Ret (JObj [("success", JBool true);
                   ("deleted",
                    JBool (match upstreamDeleted with
                           | Some b => b
                           | None => true
                           end));
                   ("id",
                    JStr (match upstreamId with
                          | Some s => s
                          | None => id
                          end))]))
  /\ (forall out calls,
        run (Resend.removeContact w id) = (Ret out, calls) ->
        field out "success" = JBool false ->
        field out "deleted" = JBool false /\ field out "id" = JStr id).
Proof.
  split.
  - intros key v record upD upI Hk Hsdk Herr Hdata Hdel Hid.
    unfold Resend.removeContact, Resend.removeContact_try. js_simpl.
    rewrite Hk. unfold Resend.await_sdk. rewrite Hsdk.
    destruct v as [| | | | | |fs|name]; try discriminate.
    cbn [field] in Herr, Hdata. js_simpl.
    cbn [destructured getProp]; rewrite ?member_own by reflexivity.
    rewrite Herr, Hdata.
    unfold stringOr. cbn [getProp]; rewrite ?member_own by reflexivity. js_simpl. rewrite Hdel, Hid.
    destruct upD as [[|]|], upI as [s|]; reflexivity.
  - intros out calls Hrun Hfalse.
    unfold Resend.removeContact, Resend.removeContact_try in Hrun.
    eapply called_then_reshaped
      with (h := fun error =>
                   JObj [("success", JBool false);
                         ("deleted", JBool false);
                         ("id", JStr id);
                         ("error",
                          JStr (errorMessage error "Failed to remove contact"))])
      in Hrun; [|reflexivity].
    destruct Hrun as [[t ->] | (key & v & data & error & _ & _ & _ & _ & _ & Hb)].
    + split; reflexivity.
    + destruct (truthy error).
      * js_simpl. destruct (getProp error "message"); [|discriminate].
        inversion Hb; subst. split; reflexivity.
      * js_simpl.
        destruct (getProp data "deleted"); [|discriminate].
        destruct (stringOr data "id" (JStr id)); [|discriminate].
        inversion Hb; subst. discriminate Hfalse.
Qed.

Lemma removeContact_outcome_witness :
  fst (run (Resend.removeContact
              (Samples.resend
                 (Samples.sdkData (JObj [("id", JStr "contact-123");
                                         ("deleted", JBool true)])))
              "contact-123"))
  = Ret (JObj [("success", JBool true);
               ("deleted", JBool true);
               ("id", JStr "contact-123")])
  /\ (field (JObj [("success", JBool false);
                   ("deleted", JBool false);
                   ("id", JStr "nonexistent");
                   ("error", JStr "Contact not found")]) "deleted" = JBool false
      /\ field (JObj [("success", JBool false);
                      ("deleted", JBool false);
                      ("id", JStr "nonexistent");
                      ("error", JStr "Contact not found")]) "id"
         = JStr "nonexistent").
Proof.
  split.
  - apply (proj1 (removeContact_outcome
                    (Samples.resend
                       (Samples.sdkData (JObj [("id", JStr "contact-123");
                                               ("deleted", JBool true)])))
                    "contact-123")
             "test-api-key"
             (JObj [("data", JObj [("id", JStr "contact-123");
                                   ("deleted", JBool true)]);
                    ("error", JNull)])
             [("id", JStr "contact-123"); ("deleted", JBool true)]
             (Some true) (Some "contact-123"));
      reflexivity.
  - apply (proj2 (removeContact_outcome
                    (Samples.resend (Samples.sdkError "Contact not found"))
                    "nonexistent")
             _ [{| Resend.clientKey := "test-api-key";
                   Resend.call :=
                     Resend.ContactsRemove (JObj [("id", JStr "nonexistent")]) |}]);
      reflexivity.
Defined.

(** *** Nothing escapes a tool (C1) *)





(** A failure status makes [callApi] throw the error that carries the
    status and the body text. *)
Lemma readResponse_failure_status (r : Webflow.Response) (text : string) :
  Webflow.ok r = false ->
  Webflow.text r = Ret text ->
  Webflow.readResponse r
  = Raise (ThrowError ("Webflow API error " ++ NumberToString (Webflow.status r)
                         ++ ": " ++ text)).
Proof.
  intros Hok Ht. unfold Webflow.readResponse. rewrite Hok, Ht. reflexivity.
Qed.

Lemma getProp_truthy (o : JsValue) (key : string) :
  ownOnly key -> truthy o = true -> getProp o key = Ret (field o key).
Proof.
  intros Hk. destruct o; try discriminate; try reflexivity.
  intros _. now apply getProp_own.
Qed.


(** The three kinds of failure the claim names, each caught: a missing
    key, a failure status of the remote call, and an answer that cannot be
    reshaped. *)
Example listSites_without_key :
  run (Webflow.listSites Samples.unconfigured)
  = (Ret (JObj [("sites", JArr []);
                ("count", JNum (Int 0));
                ("error",
                 JStr "WEBFLOW_API_KEY environment variable is required")]),
     []).
Proof. reflexivity. Qed.

Example listSites_unauthorized :
  fst (run (Webflow.listSites
              (Samples.webflow [Samples.failed 401 "Unauthorized"])))
  = Ret (JObj [("sites", JArr []);
               ("count", JNum (Int 0));
               ("error", JStr "Webflow API error 401: Unauthorized")]).
Proof. reflexivity. Qed.

Example listSites_not_an_array :
  fst (run (Webflow.listSites
              (Samples.webflow [Samples.okJson (JObj [("sites", JNum (Int 5))])])))
  = Ret (JObj [("sites", JArr []);
               ("count", JNum (Int 0));
               ("error", JStr "rawSites.map is not a function")]).
Proof. reflexivity. Qed.

Example sendEmail_sdk_error :
  fst (run (Resend.sendEmail (Samples.resend (Samples.sdkError "Invalid API key"))
              {| Resend.from := "hello@example.com";
                 Resend.to := ["user@example.com"];
                 Resend.subject := "Test Email";
                 Resend.html := Some "<p>Hello!</p>";
                 Resend.text := None;
                 Resend.replyTo := None;
                 Resend.cc := None;
                 Resend.bcc := None;
                 Resend.scheduledAt := None;
                 Resend.tags := None;
                 Resend.attachments := None;
                 Resend.template := None;
                 Resend.topicId := None |}))
  = Ret (JObj [("success", JBool false);
               ("id", JStr "");
               ("error", JStr "Invalid API key")]).
Proof. reflexivity. Qed.

(** *** Required fields (C9) *)

Import Zod.

(** Case analysis on the innermost scrutinee of a hypothesis, repeated,
    dropping the cases in which it equates a thrown result with a returned
    one. *)
Ltac invert_binds H :=
  cbv beta iota delta
    [bind ret Monad_Exc Monad_M bindE bindM retM lift throw run try_catch] in H;
  repeat match type of H with
         | context [match ?x with _ => _ end] =>
             lazymatch x with
             | context [match _ with _ => _ end] => fail
             | _ => destruct x eqn:?; try discriminate H
             end
         end;
  try (injection H as H; subst).

Lemma String_string (v x : JsValue) :
  String_ v = Ret x -> exists s, x = JStr s.
Proof.
  unfold String_. js_simpl. destruct (ToString v); intros H; inversion H; eauto.
Qed.

Lemma stringOr_string (o : JsValue) (key : string) (dflt v : JsValue) :
  stringOr o key dflt = Ret v -> exists s, v = JStr s.
Proof.
  unfold stringOr. js_simpl. destruct (getProp o key); [|discriminate].
  apply String_string.
Qed.

Lemma optional_primitive (s : Schema) (v : JsValue) :
  s = ZString \/ s = ZNumber \/ s = ZBoolean ->
  requiredPopulated (ZOptional s) v = true.
Proof. intros [-> | [-> | ->]]; destruct v; reflexivity. Qed.

Lemma mapE_forallb {A B} (f : A -> Exc B) (P : B -> bool) (xs : list A)
  (ys : list B) :
  (forall x y, f x = Ret y -> P y = true) ->
  mapE f xs = Ret ys -> forallb P ys = true.
Proof.
  intros Hf. revert ys. induction xs as [|x xs IH]; intros ys; cbn [mapE]; js_simpl.
  - intros H; inversion H; reflexivity.
  - destruct (f x) as [y|] eqn:Hy; [|discriminate].
    destruct (mapE f xs) as [ys'|]; [|discriminate].
    intros H; inversion H; subst. cbn [forallb].
    now rewrite (Hf x y Hy), (IH ys' eq_refl).
Qed.

Lemma arrayMap_populated (what : string) (f : JsValue -> Exc JsValue)
  (s : Schema) (v : JsValue) (ys : list JsValue) :
  (forall x y, f x = Ret y -> requiredPopulated s y = true) ->
  arrayMap what f v = Ret ys ->
  requiredPopulated (ZArray s) (JArr ys) = true.
Proof.
  intros Hf. destruct v; cbn [arrayMap]; try discriminate.
  cbn [requiredPopulated]. now apply mapE_forallb.
Qed.

Lemma optArrayMap_populated (what : string) (f : JsValue -> Exc JsValue)
  (s : Schema) (v out : JsValue) :
  (forall x y, f x = Ret y -> requiredPopulated s y = true) ->
  optArrayMap what f v = Ret out ->
  requiredPopulated (ZOptional (ZArray s)) out = true.
Proof.
  intros Hf. unfold optArrayMap. js_simpl.
  destruct (isNullish v); [intros H; inversion H; reflexivity|].
  destruct (arrayMap (what ++ "?") f v) as [ys|] eqn:Hm; [|discriminate].
  intros H; inversion H; subst.
  change (requiredPopulated (ZArray s) (JArr ys) = true).
  now apply (arrayMap_populated (what ++ "?") f s v).
Qed.

Lemma populated_object (shape : list (string * Schema))
  (fields : list (string * JsValue)) :
  requiredPopulated (ZObject shape) (JObj fields)
  = forallb (fun ks =>
               (isOptional (snd ks) || negb (isNullish (assoc (fst ks) fields)))
               && requiredPopulated (snd ks) (assoc (fst ks) fields))
      shape.
Proof. reflexivity. Qed.

Ltac strings_known :=
  repeat match goal with
         | E : stringOr _ _ _ = Ret _ |- _ =>
             apply stringOr_string in E as [? ->]
         end.

(** Splits the goal that an object literal has the required fields of an
    object schema into one goal for each declared field, and closes the
    goals of the fields that hold a literal or are optional primitives. *)
Ltac populated_fields :=
  rewrite populated_object; cbn [forallb fst snd];
  repeat (apply andb_true_intro; split);
  simpl (assoc _ _);
  cbn [isOptional orb negb isNullish andb];
  try reflexivity;
  try (apply optional_primitive; auto; fail).

Ltac mapper_populated H :=
  invert_binds H; strings_known; populated_fields.

Lemma domainInfo_populated (d out : JsValue) :
  Webflow.domainInfo d = Ret out ->
  requiredPopulated Webflow.DomainSchema out = true.
Proof.
  unfold Webflow.domainInfo, Webflow.DomainSchema. intros H.
  mapper_populated H.
Qed.

Lemma listSites_site_populated (raw out : JsValue) :
  Webflow.listSites_site raw = Ret out ->
  requiredPopulated Webflow.SiteInfoSchema out = true.
Proof.
  unfold Webflow.listSites_site, Webflow.SiteInfoSchema. intros H.
  mapper_populated H.
  eapply optArrayMap_populated; [|eassumption]. exact domainInfo_populated.
Qed.

Lemma listPages_page_populated (page out : JsValue) :
  Webflow.listPages_page page = Ret out ->
  requiredPopulated Webflow.PageInfoSchema out = true.
Proof.
  unfold Webflow.listPages_page, Webflow.listPages_seo, Webflow.PageInfoSchema.
  intros H. mapper_populated H.
Qed.

Lemma setField_forallb (P : JsValue -> bool) (key : string) (v : JsValue)
  (fields : list (string * JsValue)) :
  P v = true ->
  forallb (fun kv => P (snd kv)) fields = true ->
  forallb (fun kv => P (snd kv)) (setField key v fields) = true.
Proof.
  intros Hv. induction fields as [|[k x] rest IH]; cbn [setField forallb snd].
  - now rewrite Hv.
  - intros H. apply andb_true_iff in H as [Hx Hrest].
    destruct (k =? key); cbn [forallb snd].
    + now rewrite Hv, Hrest.
    + now rewrite Hx, IH.
Qed.

Lemma parseFormFields_loop_populated (P : JsValue -> bool)
  (rawEntries fields out : list (string * JsValue)) :
  (forall value o, Webflow.parseFormFields_field value = Ret o -> P o = true) ->
  forallb (fun kv => P (snd kv)) fields = true ->
  Webflow.parseFormFields_loop rawEntries fields = Ret out ->
  forallb (fun kv => P (snd kv)) out = true.
Proof.
  intros HP. revert fields.
  induction rawEntries as [|[key value] rest IH]; intros fields Hf;
    cbn [Webflow.parseFormFields_loop]; js_simpl.
  - intros H; inversion H; subst. exact Hf.
  - destruct (Webflow.parseFormFields_field value) as [o|] eqn:Ho; [|discriminate].
    apply IH. unfold assignField.
    destruct (key =? "__proto__"); [exact Hf|].
    apply setField_forallb; [exact (HP value o Ho) | exact Hf].
Qed.

Lemma parseFormFields_populated (rawFields out : JsValue) :
  Webflow.parseFormFields rawFields = Ret out ->
  requiredPopulated
    (ZOptional (ZRecord (ZObject [("displayName", ZOptional ZString);
                                  ("type", ZOptional ZString)]))) out = true.
Proof.
  unfold Webflow.parseFormFields. js_simpl.
  destruct (negb (truthy rawFields)); [intros H; inversion H; reflexivity|].
  destruct (Webflow.parseFormFields_loop (entries rawFields) []) as [fields|]
    eqn:Hloop; [|discriminate].
  intros H; inversion H; subst.
  destruct fields as [|kv fields]; [reflexivity|].
  cbn [requiredPopulated isNullish].
  eapply (parseFormFields_loop_populated
            (requiredPopulated (ZObject [("displayName", ZOptional ZString);
                                         ("type", ZOptional ZString)])));
    [| |exact Hloop]; [|reflexivity].
  intros value o Ho. unfold Webflow.parseFormFields_field in Ho.
  invert_binds Ho. populated_fields.
Qed.

Lemma listForms_form_populated (form out : JsValue) :
  Webflow.listForms_form form = Ret out ->
  requiredPopulated Webflow.FormInfoSchema out = true.
Proof.
  unfold Webflow.listForms_form, Webflow.FormInfoSchema. intros H.
  mapper_populated H.
  eapply parseFormFields_populated; eassumption.
Qed.

Lemma unknown_record_populated (v : JsValue) :
  requiredPopulated (ZOptional (ZRecord ZUnknown)) v = true.
Proof.
  destruct v as [| | | | | |fields|name]; try reflexivity.
  cbn [requiredPopulated isNullish]. induction fields; cbn; auto.
Qed.

Lemma listFormSubmissions_submission_populated (submission out : JsValue) :
  Webflow.listFormSubmissions_submission submission = Ret out ->
  requiredPopulated Webflow.FormSubmissionSchema out = true.
Proof.
  unfold Webflow.listFormSubmissions_submission, Webflow.FormSubmissionSchema.
  intros H. mapper_populated H. apply unknown_record_populated.
Qed.

Lemma listCustomCode_script_populated (script out : JsValue) :
  Webflow.listCustomCode_script script = Ret out ->
  requiredPopulated Webflow.ScriptSchema out = true.
Proof.
  unfold Webflow.listCustomCode_script, Webflow.ScriptSchema. intros H.
  mapper_populated H.
Qed.

Lemma listCustomCode_block_populated (block out : JsValue) :
  Webflow.listCustomCode_block block = Ret out ->
  requiredPopulated Webflow.CustomCodeBlockSchema out = true.
Proof.
  unfold Webflow.listCustomCode_block, Webflow.CustomCodeBlockSchema.
  intros H. mapper_populated H.
  eapply arrayMap_populated; [|eassumption].
  exact listCustomCode_script_populated.
Qed.

Lemma primitive_array_populated (s : Schema) (v : JsValue) :
  s = ZString \/ s = ZNumber \/ s = ZBoolean ->
  requiredPopulated (ZArray s) v = true.
Proof.
  intros Hs. destruct v as [| | | | |items| |]; try reflexivity.
  cbn [requiredPopulated].
  induction items as [|x items IH]; [reflexivity|]. cbn [forallb]. rewrite IH.
  destruct Hs as [-> | [-> | ->]]; reflexivity.
Qed.

Lemma optional_primitive_array_populated (s : Schema) (v : JsValue) :
  s = ZString \/ s = ZNumber \/ s = ZBoolean ->
  requiredPopulated (ZOptional (ZArray s)) v = true.
Proof.
  intros Hs. cbn [requiredPopulated]. destruct (isNullish v); [reflexivity|].
  now apply primitive_array_populated.
Qed.

Lemma coalesce_populated (a d : JsValue) :
  isNullish d = false -> negb (isNullish (coalesce a d)) = true.
Proof. intros Hd. unfold coalesce. destruct a; cbn; now rewrite ?Hd. Qed.

Lemma toStringArray_populated (v : JsValue) :
  negb (isNullish (Resend.toStringArray v)) = true.
Proof. destruct v; reflexivity. Qed.

Lemma paginationEcho_populated (w : Webflow.World) (response pag : JsValue) :
  Webflow.paginationEcho w response = Ret pag ->
  requiredPopulated (ZOptional Webflow.PaginationSchema) pag = true.
Proof.
  intros H. destruct (paginationEcho_spec w response pag H) as [Hno Hyes].
  destruct (truthy (field response "pagination")).
  - destruct (Hyes eq_refl) as (l & o & t & ->). reflexivity.
  - rewrite (Hno eq_refl). reflexivity.
Qed.

Create HintDb populated.

#[local] Hint Resolve domainInfo_populated listSites_site_populated
  listPages_page_populated listForms_form_populated
  listFormSubmissions_submission_populated listCustomCode_script_populated
  listCustomCode_block_populated : populated.

(** Closes the goals [populated_fields] leaves: the fields filled by a
    mapper over an array, by the pagination echo or by a default. *)
Ltac populated_rest :=
  unfold lengthOf;
  try reflexivity;
  try (apply optional_primitive; auto; fail);
  try (apply primitive_array_populated; auto; fail);
  try (apply optional_primitive_array_populated; auto; fail);
  try (apply coalesce_populated; reflexivity);
  try (apply toStringArray_populated);
  try (eapply paginationEcho_populated; eassumption);
  try (eapply optArrayMap_populated; [|eassumption]; eauto with populated; fail);
  try (eapply arrayMap_populated; [|eassumption]; eauto with populated; fail).

(** *** The Webflow tools *)

Lemma callApi_then_reshaped (w : Webflow.World) (path : string)
  (options : Webflow.Options) (reshape : JsValue -> Exc JsValue)
  (handler : Thrown -> M Webflow.Request JsValue) (h : Thrown -> JsValue)
  (out : JsValue) (calls : list Webflow.Request) :
  (forall t l, handler t l = (Ret (h t), l)) ->
  run (try_catch
         (response <- Webflow.callApi w path options ;;
          lift (reshape response))
         handler) = (Ret out, calls) ->
  (exists t, out = h t)
  \/ (exists response, reshape response = Ret out).
Proof.
  intros Hh. js_simpl.
  destruct (Webflow.callApi w path options []) as [[response|t] log'].
  - destruct (reshape response) as [v|t] eqn:Hre.
    + intros H; inversion H; subst. right. now exists response.
    + rewrite Hh. intros H; inversion H; subst. left. now exists t.
  - rewrite Hh. intros H; inversion H; subst. left. now exists t.
Qed.

Lemma listSites_populated (w : Webflow.World) (out : JsValue)
  (calls : list Webflow.Request) :
  run (Webflow.listSites w) = (Ret out, calls) ->
  requiredPopulated Webflow.ListSitesResultSchema out = true.
Proof.
  unfold Webflow.listSites, Webflow.listSites_try. intros H.
  eapply callApi_then_reshaped
    with (h := fun error =>
                 JObj [("sites", JArr []); ("count", JNum (Int 0));
                       ("error", JStr (errorMessage error "Failed to list sites"))])
    in H; [|reflexivity].
  unfold Webflow.ListSitesResultSchema.
  destruct H as [[t ->] | (response & Hre)].
  - populated_fields.
  - invert_binds Hre. populated_fields; populated_rest.
Qed.

Lemma publishSite_populated (w : Webflow.World) (siteId : option string)
  (customDomains : option (list string)) (flag : option bool)
  (out : JsValue) (calls : list Webflow.Request) :
  run (Webflow.publishSite w siteId customDomains flag) = (Ret out, calls) ->
  requiredPopulated Webflow.PublishSiteResultSchema out = true.
Proof.
  unfold Webflow.publishSite, Webflow.publishSite_try. intros H.
  eapply fetched_then_reshaped
    with (h := fun error =>
                 JObj [("success", JBool false);
                       ("error",
                        JStr (errorMessage error "Failed to publish site"))])
    in H; [|reflexivity].
  unfold Webflow.PublishSiteResultSchema.
  destruct H as [[t ->] | (req & r & response & _ & _ & _ & Hre)].
  - populated_fields.
  - unfold Webflow.publishSite_result in Hre.
    invert_binds Hre. populated_fields; populated_rest.
Qed.

Lemma listPages_populated (w : Webflow.World) (siteId : option string)
  (limit offset : option number) (out : JsValue) (calls : list Webflow.Request) :
  run (Webflow.listPages w siteId limit offset) = (Ret out, calls) ->
  requiredPopulated Webflow.ListPagesResultSchema out = true.
Proof.
  unfold Webflow.listPages, Webflow.listPages_try. intros H.
  eapply fetched_then_reshaped
    with (h := fun error =>
                 JObj [("pages", JArr []); ("count", JNum (Int 0));
                       ("error", JStr (errorMessage error "Failed to list pages"))])
    in H; [|reflexivity].
  unfold Webflow.ListPagesResultSchema.
  destruct H as [[t ->] | (req & r & response & _ & _ & _ & Hre)].
  - populated_fields.
  - unfold Webflow.listPages_result in Hre.
    invert_binds Hre. populated_fields; populated_rest.
Qed.

Lemma listForms_populated (w : Webflow.World) (siteId : option string)
  (limit offset : option number) (out : JsValue) (calls : list Webflow.Request) :
  run (Webflow.listForms w siteId limit offset) = (Ret out, calls) ->
  requiredPopulated Webflow.ListFormsResultSchema out = true.
Proof.
  unfold Webflow.listForms, Webflow.listForms_try. intros H.
  eapply fetched_then_reshaped
    with (h := fun error =>
                 JObj [("forms", JArr []); ("count", JNum (Int 0));
                       ("error", JStr (errorMessage error "Failed to list forms"))])
    in H; [|reflexivity].
  unfold Webflow.ListFormsResultSchema.
  destruct H as [[t ->] | (req & r & response & _ & _ & _ & Hre)].
  - populated_fields.
  - unfold Webflow.listForms_result in Hre.
    invert_binds Hre. populated_fields; populated_rest.
Qed.

Lemma listFormSubmissions_populated (w : Webflow.World)
  (siteId elementId : option string) (limit offset : option number)
  (out : JsValue) (calls : list Webflow.Request) :
  run (Webflow.listFormSubmissions w siteId elementId limit offset)
  = (Ret out, calls) ->
  requiredPopulated Webflow.ListFormSubmissionsResultSchema out = true.
Proof.
  unfold Webflow.listFormSubmissions, Webflow.listFormSubmissions_try. intros H.
  eapply fetched_then_reshaped
    with (h := fun error =>
                 JObj [("formSubmissions", JArr []); ("count", JNum (Int 0));
                       ("error",
                        JStr (errorMessage error
                                "Failed to list form submissions"))])
    in H; [|reflexivity].
  unfold Webflow.ListFormSubmissionsResultSchema.
  destruct H as [[t ->] | (req & r & response & _ & _ & _ & Hre)].
  - populated_fields.
  - unfold Webflow.listFormSubmissions_result in Hre.
    invert_binds Hre. populated_fields; populated_rest.
Qed.

Lemma listCustomCode_populated (w : Webflow.World) (siteId : option string)
  (limit offset : option number) (out : JsValue) (calls : list Webflow.Request) :
  run (Webflow.listCustomCode w siteId limit offset) = (Ret out, calls) ->
  requiredPopulated Webflow.ListCustomCodeResultSchema out = true.
Proof.
  unfold Webflow.listCustomCode, Webflow.listCustomCode_try. intros H.
  eapply fetched_then_reshaped
    with (h := fun error =>
                 JObj [("blocks", JArr []); ("count", JNum (Int 0));
                       ("error",
                        JStr (errorMessage error "Failed to list custom code"))])
    in H; [|reflexivity].
  unfold Webflow.ListCustomCodeResultSchema.
  destruct H as [[t ->] | (req & r & response & _ & _ & _ & Hre)].
  - populated_fields.
  - unfold Webflow.listCustomCode_result in Hre.
    invert_binds Hre. populated_fields; populated_rest.
Qed.

(** Case analysis along a whole run, as [invert_binds]. *)
Ltac invert_run H :=
  cbv beta iota delta
    [bind ret Monad_Exc Monad_M bindE bindM retM lift throw run try_catch] in H;
  repeat match type of H with
         | context [match ?x with _ => _ end] =>
             lazymatch x with
             | context [match _ with _ => _ end] => fail
             | _ => destruct x eqn:?; try discriminate H
             end
         end;
  inversion H; subst; clear H.

Lemma addCustomCode_populated (w : Webflow.World)
  (i : Webflow.AddCustomCodeInput) (out : JsValue)
  (calls : list Webflow.Request) :
  run (Webflow.addCustomCode w i) = (Ret out, calls) ->
  requiredPopulated Webflow.AddCustomCodeResultSchema out = true.
Proof.
  unfold Webflow.addCustomCode, Webflow.addCustomCode_try,
    Webflow.addCustomCode_catch, Webflow.AddCustomCodeResultSchema.
  intros H. invert_run H; populated_fields.
Qed.

(** *** The Resend tools *)

Lemma listEmails_email_populated (email out : JsValue) :
  Resend.listEmails_email email = Ret out ->
  requiredPopulated Resend.EmailInfoSchema out = true.
Proof.
  unfold Resend.listEmails_email, Resend.EmailInfoSchema. intros H.
  mapper_populated H; populated_rest.
Qed.

Lemma listContacts_contact_populated (contact out : JsValue) :
  Resend.listContacts_contact contact = Ret out ->
  requiredPopulated Resend.ContactInfoSchema out = true.
Proof.
  unfold Resend.listContacts_contact, Resend.ContactInfoSchema. intros H.
  mapper_populated H; populated_rest.
Qed.

Lemma listTemplates_template_populated (tmpl out : JsValue) :
  Resend.listTemplates_template tmpl = Ret out ->
  requiredPopulated Resend.TemplateInfoSchema out = true.
Proof.
  unfold Resend.listTemplates_template, Resend.TemplateInfoSchema. intros H.
  mapper_populated H; populated_rest.
Qed.

Lemma getTemplate_variable_populated (v out : JsValue) :
  Resend.getTemplate_variable v = Ret out ->
  requiredPopulated Resend.TemplateVariableSchema out = true.
Proof.
  unfold Resend.getTemplate_variable, Resend.TemplateVariableSchema. intros H.
  mapper_populated H; populated_rest.
Qed.

#[local] Hint Resolve listEmails_email_populated listContacts_contact_populated
  listTemplates_template_populated getTemplate_variable_populated : populated.

Ltac resend_populated H answer :=
  eapply called_then_reshaped with (h := answer) in H; [|reflexivity];
  destruct H as [[? ->] | (? & ? & ? & ? & _ & _ & _ & _ & _ & H)];
  [ populated_fields
  | unfold Resend.getEmail_result, Resend.listTemplates_result,
      Resend.getTemplate_result in H;
    invert_binds H; strings_known; populated_fields; populated_rest ].

Lemma sendEmail_populated (w : Resend.World) (i : Resend.SendEmailInput)
  (out : JsValue) (calls : list Resend.Request) :
  run (Resend.sendEmail w i) = (Ret out, calls) ->
  requiredPopulated Resend.SendResultSchema out = true.
Proof.
  unfold Resend.sendEmail, Resend.sendEmail_try, Resend.SendResultSchema.
  intros H.
  resend_populated H
    (fun error =>
       JObj [("success", JBool false); ("id", JStr "");
             ("error", JStr (errorMessage error "Failed to send email"))]).
Qed.

Lemma sendBatchEmails_populated (w : Resend.World) (emails : list JsValue)
  (out : JsValue) (calls : list Resend.Request) :
  run (Resend.sendBatchEmails w emails) = (Ret out, calls) ->
  requiredPopulated Resend.BatchSendResultSchema out = true.
Proof.
  unfold Resend.sendBatchEmails, Resend.sendBatchEmails_try,
    Resend.BatchSendResultSchema.
  intros H.
  resend_populated H
    (fun error =>
       JObj [("success", JBool false); ("ids", JArr []); ("count", JNum (Int 0));
             ("error", JStr (errorMessage error "Failed to send batch emails"))]).
Qed.

Lemma getEmail_populated (w : Resend.World) (emailId : string)
  (out : JsValue) (calls : list Resend.Request) :
  run (Resend.getEmail w emailId) = (Ret out, calls) ->
  requiredPopulated Resend.GetEmailResultSchema out = true.
Proof.
  unfold Resend.getEmail, Resend.getEmail_try, Resend.GetEmailResultSchema.
  intros H.
  resend_populated H
    (fun error =>
       JObj [("success", JBool false); ("id", JStr emailId);
             ("error", JStr (errorMessage error "Failed to retrieve email"))]).
Qed.

Lemma listEmails_populated (w : Resend.World)
  (out : JsValue) (calls : list Resend.Request) :
  run (Resend.listEmails w) = (Ret out, calls) ->
  requiredPopulated Resend.ListEmailsResultSchema out = true.
Proof.
  unfold Resend.listEmails, Resend.listEmails_try, Resend.ListEmailsResultSchema.
  intros H.
  resend_populated H
    (fun error =>
       JObj [("emails", JArr []); ("count", JNum (Int 0));
             ("error", JStr (errorMessage error "Failed to list emails"))]).
Qed.

Lemma createContact_populated (w : Resend.World) (i : Resend.CreateContactInput)
  (out : JsValue) (calls : list Resend.Request) :
  run (Resend.createContact w i) = (Ret out, calls) ->
  requiredPopulated Resend.CreateContactResultSchema out = true.
Proof.
  unfold Resend.createContact, Resend.createContact_try,
    Resend.CreateContactResultSchema.
  intros H.
  resend_populated H
    (fun error =>
       JObj [("success", JBool false); ("id", JStr "");
             ("error", JStr (errorMessage error "Failed to create contact"))]).
Qed.

Lemma listContacts_populated (w : Resend.World)
  (out : JsValue) (calls : list Resend.Request) :
  run (Resend.listContacts w) = (Ret out, calls) ->
  requiredPopulated Resend.ListContactsResultSchema out = true.
Proof.
  unfold Resend.listContacts, Resend.listContacts_try,
    Resend.ListContactsResultSchema.
  intros H.
  resend_populated H
    (fun error =>
       JObj [("contacts", JArr []); ("count", JNum (Int 0));
             ("error", JStr (errorMessage error "Failed to list contacts"))]).
Qed.

Lemma removeContact_populated (w : Resend.World) (id : string)
  (out : JsValue) (calls : list Resend.Request) :
  run (Resend.removeContact w id) = (Ret out, calls) ->
  requiredPopulated Resend.RemoveContactResultSchema out = true.
Proof.
  unfold Resend.removeContact, Resend.removeContact_try,
    Resend.RemoveContactResultSchema.
  intros H.
  resend_populated H
    (fun error =>
       JObj [("success", JBool false); ("deleted", JBool false);
             ("id", JStr id);
             ("error", JStr (errorMessage error "Failed to remove contact"))]).
Qed.

Lemma listTemplates_populated (w : Resend.World) (limit : option number)
  (after before : option string) (out : JsValue) (calls : list Resend.Request) :
  run (Resend.listTemplates w limit after before) = (Ret out, calls) ->
  requiredPopulated Resend.ListTemplatesResultSchema out = true.
Proof.
  unfold Resend.listTemplates, Resend.listTemplates_try,
    Resend.ListTemplatesResultSchema.
  intros H.
  resend_populated H
    (fun error =>
       JObj [("templates", JArr []); ("count", JNum (Int 0));
             ("error", JStr (errorMessage error "Failed to list templates"))]).
Qed.

Lemma getTemplate_populated (w : Resend.World) (id : string)
  (out : JsValue) (calls : list Resend.Request) :
  run (Resend.getTemplate w id) = (Ret out, calls) ->
  requiredPopulated Resend.GetTemplateResultSchema out = true.
Proof.
  unfold Resend.getTemplate, Resend.getTemplate_try,
    Resend.GetTemplateResultSchema.
  intros H.
  resend_populated H
    (fun error =>
       JObj [("success", JBool false); ("id", JStr id);
             ("error", JStr (errorMessage error "Failed to get template"))]).
Qed.

(** *** Optional fields (C9) *)

Lemma String_defined (v x : JsValue) : String_ v = Ret x -> isUndefined x = false.
Proof. intros H. apply String_string in H as [s ->]. reflexivity. Qed.

Lemma webflow_getStringField_gated (raw : JsValue) (snake camel : string)
  (v : JsValue) :
  ownOnly snake ->
  ownOnly camel ->
  Webflow.getStringField raw snake camel = Ret v ->
  isUndefined v
  || (truthy (field raw snake) || (truthy (field raw camel) || false)) = true.
Proof.
  intros Hs Hc. unfold Webflow.getStringField. js_simpl.
  destruct (getProp raw snake) as [a|] eqn:Ha; [|discriminate].
  apply getProp_field in Ha; [|assumption]. subst a.
  destruct (truthy (field raw snake)); [now rewrite orb_true_r|].
  destruct (getProp raw camel) as [b|] eqn:Hb; [|discriminate].
  apply getProp_field in Hb; [|assumption]. subst b.
  destruct (truthy (field raw camel)); [now rewrite orb_true_r|].
  intros H; inversion H; reflexivity.
Qed.

Lemma resend_getStringField_gated (raw : JsValue) (snake camel : string)
  (v : JsValue) :
  ownOnly snake ->
  ownOnly camel ->
  Resend.getStringField raw snake camel = Ret v ->
  isUndefined v
  || (truthy (field raw snake) || (truthy (field raw camel) || false)) = true.
Proof. exact (webflow_getStringField_gated raw snake camel v). Qed.

Lemma stringIfTruthy_gated (raw : JsValue) (key : string) (v : JsValue) :
  ownOnly key ->
  stringIfTruthy raw key = Ret v ->
  isUndefined v || (truthy (field raw key) || false) = true.
Proof.
  intros Hk. unfold stringIfTruthy. js_simpl.
  destruct (getProp raw key) as [a|] eqn:Ha; [|discriminate].
  apply getProp_field in Ha; [|assumption]. subst a.
  destruct (truthy (field raw key)); [now rewrite orb_true_r|].
  intros H; inversion H; reflexivity.
Qed.

Lemma optArrayMap_gated (raw : JsValue) (key what : string)
  (f : JsValue -> Exc JsValue) (a v : JsValue) :
  ownOnly key ->
  getProp raw key = Ret a ->
  optArrayMap what f a = Ret v ->
  isUndefined v || (truthy (field raw key) || false) = true.
Proof.
  intros Hk Ha. apply getProp_field in Ha; [|assumption]. subst a.
  unfold optArrayMap. js_simpl.
  destruct (field raw key); cbn [isNullish arrayMap];
    try discriminate; try (intros H; inversion H; reflexivity).
  intros _. now rewrite orb_true_r.
Qed.

Lemma truthy_gated (raw : JsValue) (key : string) (a v : JsValue) :
  ownOnly key ->
  getProp raw key = Ret a ->
  truthy a = true ->
  isUndefined v || (truthy (field raw key) || false) = true.
Proof.
  intros Hk Ha Ht. apply getProp_field in Ha; [|assumption]. subst a.
  now rewrite Ht, orb_true_r.
Qed.

Lemma listPages_seo_gated (raw : JsValue) (key : string) (a v : JsValue) :
  ownOnly key ->
  getProp raw key = Ret a ->
  Webflow.listPages_seo a = Ret v ->
  isUndefined v || (truthy (field raw key) || false) = true.
Proof.
  intros Hk Ha. unfold Webflow.listPages_seo.
  destruct (truthy a) eqn:Ht.
  - intros _. now apply (truthy_gated raw key a).
  - intros H; inversion H; reflexivity.
Qed.

Lemma parseFormFields_gated (raw : JsValue) (key : string) (a v : JsValue) :
  ownOnly key ->
  getProp raw key = Ret a ->
  Webflow.parseFormFields a = Ret v ->
  isUndefined v || (truthy (field raw key) || false) = true.
Proof.
  intros Hk Ha. unfold Webflow.parseFormFields.
  destruct (truthy a) eqn:Ht; cbn [negb].
  - intros _. now apply (truthy_gated raw key a).
  - intros H; inversion H; reflexivity.
Qed.

Lemma paginationEcho_gated (w : Webflow.World) (response pag : JsValue) :
  Webflow.paginationEcho w response = Ret pag ->
  isUndefined pag || (truthy (field response "pagination") || false) = true.
Proof.
  intros H. destruct (paginationEcho_spec w response pag H) as [Hno _].
  destruct (truthy (field response "pagination")).
  - now rewrite orb_true_r.
  - now rewrite (Hno eq_refl).
Qed.

Lemma coalesce_defined (a d : JsValue) :
  isNullish d = false -> negb (isUndefined (coalesce a d)) = true.
Proof. intros Hd. unfold coalesce. destruct a, d; try discriminate; reflexivity. Qed.

Lemma toStringArray_defined (v : JsValue) :
  negb (isUndefined (Resend.toStringArray v)) = true.
Proof. destruct v; reflexivity. Qed.

Lemma truthy_field (raw : JsValue) (key : string) (a : JsValue) :
  ownOnly key ->
  getProp raw key = Ret a -> truthy a = true -> truthy (field raw key) = true.
Proof.
  intros Hk Ha Ht. apply getProp_field in Ha; [|assumption]. now subst a.
Qed.

(** Unfolds the function at the head of the left-hand side of an
    equation. *)
Ltac head_of t :=
  lazymatch t with
  | ?f _ => head_of f
  | _ => t
  end.

Ltac unfold_head H :=
  match type of H with
  | ?lhs = _ => let f := head_of lhs in unfold f in H
  end.

(** One field of a table of copied fields. *)
Ltac gated :=
  first
    [ reflexivity
    | eapply webflow_getStringField_gated; first [eassumption | reflexivity]
    | eapply resend_getStringField_gated; first [eassumption | reflexivity]
    | eapply stringIfTruthy_gated; first [eassumption | reflexivity]
    | eapply optArrayMap_gated; first [eassumption | reflexivity]
    | eapply listPages_seo_gated; first [eassumption | reflexivity]
    | eapply parseFormFields_gated; first [eassumption | reflexivity]
    | eapply paginationEcho_gated; first [eassumption | reflexivity]
    | eapply truthy_gated; first [eassumption | reflexivity]
    | eapply truthy_field; first [eassumption | reflexivity] ].

Ltac copied_fields :=
  unfold fromUpstream; cbn [forallb fst snd existsb];
  repeat (apply andb_true_intro; split);
  simpl (field _ _);
  gated.

Ltac defaulted_fields :=
  unfold allPresent; cbn [forallb];
  repeat (apply andb_true_intro; split);
  simpl (field _ _);
  first [ reflexivity
        | apply coalesce_defined; reflexivity
        | apply toStringArray_defined ].

Lemma records_sorted (r : OutputRecord) (w : Webflow.World) (id : string) :
  In r (webflowRecords w) \/ In r (resendRecords id) ->
  optionalKeys (declared r) = (map fst (copied r) ++ defaulted r ++ reported r)%list.
Proof.
  intros [H|H]; cbn [webflowRecords resendRecords In] in H;
    repeat (destruct H as [<-|H]; [reflexivity|]); destruct H.
Qed.

Lemma records_from_upstream (r : OutputRecord) (w : Webflow.World) (id : string)
  (upstream out : JsValue) :
  In r (webflowRecords w) \/ In r (resendRecords id) ->
  build r upstream = Ret out ->
  fromUpstream (copied r) upstream out = true
  /\ allPresent (defaulted r) out = true.
Proof.
  intros [H|H]; cbn [webflowRecords resendRecords In] in H;
    repeat (destruct H as [<-|H];
            [cbn [build copied defaulted]; intros Hb|]);
    try (destruct H).
  all: unfold_head Hb.
  all: invert_binds Hb; strings_known.
  all: (split; [copied_fields | defaulted_fields]).
Qed.

(** C9, as stated, fails.  [getEmail] on an email that has neither
    [last_event] nor [lastEvent] returns the optional field [lastEvent]
    all the same, holding the empty string. *)
Lemma optional_fields_counterexample :
  exists out,
    fst (run (Resend.getEmail
                (Samples.resend
                   (Samples.sdkData (JObj [("id", JStr "email-123")])))
                "email-123")) = Ret out
    /\ existsb (String.eqb "lastEvent")
         (optionalKeys Resend.GetEmailResultSchema) = true
    /\ field out "lastEvent" = JStr ""
    /\ truthy (field (JObj [("id", JStr "email-123")]) "last_event") = false
    /\ truthy (field (JObj [("id", JStr "email-123")]) "lastEvent") = false.
Proof. eexists. vm_compute. repeat split. Qed.

(** C9, amended.  In every result of every tool, each record has every
    required field of its declared schema, holding a value other than
    [undefined] and [null].  The optional fields are of three kinds, which
    together are all the optional fields of the records listed: the
    copied ones are present only when the upstream record holds a truthy
    value under one of the keys they are read from; the defaulted ones
    ([from], [to], [subject], [lastEvent] and [createdAt] of [getEmail],
    [lastEvent] and [createdAt] of the listed emails, [formResponse] of a
    form submission, [hasMore] of [listTemplates]) are always present; and
    [error] is the report of a failure. *)
Theorem output_records_populated :
  (forall (w : Webflow.World) (c : Webflow.ToolCall) out calls,
      run (Webflow.execute w c) = (Ret out, calls) ->
      requiredPopulated (Webflow.outputSchema c) out = true)
  /\ (forall (w : Resend.World) (c : Resend.ToolCall) out calls,
        run (Resend.execute w c) = (Ret out, calls) ->
        requiredPopulated (Resend.outputSchema c) out = true)
  /\ (forall (w : Webflow.World) (id : string) (r : OutputRecord),
        In r (webflowRecords w) \/ In r (resendRecords id) ->
        optionalKeys (declared r)
        = (map fst (copied r) ++ defaulted r ++ reported r)%list
        /\ forall upstream out,
            build r upstream = Ret out ->
            fromUpstream (copied r) upstream out = true
            /\ allPresent (defaulted r) out = true).
Proof.
  split; [|split].
  - intros w c out calls H. destruct c; cbn [Webflow.execute] in H;
      cbn [Webflow.outputSchema].
    + eapply listSites_populated; eassumption.
    + eapply publishSite_populated; eassumption.
    + eapply listPages_populated; eassumption.
    + eapply listForms_populated; eassumption.
    + eapply listFormSubmissions_populated; eassumption.
    + eapply listCustomCode_populated; eassumption.
    + eapply addCustomCode_populated; eassumption.
  - intros w c out calls H. destruct c; cbn [Resend.execute] in H;
      cbn [Resend.outputSchema].
    + eapply sendEmail_populated; eassumption.
    + eapply sendBatchEmails_populated; eassumption.
    + eapply getEmail_populated; eassumption.
    + eapply listEmails_populated; eassumption.
    + eapply createContact_populated; eassumption.
    + eapply listContacts_populated; eassumption.
    + eapply removeContact_populated; eassumption.
    + eapply listTemplates_populated; eassumption.
    + eapply getTemplate_populated; eassumption.
  - intros w id r Hr. split.
    + exact (records_sorted r w id Hr).
    + intros upstream out Hb. exact (records_from_upstream r w id upstream out Hr Hb).
Qed.

Lemma output_records_populated_witness :
  requiredPopulated Webflow.ListSitesResultSchema
    (JObj [("sites",
            JArr [JObj [("id", JStr "site-1");
                        ("displayName", JStr "My Site");
                        ("shortName", JStr "my-site");
                        ("lastPublished", JStr "2025-01-01T00:00:00Z");
                        ("lastUpdated", JUndefined);
                        ("previewUrl", JUndefined);
                        ("timeZone", JUndefined);
                        ("designerUrl", JStr "https://my-site.design.webflow.com");
                        ("settingsUrl",
                         JStr "https://webflow.com/dashboard/sites/my-site/general");
                        ("customDomains",
                         JArr [JObj [("id", JStr "dom-1");
                                     ("url", JStr "example.com")]])]]);
           ("count", JNum (Int 1))]) = true
  /\ requiredPopulated Resend.RemoveContactResultSchema
       (JObj [("success", JBool false);
              ("deleted", JBool false);
              ("id", JStr "nonexistent");
              ("error", JStr "Contact not found")]) = true
  /\ fromUpstream
       [("firstName", ["first_name"; "firstName"]);
        ("lastName", ["last_name"; "lastName"])]
       (JObj [("id", JStr "contact-1"); ("first_name", JStr "John")])
       (JObj [("id", JStr "contact-1");
              ("email", JStr "");
              ("firstName", JStr "John");
              ("lastName", JUndefined);
              ("unsubscribed", JBool false)]) = true.
Proof.
  destruct output_records_populated as (Hw & Hr & Hrec).
  split; [|split].
  - apply (Hw (Samples.webflow
                 [Samples.okJson
                    (JObj [("sites",
                            JArr [JObj [("id", JStr "site-1");
                                        ("displayName", JStr "My Site");
                                        ("shortName", JStr "my-site");
                                        ("lastPublished",
                                         JStr "2025-01-01T00:00:00Z");
                                        ("customDomains",
                                         JArr [JObj [("id", JStr "dom-1");
                                                     ("url", JStr "example.com")]])]])])])
             Webflow.ListSites _
             [webflowRequest "test-api-key" "/sites" Webflow.noOptions []]).
    reflexivity.
  - apply (Hr (Samples.resend (Samples.sdkError "Contact not found"))
             (Resend.RemoveContact "nonexistent") _
             [{| Resend.clientKey := "test-api-key";
                 Resend.call :=
                   Resend.ContactsRemove (JObj [("id", JStr "nonexistent")]) |}]).
    reflexivity.
  - apply (Hrec (Samples.webflow []) "contact-1"
             {| build := Resend.listContacts_contact;
                declared := Resend.ContactInfoSchema;
                copied := [("firstName", ["first_name"; "firstName"]);
                           ("lastName", ["last_name"; "lastName"])];
                defaulted := [];
                reported := [] |}).
    + right. cbn. auto.
    + reflexivity.
Defined.

(** *** Scenarios of the test suites *)

(** One site with one custom domain: the count is 1 and the domains are
    returned as they came. *)
Example listSites_one_site :
  exists site,
    fst (run (Webflow.listSites
                (Samples.webflow
                   [Samples.okJson
                      (JObj [("sites",
                              JArr [JObj [("id", JStr "site-1");
                                          ("displayName", JStr "My Site");
                                          ("shortName", JStr "my-site");
                                          ("customDomains",
                                           JArr [JObj [("id", JStr "dom-1");
                                                       ("url", JStr "example.com")]])]])])])))
    = Ret (JObj [("sites", JArr [site]); ("count", JNum (Int 1))])
    /\ field site "customDomains"
       = JArr [JObj [("id", JStr "dom-1"); ("url", JStr "example.com")]].
Proof. eexists. split; reflexivity. Qed.

(** A page that is neither archived nor a draft: both flags come out as
    [undefined], through the truthiness test. *)
Example listPages_false_flags :
  Webflow.listPages_page
    (JObj [("id", JStr "page-1");
           ("title", JStr "Home");
           ("slug", JStr "home");
           ("archived", JBool false);
           ("draft", JBool false)])
  = Ret (JObj [("id", JStr "page-1");
               ("title", JStr "Home");
               ("slug", JStr "home");
               ("archived", JUndefined);
               ("draft", JUndefined);
               ("createdOn", JUndefined);
               ("lastUpdated", JUndefined);
               ("publishedPath", JUndefined);
               ("seo", JUndefined)]).
Proof. reflexivity. Qed.

(** A batch of two: both ids and the count. *)
Example sendBatchEmails_two :
  fst (run (Resend.sendBatchEmails
              (Samples.resend
                 (Samples.sdkData
                    (JObj [("data", JArr [JObj [("id", JStr "email-1")];
                                          JObj [("id", JStr "email-2")]])])))
              []))
  = Ret (JObj [("success", JBool true);
               ("ids", JArr [JStr "email-1"; JStr "email-2"]);
               ("count", JNum (Int 2))]).
Proof. reflexivity. Qed.

(* ================================================================== *)
(** ** Further properties of the code *)
(* ================================================================== *)

(** *** The transport helper and the requests of the Webflow tools *)

Lemma getApiKey_missing (w : Webflow.World) :
  missing (Webflow.WEBFLOW_API_KEY w) ->
  Webflow.getApiKey w
  = Raise (ThrowError "WEBFLOW_API_KEY environment variable is required").
Proof. unfold Webflow.getApiKey. intros [-> | ->]; reflexivity. Qed.

Lemma getApiKey_supplied (w : Webflow.World) (key : string) :
  supplied (Webflow.WEBFLOW_API_KEY w) key -> Webflow.getApiKey w = Ret key.
Proof.
  unfold Webflow.getApiKey. intros [-> Hk]. now rewrite (eqb_empty_false key Hk).
Qed.

Lemma resolveSiteId_default (w : Webflow.World) (site : string) :
  supplied (Webflow.WEBFLOW_SITE_ID w) site ->
  forall s, exists resolved, Webflow.resolveSiteId w s = Ret resolved.
Proof.
  intros [Hd Hne] s. unfold Webflow.resolveSiteId, Webflow.getDefaultSiteId.
  rewrite Hd. destruct s as [s|]; [destruct (s =? "") eqn:E|].
  - rewrite (eqb_empty_false site Hne). eauto.
  - rewrite E. eauto.
  - rewrite (eqb_empty_false site Hne). eauto.
Qed.

Lemma callApi_log (w : Webflow.World) (path : string)
  (options : Webflow.Options) (log : list Webflow.Request)
  (q : list (string * string)) :
  match Webflow.opt_params options with
  | Some params => Webflow.searchParams params
  | None => Ret []
  end = Ret q ->
  snd (Webflow.callApi w path options log)
  = match Webflow.getApiKey w with
    | Ret key => (log ++ [webflowRequest key path options q])%list
    | Raise _ => log
    end.
Proof.
  intros Hq. destruct (Webflow.getApiKey w) as [key|t] eqn:Hk.
  - now rewrite (callApi_sent w path options log key q Hq Hk).
  - unfold Webflow.callApi. rewrite Hq, Hk. reflexivity.
Qed.

Lemma callApi_without_key_raises (w : Webflow.World) (path : string)
  (options : Webflow.Options) (log : list Webflow.Request) (t : Thrown) :
  Webflow.getApiKey w = Raise t ->
  exists t', Webflow.callApi w path options log = (Raise t', log).
Proof.
  intros Hk. unfold Webflow.callApi. js_simpl.
  destruct (match Webflow.opt_params options with
            | Some params => Webflow.searchParams params
            | None => Ret []
            end) as [q|t'].
  - rewrite Hk. now exists t.
  - now exists t'.
Qed.

Lemma searchParams_limit_offset (limit offset : option number) :
  Webflow.searchParams [("limit", ofOptNumber limit);
                        ("offset", ofOptNumber offset)]
  = Ret (optionalParam "limit" (option_map NumberToString limit)
         ++ optionalParam "offset" (option_map NumberToString offset))%list.
Proof. destruct limit, offset; reflexivity. Qed.

Lemma searchParams_element_limit_offset (elementId : option string)
  (limit offset : option number) :
  Webflow.searchParams [("elementId", ofOptString elementId);
                        ("limit", ofOptNumber limit);
                        ("offset", ofOptNumber offset)]
  = Ret (optionalParam "elementId" elementId
         ++ optionalParam "limit" (option_map NumberToString limit)
         ++ optionalParam "offset" (option_map NumberToString offset))%list.
Proof. destruct elementId, limit, offset; reflexivity. Qed.

(** The calls of a tool that resolves the site, makes one call and
    reshapes the answer, under a handler that makes none. *)
Lemma site_call_log (w : Webflow.World) (siteId : option string)
  (mkPath : string -> string) (options : Webflow.Options)
  (reshape : JsValue -> Exc JsValue)
  (handler : Thrown -> M Webflow.Request JsValue) :
  (forall t l, snd (handler t l) = l) ->
  snd (run (try_catch
              (resolvedSiteId <- lift (Webflow.resolveSiteId w siteId) ;;
               response <- Webflow.callApi w (mkPath resolvedSiteId) options ;;
               lift (reshape response))
              handler))
  = match Webflow.resolveSiteId w siteId with
    | Ret site => snd (Webflow.callApi w (mkPath site) options [])
    | Raise _ => []
    end.
Proof.
  intros Hh. js_simpl.
  destruct (Webflow.resolveSiteId w siteId) as [site|t]; [|apply Hh].
  destruct (Webflow.callApi w (mkPath site) options []) as [[response|t] log'];
    cbn [snd]; [|apply Hh].
  destruct (reshape response); [reflexivity | apply Hh].
Qed.

Lemma call_log (w : Webflow.World) (path : string) (options : Webflow.Options)
  (reshape : JsValue -> Exc JsValue)
  (handler : Thrown -> M Webflow.Request JsValue) :
  (forall t l, snd (handler t l) = l) ->
  snd (run (try_catch
              (response <- Webflow.callApi w path options ;;
               lift (reshape response))
              handler))
  = snd (Webflow.callApi w path options []).
Proof.
  intros Hh. js_simpl.
  destruct (Webflow.callApi w path options []) as [[response|t] log'];
    cbn [snd]; [|apply Hh].
  destruct (reshape response); [reflexivity | apply Hh].
Qed.

(** The search parameters a list tool sets have distinct names, so each
    [set] appends its pair. *)
Lemma listQuery_set (c : Webflow.ToolCall) :
  fold_left
    (fun l kv => Url.setParam (Url.utf8Bytes (fst kv)) (Url.utf8Bytes (snd kv)) l)
    (listQuery c) []
  = map (fun kv => (Url.utf8Bytes (fst kv), Url.utf8Bytes (snd kv))) (listQuery c).
Proof.
  destruct c as [ | | s [l|] [o|] | s [l|] [o|] | s [e|] [l|] [o|]
                | s [l|] [o|] | ]; reflexivity.
Qed.

(** The URL of a request with a plain path. *)
Lemma requested_plain_distinct (path : string) (q : list (string * string)) :
  plainPath path ->
  fold_left
    (fun l kv => Url.setParam (Url.utf8Bytes (fst kv)) (Url.utf8Bytes (snd kv)) l)
    q []
  = map (fun kv => (Url.utf8Bytes (fst kv), Url.utf8Bytes (snd kv))) q ->
  Url.requested path q = Url.BASE_URL ++ path ++ queryString q.
Proof.
  intros Hp Hq. destruct q as [|kv q].
  - rewrite (requested_plain path Hp). cbn [queryString].
    now rewrite append_empty.
  - rewrite (requested_plain_query path (kv :: q) Hp) by discriminate.
    now rewrite Hq.
Qed.

Lemma listEndpoint_plain (c : Webflow.ToolCall) (site : string) :
  plainId site -> plainPath (listEndpoint c site).
Proof. intros H. destruct c; cbn [listEndpoint]; plain_path. Qed.

(** X1.  A list tool sends no request when the site or the key cannot be
    resolved, and otherwise exactly one: a GET without body, authorized
    with the configured key, built from the endpoint of the tool under
    the resolved site and the search parameters the caller gave, each as
    [String] of its value, in the order [elementId], [limit], [offset]; a
    parameter the caller left out is not set.  When the site is a plain
    identifier, the URL requested is the base URL followed by that
    endpoint and the serialized parameters. *)
Theorem list_tool_request (w : Webflow.World) (c : Webflow.ToolCall) :
  Webflow.collectionKey c <> None ->
  snd (run (Webflow.execute w c))
  = match resolvedSite w c, Webflow.getApiKey w with
    | Ret site, Ret key => [listRequest key site c]
    | _, _ => []
    end
  /\ forall key site,
       plainId site ->
       Webflow.url (listRequest key site c)
       = Url.BASE_URL ++ listEndpoint c site ++ queryString (listQuery c).
Proof.
  intros Hc. split.
  2: { intros key site Hsite. unfold listRequest. cbn [Webflow.url].
       apply requested_plain_distinct;
         [now apply listEndpoint_plain | apply listQuery_set]. }
  destruct c; cbn [Webflow.collectionKey] in Hc; try (now elim Hc);
    cbn [Webflow.execute resolvedSite siteArg].
  - unfold Webflow.listSites, Webflow.listSites_try.
    rewrite call_log by reflexivity.
    rewrite (callApi_log w _ Webflow.noOptions _ [] eq_refl).
    destruct (Webflow.getApiKey w); reflexivity.
  - unfold Webflow.listPages, Webflow.listPages_try.
    rewrite site_call_log by reflexivity.
    destruct (Webflow.resolveSiteId w siteId) as [site|]; [|reflexivity].
    erewrite callApi_log by apply searchParams_limit_offset.
    destruct (Webflow.getApiKey w); reflexivity.
  - unfold Webflow.listForms, Webflow.listForms_try.
    rewrite site_call_log by reflexivity.
    destruct (Webflow.resolveSiteId w siteId) as [site|]; [|reflexivity].
    erewrite callApi_log by apply searchParams_limit_offset.
    destruct (Webflow.getApiKey w); reflexivity.
  - unfold Webflow.listFormSubmissions, Webflow.listFormSubmissions_try.
    rewrite site_call_log by reflexivity.
    destruct (Webflow.resolveSiteId w siteId) as [site|]; [|reflexivity].
    erewrite callApi_log by apply searchParams_element_limit_offset.
    destruct (Webflow.getApiKey w); reflexivity.
  - unfold Webflow.listCustomCode, Webflow.listCustomCode_try.
    rewrite site_call_log by reflexivity.
    destruct (Webflow.resolveSiteId w siteId) as [site|]; [|reflexivity].
    erewrite callApi_log by apply searchParams_limit_offset.
    destruct (Webflow.getApiKey w); reflexivity.
Qed.

Lemma list_tool_request_witness :
  snd (run (Webflow.execute (Samples.webflow [Samples.okJson (JObj [])])
              (Webflow.ListFormSubmissions (Some "site-1")
                 (Some "18259716-3e5a-646a-5f41-5dc4b9405aa0")
                 (Some (Int 25)) None)))
  = [listRequest "test-api-key" "site-1"
       (Webflow.ListFormSubmissions (Some "site-1")
          (Some "18259716-3e5a-646a-5f41-5dc4b9405aa0")
          (Some (Int 25)) None)]
  /\ Webflow.url
       (listRequest "test-api-key" "site-1"
          (Webflow.ListFormSubmissions (Some "site-1")
             (Some "18259716-3e5a-646a-5f41-5dc4b9405aa0")
             (Some (Int 25)) None))
     = "https://api.webflow.com/v2/sites/site-1/form_submissions?elementId=18259716-3e5a-646a-5f41-5dc4b9405aa0&limit=25".
Proof.
  destruct (list_tool_request (Samples.webflow [Samples.okJson (JObj [])])
              (Webflow.ListFormSubmissions (Some "site-1")
                 (Some "18259716-3e5a-646a-5f41-5dc4b9405aa0")
                 (Some (Int 25)) None)) as [Hlog Hurl].
  - discriminate.
  - split; [exact Hlog | exact (Hurl "test-api-key" "site-1" eq_refl)].
Defined.

(** A site with a question mark in it: what follows becomes the query,
    and setting a parameter writes the whole query anew. *)
Example list_tool_request_odd_site :
  Webflow.url
    (listRequest "test-api-key" "abc?x=1"
       (Webflow.ListPages (Some "abc?x=1") (Some (Int 10)) None))
  = "https://api.webflow.com/v2/sites/abc?x=1%2Fpages&limit=10".
Proof. reflexivity. Qed.

(** Numbers are written into the query as [String] prints them: a
    fraction with its point, a large offset in exponent notation, whose
    plus sign the serializer of the query escapes. *)
Example list_tool_request_odd_numbers :
  Webflow.url
    (listRequest "test-api-key" "site-1"
       (Webflow.ListForms (Some "site-1")
          (Some (PrimFloat.div (Int 5) (Int 2)))
          (Some (Int (10 ^ 21)))))
  = "https://api.webflow.com/v2/sites/site-1/forms?limit=2.5&offset=1e%2B21".
Proof. reflexivity. Qed.

(** Unfolds the seven Webflow tools down to their steps. *)
Ltac unfold_webflow :=
  unfold Webflow.listSites, Webflow.listSites_try, Webflow.listSites_catch,
    Webflow.publishSite, Webflow.publishSite_try, Webflow.publishSite_catch,
    Webflow.listPages, Webflow.listPages_try, Webflow.listPages_catch,
    Webflow.listForms, Webflow.listForms_try, Webflow.listForms_catch,
    Webflow.listFormSubmissions, Webflow.listFormSubmissions_try,
    Webflow.listFormSubmissions_catch,
    Webflow.listCustomCode, Webflow.listCustomCode_try,
    Webflow.listCustomCode_catch,
    Webflow.addCustomCode, Webflow.addCustomCode_try,
    Webflow.addCustomCode_catch.

(** Closes a goal that a result literal has the failure shape. *)
Ltac failure_shape :=
  split; [eexists; reflexivity | repeat split].

(** A Webflow tool that finds no key sends nothing and answers with its
    failure shape. *)
Lemma webflow_missing_key (w : Webflow.World) (c : Webflow.ToolCall) :
  missing (Webflow.WEBFLOW_API_KEY w) ->
  exists out,
    run (Webflow.execute w c) = (Ret out, [])
    /\ failureShape (Webflow.collectionKey c) out.
Proof.
  intros Hm. pose proof (getApiKey_missing w Hm) as Hk.
  destruct c; cbn [Webflow.execute Webflow.collectionKey]; unfold_webflow;
    js_simpl.
  - destruct (callApi_without_key_raises w "/sites" Webflow.noOptions [] _ Hk)
      as [t' ->].
    eexists; split; [reflexivity | failure_shape].
  - destruct (Webflow.resolveSiteId w siteId) as [site|t].
    + match goal with
      | |- context [Webflow.callApi w ?p ?o []] =>
          destruct (callApi_without_key_raises w p o [] _ Hk) as [t' ->]
      end.
      eexists; split; [reflexivity | failure_shape].
    + eexists; split; [reflexivity | failure_shape].
  - destruct (Webflow.resolveSiteId w siteId) as [site|t].
    + match goal with
      | |- context [Webflow.callApi w ?p ?o []] =>
          destruct (callApi_without_key_raises w p o [] _ Hk) as [t' ->]
      end.
      eexists; split; [reflexivity | failure_shape].
    + eexists; split; [reflexivity | failure_shape].
  - destruct (Webflow.resolveSiteId w siteId) as [site|t].
    + match goal with
      | |- context [Webflow.callApi w ?p ?o []] =>
          destruct (callApi_without_key_raises w p o [] _ Hk) as [t' ->]
      end.
      eexists; split; [reflexivity | failure_shape].
    + eexists; split; [reflexivity | failure_shape].
  - destruct (Webflow.resolveSiteId w siteId) as [site|t].
    + match goal with
      | |- context [Webflow.callApi w ?p ?o []] =>
          destruct (callApi_without_key_raises w p o [] _ Hk) as [t' ->]
      end.
      eexists; split; [reflexivity | failure_shape].
    + eexists; split; [reflexivity | failure_shape].
  - destruct (Webflow.resolveSiteId w siteId) as [site|t].
    + match goal with
      | |- context [Webflow.callApi w ?p ?o []] =>
          destruct (callApi_without_key_raises w p o [] _ Hk) as [t' ->]
      end.
      eexists; split; [reflexivity | failure_shape].
    + eexists; split; [reflexivity | failure_shape].
  - destruct (Webflow.isPage (Webflow.target input)
              && negb (truthy (ofOptString (Webflow.pageId input)))).
    { eexists; split; [reflexivity | failure_shape]. }
    destruct (2000 <? String.length (Webflow.sourceCode input))%nat.
    { eexists; split; [reflexivity | failure_shape]. }
    destruct (Webflow.resolveSiteId w (Webflow.siteId input)) as [site|t].
    + match goal with
      | |- context [Webflow.callApi w ?p ?o []] =>
          destruct (callApi_without_key_raises w p o [] _ Hk) as [t' ->]
      end.
      eexists; split; [reflexivity | failure_shape].
    + eexists; split; [reflexivity | failure_shape].
Qed.

(** X2.  Without [WEBFLOW_API_KEY] (unset or empty) no Webflow tool sends
    any request; each returns its failure shape. *)
Theorem no_key_no_request (w : Webflow.World) (c : Webflow.ToolCall) :
  missing (Webflow.WEBFLOW_API_KEY w) ->
  exists out,
    run (Webflow.execute w c) = (Ret out, [])
    /\ failureShape (Webflow.collectionKey c) out.
Proof. exact (webflow_missing_key w c). Qed.

Lemma no_key_no_request_witness :
  exists out,
    run (Webflow.execute Samples.unconfigured
           (Webflow.PublishSite (Some "site-1") None (Some true)))
    = (Ret out, [])
    /\ failureShape None out.
Proof.
  apply (no_key_no_request Samples.unconfigured
           (Webflow.PublishSite (Some "site-1") None (Some true))).
  left. reflexivity.
Defined.

Lemma resolveSiteId_missing (w : Webflow.World) (s : option string) :
  missing s ->
  missing (Webflow.WEBFLOW_SITE_ID w) ->
  Webflow.resolveSiteId w s
  = Raise (ThrowError "A site ID is required. Either pass a siteId or set the WEBFLOW_SITE_ID environment variable.").
Proof.
  unfold Webflow.resolveSiteId, Webflow.getDefaultSiteId.
  intros [-> | ->] [-> | ->]; reflexivity.
Qed.

(** X3.  A tool that works on a site sends no request when neither the
    call nor [WEBFLOW_SITE_ID] names one: the site is resolved before the
    key is read and before anything is sent.  The result is the failure
    shape, and its error is the message that asks for a site ID (for
    [addCustomCode], when the input passes its two guards). *)
Theorem no_site_no_request (w : Webflow.World) (c : Webflow.ToolCall)
  (s : option string) :
  siteArg c = Some s ->
  missing s ->
  missing (Webflow.WEBFLOW_SITE_ID w) ->
  exists out,
    run (Webflow.execute w c) = (Ret out, [])
    /\ failureShape (Webflow.collectionKey c) out
    /\ (passesValidation c ->
        field out "error"
        = JStr "A site ID is required. Either pass a siteId or set the WEBFLOW_SITE_ID environment variable.").
Proof.
  intros Hs Hm Hd.
  destruct c; cbn [siteArg] in Hs; try discriminate;
    injection Hs as <-; pose proof (resolveSiteId_missing w _ Hm Hd) as Hr;
    cbn [Webflow.execute Webflow.collectionKey passesValidation];
    unfold_webflow; js_simpl.
  1-5: rewrite Hr; eexists; split; [reflexivity|]; split;
    [failure_shape | intros _; reflexivity].
  destruct (Webflow.isPage (Webflow.target input)
            && negb (truthy (ofOptString (Webflow.pageId input)))) eqn:Hg.
  { eexists; split; [reflexivity|]; split; [failure_shape|].
    intros [Hv _]. elim Hv. now apply pageId_guard. }
  destruct (2000 <? String.length (Webflow.sourceCode input))%nat eqn:Hl.
  { eexists; split; [reflexivity|]; split; [failure_shape|].
    intros [_ Hv]. apply Nat.ltb_lt in Hl. lia. }
  rewrite Hr. eexists; split; [reflexivity|]; split;
    [failure_shape | intros _; reflexivity].
Qed.

Lemma no_site_no_request_witness :
  exists out,
    run (Webflow.execute Samples.unconfigured (Webflow.ListPages None None None))
    = (Ret out, [])
    /\ failureShape (Some "pages") out
    /\ (True ->
        field out "error"
        = JStr "A site ID is required. Either pass a siteId or set the WEBFLOW_SITE_ID environment variable.").
Proof.
  apply (no_site_no_request Samples.unconfigured
           (Webflow.ListPages None None None) None).
  - reflexivity.
  - left. reflexivity.
  - left. reflexivity.
Defined.

(** X4.  When the network answers with a failure status, each Webflow tool
    (for [addCustomCode], on an input that passes its guards) sends its
    first request and nothing more, and reports the status and the body
    text, word for word, in the error of its failure shape.  In
    particular a failed registration is never followed by an apply call. *)
Theorem failure_status_reported (w : Webflow.World) (c : Webflow.ToolCall)
  (key site : string) (status : number) (text : string) :
  supplied (Webflow.WEBFLOW_API_KEY w) key ->
  resolvedSite w c = Ret site ->
  passesValidation c ->
  alwaysFails w status text ->
  exists out,
    run (Webflow.execute w c) = (Ret out, [firstRequest key site c])
    /\ failureShape (Webflow.collectionKey c) out
    /\ field out "error"
       = JStr ("Webflow API error " ++ NumberToString status ++ ": " ++ text).
Proof.
  intros Hkey Hsite Hv Hfail. apply getApiKey_supplied in Hkey.
  assert (Hcall : forall path options q log,
             match Webflow.opt_params options with
             | Some params => Webflow.searchParams params
             | None => Ret []
             end = Ret q ->
             Webflow.callApi w path options log
             = (Raise (ThrowError ("Webflow API error "
                                     ++ NumberToString status ++ ": " ++ text)),
                (log ++ [webflowRequest key path options q])%list)).
  { intros path options q log Hq.
    rewrite (callApi_sent w path options log key q Hq Hkey).
    destruct (Hfail log (webflowRequest key path options q))
      as (r & -> & Hok & Hst & Htx).
    now rewrite (readResponse_failure_status r text Hok Htx), Hst. }
  destruct c; cbn [resolvedSite siteArg] in Hsite;
    cbn [Webflow.execute Webflow.collectionKey firstRequest passesValidation]
      in *;
    unfold_webflow; js_simpl.
  - rewrite (Hcall "/sites" Webflow.noOptions [] [] eq_refl).
    eexists; split; [reflexivity|]; split; [failure_shape | reflexivity].
  - rewrite Hsite. erewrite Hcall by reflexivity.
    eexists; split; [reflexivity|]; split; [failure_shape | reflexivity].
  - rewrite Hsite. erewrite Hcall by apply searchParams_limit_offset.
    eexists; split; [reflexivity|]; split; [failure_shape | reflexivity].
  - rewrite Hsite. erewrite Hcall by apply searchParams_limit_offset.
    eexists; split; [reflexivity|]; split; [failure_shape | reflexivity].
  - rewrite Hsite.
    erewrite Hcall by apply searchParams_element_limit_offset.
    eexists; split; [reflexivity|]; split; [failure_shape | reflexivity].
  - rewrite Hsite. erewrite Hcall by apply searchParams_limit_offset.
    eexists; split; [reflexivity|]; split; [failure_shape | reflexivity].
  - destruct Hv as [Hg Hl].
    rewrite (pageId_guard_false input Hg), (length_guard_false _ Hl), Hsite.
    erewrite Hcall by reflexivity.
    eexists; split; [reflexivity|]; split; [failure_shape | reflexivity].
Qed.

Lemma failure_status_reported_witness :
  exists out,
    run (Webflow.execute
           {| Webflow.WEBFLOW_API_KEY := Some "test-api-key";
              Webflow.WEBFLOW_SITE_ID := Some "test-site-id";
              Webflow.fetch := fun _ _ => Samples.failed 400 "Bad Request";
              Webflow.StringToNumber := fun _ => NaN |}
           (Webflow.AddCustomCode Samples.siteScript))
    = (Ret out,
       [firstRequest "test-api-key" "site-1"
          (Webflow.AddCustomCode Samples.siteScript)])
    /\ failureShape None out
    /\ field out "error" = JStr "Webflow API error 400: Bad Request".
Proof.
  apply (failure_status_reported
           {| Webflow.WEBFLOW_API_KEY := Some "test-api-key";
              Webflow.WEBFLOW_SITE_ID := Some "test-site-id";
              Webflow.fetch := fun _ _ => Samples.failed 400 "Bad Request";
              Webflow.StringToNumber := fun _ => NaN |}
           (Webflow.AddCustomCode Samples.siteScript)
           "test-api-key" "site-1" (Int 400) "Bad Request").
  - split; [reflexivity | discriminate].
  - reflexivity.
  - split.
    + intros [H _]. discriminate H.
    + apply Nat.leb_le. reflexivity.
  - intros log req. eexists. repeat split.
Defined.

(** *** The calls of the Resend tools *)

Ltac unfold_resend :=
  unfold Resend.sendEmail, Resend.sendEmail_try, Resend.sendEmail_catch,
    Resend.sendBatchEmails, Resend.sendBatchEmails_try,
    Resend.sendBatchEmails_catch,
    Resend.getEmail, Resend.getEmail_try, Resend.getEmail_catch,
    Resend.listEmails, Resend.listEmails_try, Resend.listEmails_catch,
    Resend.createContact, Resend.createContact_try,
    Resend.createContact_catch,
    Resend.listContacts, Resend.listContacts_try, Resend.listContacts_catch,
    Resend.removeContact, Resend.removeContact_try,
    Resend.removeContact_catch,
    Resend.listTemplates, Resend.listTemplates_try,
    Resend.listTemplates_catch,
    Resend.getTemplate, Resend.getTemplate_try, Resend.getTemplate_catch.

Lemma getClient_missing (w : Resend.World) :
  missing (Resend.RESEND_API_KEY w) ->
  Resend.getClient w
  = Raise (ThrowError "RESEND_API_KEY environment variable is required").
Proof. unfold Resend.getClient. intros [-> | ->]; reflexivity. Qed.

Lemma getClient_supplied (w : Resend.World) (key : string) :
  supplied (Resend.RESEND_API_KEY w) key -> Resend.getClient w = Ret key.
Proof.
  unfold Resend.getClient. intros [-> Hk]. now rewrite (eqb_empty_false key Hk).
Qed.

(** A Resend tool that finds no key calls nothing and answers with its
    failure shape, naming the variable. *)
Lemma resend_missing_key (w : Resend.World) (c : Resend.ToolCall) :
  missing (Resend.RESEND_API_KEY w) ->
  exists out,
    run (Resend.execute w c) = (Ret out, [])
    /\ failureShape (Resend.collectionKey c) out
    /\ field out "error"
       = JStr "RESEND_API_KEY environment variable is required".
Proof.
  intros Hm. pose proof (getClient_missing w Hm) as Hk.
  destruct c; cbn [Resend.execute Resend.collectionKey]; unfold_resend;
    js_simpl; rewrite Hk;
    (eexists; split; [reflexivity|]; split; [failure_shape | reflexivity]).
Qed.

(** X5.  Without [RESEND_API_KEY] (unset or empty) no Resend tool calls
    the SDK; each returns its failure shape with the error that names the
    missing variable. *)
Theorem no_key_no_sdk_call (w : Resend.World) (c : Resend.ToolCall) :
  missing (Resend.RESEND_API_KEY w) ->
  exists out,
    run (Resend.execute w c) = (Ret out, [])
    /\ failureShape (Resend.collectionKey c) out
    /\ field out "error"
       = JStr "RESEND_API_KEY environment variable is required".
Proof. exact (resend_missing_key w c). Qed.

Lemma no_key_no_sdk_call_witness :
  exists out,
    run (Resend.execute
           {| Resend.RESEND_API_KEY := Some "";
              Resend.RESEND_EMAIL_DOMAIN := None;
              Resend.sdk := fun _ _ => Samples.sdkData (JObj []) |}
           Resend.ListContacts)
    = (Ret out, [])
    /\ failureShape (Some "contacts") out
    /\ field out "error"
       = JStr "RESEND_API_KEY environment variable is required".
Proof.
  apply (no_key_no_sdk_call
           {| Resend.RESEND_API_KEY := Some "";
              Resend.RESEND_EMAIL_DOMAIN := None;
              Resend.sdk := fun _ _ => Samples.sdkData (JObj []) |}
           Resend.ListContacts).
  right. reflexivity.
Defined.

Lemma sdk_call_log (w : Resend.World) (c : Resend.SdkCall)
  (onError onData : JsValue -> Exc JsValue)
  (handler : Thrown -> M Resend.Request JsValue) :
  (forall t l, snd (handler t l) = l) ->
  snd (run (try_catch
              (resend <- lift (Resend.getClient w) ;;
               r <- Resend.await_sdk w resend c ;;
               let '(data, error) := r in
               if truthy error then lift (onError error)
               else lift (onData data))
              handler))
  = match Resend.getClient w with
    | Ret key => [{| Resend.clientKey := key; Resend.call := c |}]
    | Raise _ => []
    end.
Proof.
  intros Hh. js_simpl.
  destruct (Resend.getClient w) as [key|t]; [|apply Hh].
  unfold Resend.await_sdk.
  destruct (Resend.sdk w [] _) as [t|v]; [apply Hh|].
  js_simpl.
  destruct (destructured v "data") as [data|t]; [|apply Hh].
  destruct (getProp v "error") as [error|t]; [|apply Hh].
  destruct (truthy error).
  - destruct (onError error); [reflexivity | apply Hh].
  - destruct (onData data); [reflexivity | apply Hh].
Qed.

(** X6.  With the key configured, every Resend tool calls the SDK exactly
    once, on a client built with that key, with the method and argument of
    the tool; this holds whether the call rejects, returns an error object
    or returns data, so nothing is retried and nothing is called after a
    failure. *)
Theorem one_sdk_call (w : Resend.World) (c : Resend.ToolCall) (key : string) :
  supplied (Resend.RESEND_API_KEY w) key ->
  snd (run (Resend.execute w c))
  = [{| Resend.clientKey := key; Resend.call := sdkCallOf c |}].
Proof.
  intros Hk. apply getClient_supplied in Hk.
  destruct c; cbn [Resend.execute sdkCallOf];
    unfold Resend.sendEmail, Resend.sendEmail_try,
      Resend.sendBatchEmails, Resend.sendBatchEmails_try,
      Resend.getEmail, Resend.getEmail_try,
      Resend.listEmails, Resend.listEmails_try,
      Resend.createContact, Resend.createContact_try,
      Resend.listContacts, Resend.listContacts_try,
      Resend.removeContact, Resend.removeContact_try,
      Resend.listTemplates, Resend.listTemplates_try,
      Resend.getTemplate, Resend.getTemplate_try;
    rewrite sdk_call_log by reflexivity; rewrite Hk; reflexivity.
Qed.

Lemma one_sdk_call_witness :
  snd (run (Resend.execute
              (Samples.resend (Resend.SdkRejects (ThrowError "Network error")))
              (Resend.GetTemplate "reset-password")))
  = [{| Resend.clientKey := "test-api-key";
        Resend.call := Resend.TemplatesGet "reset-password" |}].
Proof.
  apply (one_sdk_call
           (Samples.resend (Resend.SdkRejects (ThrowError "Network error")))
           (Resend.GetTemplate "reset-password") "test-api-key").
  split; [reflexivity | discriminate].
Defined.

(** *** The collection and its count *)

Lemma mapE_Forall2 {A B} (f : A -> Exc B) (l : list A) (l' : list B) :
  mapE f l = Ret l' -> Forall2 (fun x y => f x = Ret y) l l'.
Proof.
  revert l'. induction l as [|x rest IH]; intros l' H; cbn in H.
  - injection H as <-. constructor.
  - destruct (f x) as [y|] eqn:Hx; [|discriminate].
    destruct (mapE f rest) as [ys|]; [|discriminate].
    injection H as <-. constructor; auto.
Qed.

Lemma mapE_raises {A B} (f : A -> Exc B) (l : list A) (x : A) (t : Thrown) :
  In x l -> f x = Raise t -> exists t', mapE f l = Raise t'.
Proof.
  intros Hin Hx. induction l as [|y rest IH]; [contradiction|].
  cbn [mapE]. js_simpl. destruct Hin as [-> | Hin].
  - rewrite Hx. now exists t.
  - destruct (f y) as [b|t0]; [|now exists t0].
    destruct (IH Hin) as [t' ->]. now exists t'.
Qed.

Lemma arrayMap_array (what : string) (f : JsValue -> Exc JsValue)
  (v : JsValue) (items : list JsValue) :
  arrayMap what f v = Ret items ->
  exists raws, v = JArr raws /\ mapE f raws = Ret items.
Proof. destruct v; try discriminate. intros H. eauto. Qed.

(** Unfolds the list tools in a hypothesis, down to the steps of their
    results. *)
Ltac unfold_webflow_lists H :=
  unfold Webflow.listSites, Webflow.listSites_try, Webflow.listSites_catch,
    Webflow.listPages, Webflow.listPages_try, Webflow.listPages_catch,
    Webflow.listForms, Webflow.listForms_try, Webflow.listForms_catch,
    Webflow.listFormSubmissions, Webflow.listFormSubmissions_try,
    Webflow.listFormSubmissions_catch,
    Webflow.listCustomCode, Webflow.listCustomCode_try,
    Webflow.listCustomCode_catch,
    Webflow.listPages_result, Webflow.listForms_result,
    Webflow.listFormSubmissions_result, Webflow.listCustomCode_result in H.

(** X7.  In every result of a Webflow list tool, failure or not, the
    collection is an array and [count] is its length. *)
Theorem webflow_count_is_length (w : Webflow.World) (c : Webflow.ToolCall)
  (key : string) (out : JsValue) (calls : list Webflow.Request) :
  Webflow.collectionKey c = Some key ->
  run (Webflow.execute w c) = (Ret out, calls) ->
  exists items,
    field out key = JArr items /\ field out "count" = lengthOf items.
Proof.
  intros Hkey H.
  destruct c; cbn [Webflow.collectionKey] in Hkey; try discriminate Hkey;
    injection Hkey as <-; cbn [Webflow.execute] in H;
    unfold_webflow_lists H; invert_run H; eexists; split; reflexivity.
Qed.

Lemma webflow_count_is_length_witness :
  exists items,
    field (JObj [("sites", JArr []);
                 ("count", JNum (Int 0));
                 ("error", JStr "Webflow API error 401: Unauthorized")]) "sites"
    = JArr items
    /\ field (JObj [("sites", JArr []);
                    ("count", JNum (Int 0));
                    ("error", JStr "Webflow API error 401: Unauthorized")])
         "count"
       = lengthOf items.
Proof.
  apply (webflow_count_is_length
           (Samples.webflow [Samples.failed 401 "Unauthorized"])
           Webflow.ListSites "sites" _
           [listRequest "test-api-key" "" Webflow.ListSites]);
    reflexivity.
Defined.

Ltac unfold_resend_in H :=
  unfold Resend.sendEmail, Resend.sendEmail_try, Resend.sendEmail_catch,
    Resend.sendBatchEmails, Resend.sendBatchEmails_try,
    Resend.sendBatchEmails_catch,
    Resend.getEmail, Resend.getEmail_try, Resend.getEmail_catch,
    Resend.listEmails, Resend.listEmails_try, Resend.listEmails_catch,
    Resend.createContact, Resend.createContact_try,
    Resend.createContact_catch,
    Resend.listContacts, Resend.listContacts_try, Resend.listContacts_catch,
    Resend.removeContact, Resend.removeContact_try,
    Resend.removeContact_catch,
    Resend.listTemplates, Resend.listTemplates_try,
    Resend.listTemplates_catch,
    Resend.getTemplate, Resend.getTemplate_try, Resend.getTemplate_catch in H.

(** X8.  In every result of [listEmails], [listContacts] and
    [listTemplates] the collection is an array and [count] is its length,
    and likewise for the [ids] of [sendBatchEmails]. *)
Theorem resend_count_is_length (w : Resend.World) (c : Resend.ToolCall)
  (key : string) (out : JsValue) (calls : list Resend.Request) :
  countedKey c = Some key ->
  run (Resend.execute w c) = (Ret out, calls) ->
  exists items,
    field out key = JArr items /\ field out "count" = lengthOf items.
Proof.
  intros Hkey H.
  destruct c; cbn [countedKey Resend.collectionKey] in Hkey;
    try discriminate Hkey; injection Hkey as <-; cbn [Resend.execute] in H;
    unfold_resend_in H; unfold Resend.listTemplates_result in H;
    invert_run H; eexists; split; reflexivity.
Qed.

Lemma resend_count_is_length_witness :
  exists items,
    field (JObj [("success", JBool true);
                 ("ids", JArr [JStr "email-1"; JStr "email-2"]);
                 ("count", JNum (Int 2))]) "ids"
    = JArr items
    /\ field (JObj [("success", JBool true);
                    ("ids", JArr [JStr "email-1"; JStr "email-2"]);
                    ("count", JNum (Int 2))]) "count"
       = lengthOf items.
Proof.
  apply (resend_count_is_length
           (Samples.resend
              (Samples.sdkData
                 (JObj [("data", JArr [JObj [("id", JStr "email-1")];
                                      JObj [("id", JStr "email-2")]])])))
           (Resend.SendBatchEmails [JObj []; JObj []]) "ids" _
           [{| Resend.clientKey := "test-api-key";
               Resend.call := Resend.BatchSend (JArr [JObj []; JObj []]) |}]);
    reflexivity.
Defined.

(** *** One output record per upstream record *)

(** X9.  When a Webflow list tool reports no error, it made one call that
    resolved with a success status, and its collection holds exactly the
    upstream records of the answer (none when the answer has no such
    field), each put through the mapper of the tool, in the upstream
    order: nothing is filtered out, added or reordered. *)
Theorem webflow_records_in_order (w : Webflow.World) (c : Webflow.ToolCall)
  (key : string) (out : JsValue) (calls : list Webflow.Request) :
  Webflow.collectionKey c = Some key ->
  run (Webflow.execute w c) = (Ret out, calls) ->
  field out "error" = JUndefined ->
  exists req r response raws items,
    calls = [req]
    /\ Webflow.fetch w [] req = Webflow.FetchResolves r
    /\ Webflow.readResponse r = Ret response
    /\ coalesce (field response key) (JArr []) = JArr raws
    /\ field out key = JArr items
    /\ Forall2 (fun raw item => listMapper c raw = Ret item) raws items.
Proof.
  intros Hkey H Herr.
  destruct c; cbn [Webflow.collectionKey] in Hkey; try discriminate Hkey;
    injection Hkey as <-; cbn [Webflow.execute listMapper] in *;
    unfold_webflow_lists H; invert_run H; try discriminate Herr;
    match goal with
    | Hc : Webflow.callApi _ _ _ [] = (Ret ?j, _),
      Hg : getProp ?j _ = Ret ?v,
      Ha : arrayMap _ _ (coalesce ?v _) = Ret ?l |- _ =>
        apply callApi_returned in Hc;
        destruct Hc as (req & r & -> & Hf & Hr & _);
        apply getProp_field in Hg; [|reflexivity]; subst v;
        apply arrayMap_array in Ha; destruct Ha as (raws & Hraws & Hmap);
        exists req, r, j, raws, l;
        repeat split; try assumption; apply mapE_Forall2; exact Hmap
    end.
Qed.

Lemma webflow_records_in_order_witness :
  exists req r response raws items,
    [listRequest "test-api-key" "site-1"
       (Webflow.ListFormSubmissions (Some "site-1") None None None)] = [req]
    /\ Webflow.fetch
         (Samples.webflow
            [Samples.okJson
               (JObj [("formSubmissions",
                       JArr [JObj [("id", JStr "sub-2")];
                             JObj [("id", JStr "sub-1")]])])])
         [] req = Webflow.FetchResolves r
    /\ Webflow.readResponse r = Ret response
    /\ coalesce (field response "formSubmissions") (JArr []) = JArr raws
    /\ field
         (JObj [("formSubmissions",
                 JArr [JObj [("id", JStr "sub-2");
                             ("displayName", JUndefined);
                             ("dateSubmitted", JUndefined);
                             ("formResponse", JObj [])];
                       JObj [("id", JStr "sub-1");
                             ("displayName", JUndefined);
                             ("dateSubmitted", JUndefined);
                             ("formResponse", JObj [])]]);
                ("count", JNum (Int 2));
                ("pagination", JUndefined)]) "formSubmissions"
       = JArr items
    /\ Forall2
         (fun raw item => Webflow.listFormSubmissions_submission raw = Ret item)
         raws items.
Proof.
  apply (webflow_records_in_order
           (Samples.webflow
              [Samples.okJson
                 (JObj [("formSubmissions",
                         JArr [JObj [("id", JStr "sub-2")];
                               JObj [("id", JStr "sub-1")]])])])
           (Webflow.ListFormSubmissions (Some "site-1") None None None)
           "formSubmissions");
    reflexivity.
Defined.

Lemma optProp_field (o : JsValue) (key : string) (v : JsValue) :
  ownOnly key -> optProp o key = Ret v -> v = field o key.
Proof.
  intros Hk. unfold optProp. destruct (isNullish o) eqn:Hn.
  - intros H. injection H as <-. now destruct o.
  - now apply getProp_field.
Qed.

(** X10.  The same for the Resend tools with a counted sequence.  When
    the SDK resolves without an error object and the tool reports no
    error, the sequence holds exactly the records of the [data] array
    inside the SDK's [data] (none when it is absent), each put through the
    mapper of the tool, in the upstream order. *)
Theorem resend_records_in_order (w : Resend.World) (c : Resend.ToolCall)
  (k key : string) (v out : JsValue) (calls : list Resend.Request) :
  countedKey c = Some k ->
  supplied (Resend.RESEND_API_KEY w) key ->
  Resend.sdk w [] {| Resend.clientKey := key; Resend.call := sdkCallOf c |}
  = Resend.SdkResolves v ->
  truthy (field v "error") = false ->
  run (Resend.execute w c) = (Ret out, calls) ->
  field out "error" = JUndefined ->
  exists raws items,
    coalesce (field (field v "data") "data") (JArr []) = JArr raws
    /\ field out k = JArr items
    /\ Forall2 (fun raw item => recordMapper c raw = Ret item) raws items.
Proof.
  intros Hk Hkey Hsdk Ht H Herr. apply getClient_supplied in Hkey.
  destruct c; cbn [countedKey Resend.collectionKey] in Hk;
    try discriminate Hk; injection Hk as <-;
    cbn [Resend.execute sdkCallOf recordMapper] in *;
    unfold_resend_in H; unfold Resend.listTemplates_result in H;
    cbv beta iota delta
      [bind ret Monad_Exc Monad_M bindE bindM retM lift throw run try_catch]
      in H;
    rewrite Hkey in H; unfold Resend.await_sdk in H; rewrite Hsdk in H;
    invert_run H;
    repeat match goal with
           | Hg : destructured _ _ = Ret _ |- _ =>
               apply destructured_returned in Hg
           | Hg : getProp _ _ = Ret _ |- _ =>
               apply getProp_field in Hg; [|reflexivity]; subst
           | Hg : optProp _ _ = Ret _ |- _ =>
               apply optProp_field in Hg; [|reflexivity]; subst
           end;
    try congruence; try discriminate Herr;
    match goal with
    | Ha : arrayMap _ _ _ = Ret ?l |- _ =>
        apply arrayMap_array in Ha; destruct Ha as (raws & Hraws & Hmap);
        exists raws, l;
        repeat split; [exact Hraws | apply mapE_Forall2; exact Hmap]
    end.
Qed.

Lemma resend_records_in_order_witness :
  exists raws items,
    coalesce
      (field
         (field
            (JObj [("data",
                    JObj [("data", JArr [JObj [("id", JStr "email-1")];
                                         JObj [("id", JStr "email-2")]])]);
                   ("error", JNull)]) "data") "data") (JArr [])
    = JArr raws
    /\ field (JObj [("success", JBool true);
                    ("ids", JArr [JStr "email-1"; JStr "email-2"]);
                    ("count", JNum (Int 2))]) "ids"
       = JArr items
    /\ Forall2 (fun raw item => getProp raw "id" = Ret item) raws items.
Proof.
  apply (resend_records_in_order
           (Samples.resend
              (Samples.sdkData
                 (JObj [("data", JArr [JObj [("id", JStr "email-1")];
                                      JObj [("id", JStr "email-2")]])])))
           (Resend.SendBatchEmails [JObj []; JObj []]) "ids" "test-api-key"
           _ _
           [{| Resend.clientKey := "test-api-key";
               Resend.call := Resend.BatchSend (JArr [JObj []; JObj []]) |}]);
    try reflexivity.
  split; [reflexivity | discriminate].
Defined.

(** X11.  A list tool returns all records or none.  When the mapper
    throws on any one upstream record (as it does on a [null] record), the
    tool returns its failure shape, with an empty collection and a zero
    count, after its one request: the records that could be mapped are
    not returned. *)
Theorem one_bad_record_fails_all (w : Webflow.World) (c : Webflow.ToolCall)
  (k key site : string) (r : Webflow.Response) (response : JsValue)
  (raws : list JsValue) (x : JsValue) (t : Thrown) :
  Webflow.collectionKey c = Some k ->
  supplied (Webflow.WEBFLOW_API_KEY w) key ->
  resolvedSite w c = Ret site ->
  Webflow.fetch w [] (listRequest key site c) = Webflow.FetchResolves r ->
  Webflow.readResponse r = Ret response ->
  field response k = JArr raws ->
  In x raws ->
  listMapper c x = Raise t ->
  exists out,
    run (Webflow.execute w c) = (Ret out, [listRequest key site c])
    /\ failureShape (Some k) out.
Proof.
  intros Hk Hkey Hsite Hf Hr Hfield Hin Hx. apply getApiKey_supplied in Hkey.
  destruct c; cbn [Webflow.collectionKey] in Hk; try discriminate Hk;
    injection Hk as <-;
    (destruct response as [| | | | | |fields|name];
     try (cbn in Hfield; discriminate Hfield));
    cbn [field] in Hfield;
    cbn [resolvedSite siteArg listMapper Webflow.execute] in *;
    destruct (mapE_raises _ _ _ _ Hin Hx) as [t' Hmap];
    unfold_webflow;
    unfold Webflow.listPages_result, Webflow.listForms_result,
      Webflow.listFormSubmissions_result, Webflow.listCustomCode_result;
    js_simpl; try rewrite Hsite;
    (erewrite callApi_sent;
     [| first [ apply searchParams_limit_offset
              | apply searchParams_element_limit_offset
              | reflexivity ]
      | exact Hkey ]);
    match type of Hf with
    | Webflow.fetch w [] ?lr = _ =>
        match goal with
        | |- context [Webflow.fetch w [] ?req] => change req with lr
        end
    end;
    rewrite Hf, Hr; cbn [getProp]; rewrite ?member_own by reflexivity; rewrite Hfield;
    cbn [coalesce isNullish arrayMap]; rewrite Hmap;
    (eexists; split; [reflexivity | failure_shape]).
Qed.

Lemma one_bad_record_fails_all_witness :
  exists out,
    run (Webflow.execute
           (Samples.webflow
              [Samples.okJson
                 (JObj [("pages", JArr [JObj [("id", JStr "page-1")]; JNull])])])
           (Webflow.ListPages (Some "site-1") None None))
    = (Ret out,
       [listRequest "test-api-key" "site-1"
          (Webflow.ListPages (Some "site-1") None None)])
    /\ failureShape (Some "pages") out.
Proof.
  apply (one_bad_record_fails_all
           (Samples.webflow
              [Samples.okJson
                 (JObj [("pages", JArr [JObj [("id", JStr "page-1")]; JNull])])])
           (Webflow.ListPages (Some "site-1") None None)
           "pages" "test-api-key" "site-1"
           {| Webflow.ok := true;
              Webflow.status := Int 200;
              Webflow.text := Ret "";
              Webflow.json :=
                Ret (JObj [("pages",
                            JArr [JObj [("id", JStr "page-1")]; JNull])]) |}
           (JObj [("pages", JArr [JObj [("id", JStr "page-1")]; JNull])])
           [JObj [("id", JStr "page-1")]; JNull] JNull
           (ThrowError "Cannot read properties of null (reading 'seo')"));
    try reflexivity.
  - split; [reflexivity | discriminate].
  - right. left. reflexivity.
Defined.

(** *** The calls of addCustomCode *)

Lemma apply_scope (i : Webflow.AddCustomCodeInput) (site : string) :
  Webflow.isPage (Webflow.target i)
  && negb (truthy (ofOptString (Webflow.pageId i))) = false ->
  exists endpoint label,
    Scope i site endpoint label
    /\ (if Webflow.isPage (Webflow.target i)
           && truthy (ofOptString (Webflow.pageId i))
        then "/pages/" ++ Webflow.interpolate (Webflow.pageId i) ++ "/custom_code"
        else "/sites/" ++ site ++ "/custom_code") = endpoint.
Proof.
  intros Hg.
  destruct (Webflow.target i) eqn:Ht; cbn [Webflow.isPage andb] in *.
  - exists ("/sites/" ++ site ++ "/custom_code"), ("site:" ++ site).
    split; [now apply SiteScope | reflexivity].
  - destruct (Webflow.pageId i) as [p|] eqn:Hp; [|discriminate Hg].
    cbn [ofOptString truthy Webflow.interpolate] in *.
    destruct (p =? "") eqn:E; [discriminate Hg|].
    exists ("/pages/" ++ p ++ "/custom_code"), ("page:" ++ p).
    split; [|reflexivity].
    apply PageScope; [exact Ht|]. split; [exact Hp|].
    now apply String.eqb_neq.
Qed.

(** X12.  Whatever the input and the network, [addCustomCode] sends
    nothing, or the registration request alone, or the registration
    request followed by one apply request built from the path of the
    scope of the input: it never applies a script it did not register
    first, never sends a third request, and sends no request that would
    undo a registration.  The registration is requested at the endpoint
    of the resolved site when the site identifier is plain, and the apply
    request at the endpoint of the scope when the identifier of the scope
    (the page, respectively the site) is plain. *)
Theorem addCustomCode_call_sequence (w : Webflow.World)
  (i : Webflow.AddCustomCodeInput) :
  snd (run (Webflow.addCustomCode w i)) = []
  \/ exists key site,
       Webflow.getApiKey w = Ret key
       /\ Webflow.resolveSiteId w (Webflow.siteId i) = Ret site
       /\ (plainId site ->
           Webflow.url (registerRequest key site i)
           = Url.BASE_URL ++ "/sites/" ++ site ++ "/registered_scripts/inline")
       /\ (snd (run (Webflow.addCustomCode w i)) = [registerRequest key site i]
           \/ exists endpoint label scriptId,
                Scope i site endpoint label
                /\ scriptId <> ""
                /\ snd (run (Webflow.addCustomCode w i))
                   = [registerRequest key site i;
                      applyRequest key endpoint i scriptId]
                /\ (plainId (scopeId i site) ->
                    Webflow.url (applyRequest key endpoint i scriptId)
                    = Url.BASE_URL ++ endpoint)).
Proof.
  unfold Webflow.addCustomCode, Webflow.addCustomCode_try,
    Webflow.addCustomCode_catch.
  js_simpl.
  destruct (Webflow.isPage (Webflow.target i)
            && negb (truthy (ofOptString (Webflow.pageId i)))) eqn:Hg;
    [left; reflexivity|].
  destruct (2000 <? String.length (Webflow.sourceCode i))%nat;
    [left; reflexivity|].
  destruct (Webflow.resolveSiteId w (Webflow.siteId i)) as [site|t] eqn:Hs;
    [|left; reflexivity].
  destruct (Webflow.getApiKey w) as [key|t] eqn:Hk.
  - right. exists key, site. split; [reflexivity|]. split; [reflexivity|].
    split; [exact (registerRequest_url key site i)|].
    erewrite callApi_sent; [|reflexivity|exact Hk].
    fold (registerRequest key site i).
    destruct (Webflow.fetch w [] (registerRequest key site i)) as [t|r];
      [left; reflexivity|].
    destruct (Webflow.readResponse r) as [registered|t]; [|left; reflexivity].
    destruct (getProp registered "id") as [v|t]; [|left; reflexivity].
    destruct (ToString (coalesce v (JStr ""))) as [scriptId|t];
      [|left; reflexivity].
    destruct (scriptId =? "") eqn:E; [left; reflexivity|].
    right. destruct (apply_scope i site Hg) as (endpoint & label & Hsc & He).
    exists endpoint, label, scriptId.
    split; [exact Hsc|]. split; [now apply String.eqb_neq|].
    split; [|exact (applyRequest_url key site endpoint label i scriptId Hsc)].
    destruct (Webflow.isPage (Webflow.target i)
              && truthy (ofOptString (Webflow.pageId i)));
      subst endpoint;
      (erewrite callApi_sent; [|reflexivity|exact Hk]);
      match goal with
      | |- context [Webflow.fetch w ?log ?req] =>
          destruct (Webflow.fetch w log req) as [t|r2];
          [reflexivity | destruct (Webflow.readResponse r2); reflexivity]
      end.
  - left.
    match goal with
    | |- context [Webflow.callApi w ?path ?options []] =>
        destruct (callApi_without_key_raises w path options [] t Hk) as [t' ->]
    end.
    reflexivity.
Qed.

Lemma addCustomCode_call_sequence_witness :
  snd (run (Webflow.addCustomCode
              (Samples.webflow
                 [Samples.okJson (JObj [("id", JStr "script-456")]);
                  Samples.okJson (JObj [])])
              Samples.pageScript))
  = [registerRequest "test-api-key" "site-1" Samples.pageScript;
     applyRequest "test-api-key" "/pages/page-1/custom_code"
       Samples.pageScript "script-456"]
  /\ Webflow.url (registerRequest "test-api-key" "site-1" Samples.pageScript)
     = "https://api.webflow.com/v2/sites/site-1/registered_scripts/inline"
  /\ Webflow.url
       (applyRequest "test-api-key" "/pages/page-1/custom_code"
          Samples.pageScript "script-456")
     = "https://api.webflow.com/v2/pages/page-1/custom_code".
Proof.
  destruct (addCustomCode_call_sequence
              (Samples.webflow
                 [Samples.okJson (JObj [("id", JStr "script-456")]);
                  Samples.okJson (JObj [])])
              Samples.pageScript)
    as [Hnone | (key & site & Hk & Hs & Hregister & Hcalls)].
  - discriminate Hnone.
  - injection Hk as <-. injection Hs as <-.
    destruct Hcalls as [Hone | (endpoint & label & scriptId & Hsc & _ & Hcalls & Happly)].
    + discriminate Hone.
    + inversion Hsc as [Ht | p Ht [Hp _]]; [discriminate Ht|].
      injection Hp as Hp. subst p endpoint.
      split; [reflexivity|].
      split; [exact (Hregister eq_refl) | exact (Happly eq_refl)].
Defined.

(** X13.  When the registration succeeds with script id [S] and the
    apply call then answers with a failure status, the tool has sent both
    requests and returns its failure shape with the status and the body
    text of the apply call; [scriptId] is empty, so the id of the script
    that stays registered is not reported. *)
Theorem addCustomCode_apply_failure (w : Webflow.World)
  (i : Webflow.AddCustomCodeInput) (key site endpoint label : string)
  (r1 r2 : Webflow.Response) (registered : JsValue) (S text : string) :
  Scope i site endpoint label ->
  (String.length (Webflow.sourceCode i) <= 2000)%nat ->
  Webflow.resolveSiteId w (Webflow.siteId i) = Ret site ->
  supplied (Webflow.WEBFLOW_API_KEY w) key ->
  Webflow.fetch w [] (registerRequest key site i) = Webflow.FetchResolves r1 ->
  Webflow.readResponse r1 = Ret registered ->
  extractedId registered = Ret S ->
  S <> "" ->
  Webflow.fetch w [registerRequest key site i] (applyRequest key endpoint i S)
  = Webflow.FetchResolves r2 ->
  Webflow.ok r2 = false ->
  Webflow.text r2 = Ret text ->
  run (Webflow.addCustomCode w i)
  = (Ret (JObj [("success", JBool false);
                ("scriptId", JStr "");
                ("error",
                 JStr ("Webflow API error " ++ NumberToString (Webflow.status r2)
                         ++ ": " ++ text))]),
     [registerRequest key site i; applyRequest key endpoint i S]).
Proof.
  intros Hsc Hlen Hs Hk Hf1 Hr1 Hid HS Hf2 Hok Htx.
  apply getApiKey_supplied in Hk.
  pose proof (readResponse_failure_status r2 text Hok Htx) as Hr2.
  unfold Webflow.addCustomCode, run, try_catch.
  pose proof (addCustomCode_registered w i key site r1 registered S
                (scope_passes_guard i site endpoint label Hsc)
                Hlen Hs Hk Hf1 Hr1 Hid) as H.
  unfold run in H. rewrite H, (eqb_empty_false S HS). clear H.
  unfold applyRequest, webflowRequest in Hf2 |- *.
  cbn [Webflow.body Webflow.opt_body Webflow.opt_method] in Hf2 |- *.
  destruct Hsc as [Ht | p Ht [Hp Hne]]; rewrite Ht; cbn [Webflow.isPage andb].
  - unfold bindM.
    erewrite callApi_sent; [|reflexivity|exact Hk].
    unfold webflowRequest.
    cbn [Webflow.body Webflow.opt_body Webflow.opt_method app].
    rewrite Hf2, Hr2. reflexivity.
  - rewrite Hp. cbn [ofOptString truthy Webflow.interpolate].
    rewrite (eqb_empty_false p Hne). cbn [negb]. unfold bindM.
    erewrite callApi_sent; [|reflexivity|exact Hk].
    unfold webflowRequest.
    cbn [Webflow.body Webflow.opt_body Webflow.opt_method app].
    rewrite Hf2, Hr2. reflexivity.
Qed.

Lemma addCustomCode_apply_failure_witness :
  run (Webflow.addCustomCode
         (Samples.webflow
            [Samples.okJson (JObj [("id", JStr "script-1")]);
             Samples.failed 500 "Internal Server Error"])
         Samples.siteScript)
  = (Ret (JObj [("success", JBool false);
                ("scriptId", JStr "");
                ("error",
                 JStr "Webflow API error 500: Internal Server Error")]),
     [registerRequest "test-api-key" "site-1" Samples.siteScript;
      applyRequest "test-api-key" "/sites/site-1/custom_code"
        Samples.siteScript "script-1"]).
Proof.
  apply (addCustomCode_apply_failure
           (Samples.webflow
              [Samples.okJson (JObj [("id", JStr "script-1")]);
               Samples.failed 500 "Internal Server Error"])
           Samples.siteScript "test-api-key" "site-1"
           "/sites/site-1/custom_code" "site:site-1"
           {| Webflow.ok := true;
              Webflow.status := Int 200;
              Webflow.text := Ret "";
              Webflow.json := Ret (JObj [("id", JStr "script-1")]) |}
           {| Webflow.ok := false;
              Webflow.status := Int 500;
              Webflow.text := Ret "Internal Server Error";
              Webflow.json := Raise (ThrowError "Unexpected token") |}
           (JObj [("id", JStr "script-1")]) "script-1"
           "Internal Server Error");
    try reflexivity.
  - exact (SiteScope Samples.siteScript "site-1" eq_refl).
  - apply Nat.leb_le. reflexivity.
  - split; [reflexivity | discriminate].
  - discriminate.
Defined.

(** *** The search parameters of callApi *)

(** X14.  The search parameters [callApi] sets are the entries of
    [params] whose value is not [undefined], in their order, each with
    its key and the string of its value.  Only [undefined] is left out:
    a zero, an empty string or a [null] is sent. *)
Theorem searchParams_skips_undefined (params : list (string * JsValue))
  (q : list (string * string)) :
  Webflow.searchParams params = Ret q ->
  Forall2 (fun kv ks => fst ks = fst kv /\ ToString (snd kv) = Ret (snd ks))
    (filter (fun kv => negb (isUndefined (snd kv))) params) q.
Proof.
  revert q. induction params as [|[key value] rest IH]; intros q H.
  - injection H as <-. constructor.
  - cbn [Webflow.searchParams] in H. cbn [filter snd].
    destruct (isUndefined value) eqn:Hu.
    + destruct value; try discriminate Hu. cbn [negb]. now apply IH.
    + cbn [negb].
      assert (Hs : (s <- ToString value ;;
                    q' <- Webflow.searchParams rest ;;
                    ret ((key, s) :: q')) = Ret q)
        by (destruct value; try discriminate Hu; exact H).
      clear H. invert_binds Hs. constructor; [now split | now apply IH].
Qed.

Lemma searchParams_skips_undefined_witness :
  Forall2 (fun kv ks => fst ks = fst kv /\ ToString (snd kv) = Ret (snd ks))
    (filter (fun kv => negb (isUndefined (snd kv)))
       [("elementId", JUndefined); ("limit", JNum (Int 0)); ("offset", JNull)])
    [("limit", "0"); ("offset", "null")].
Proof.
  apply (searchParams_skips_undefined
           [("elementId", JUndefined); ("limit", JNum (Int 0));
            ("offset", JNull)]).
  reflexivity.
Defined.

(** *** The form fields *)

Lemma setField_fresh (key : string) (v : JsValue)
  (fields : list (string * JsValue)) :
  ~ In key (map fst fields) ->
  setField key v fields = (fields ++ [(key, v)])%list.
Proof.
  induction fields as [|[k v'] rest IH]; intros Hn; cbn [setField app].
  - reflexivity.
  - destruct (k =? key) eqn:E.
    + apply String.eqb_eq in E. elim Hn. left. exact E.
    + rewrite IH; [reflexivity|]. intros Hin. apply Hn. now right.
Qed.

Lemma parseFormFields_loop_appends (raw acc fields : list (string * JsValue)) :
  Webflow.parseFormFields_loop raw acc = Ret fields ->
  NoDup (map fst acc ++ map fst raw) ->
  ~ In "__proto__" (map fst raw) ->
  exists new,
    fields = (acc ++ new)%list
    /\ Forall2 (fun kv kf =>
                  fst kf = fst kv
                  /\ Webflow.parseFormFields_field (snd kv) = Ret (snd kf))
         raw new.
Proof.
  revert acc. induction raw as [|[key value] rest IH]; intros acc H Hnd Hp.
  - injection H as <-. exists []. split; [now rewrite app_nil_r | constructor].
  - cbn [Webflow.parseFormFields_loop] in H. js_simpl.
    destruct (Webflow.parseFormFields_field value) as [f|] eqn:Hf;
      [|discriminate].
    cbn [map fst] in Hnd, Hp.
    unfold assignField in H.
    destruct (key =? "__proto__") eqn:E.
    { apply String.eqb_eq in E. elim Hp. left. now symmetry. }
    rewrite setField_fresh in H.
    2: { apply NoDup_remove_2 in Hnd. intros Hin. apply Hnd.
         apply in_or_app. now left. }
    apply IH in H.
    + destruct H as (new & -> & Hall). exists ((key, f) :: new).
      split; [now rewrite <- app_assoc|].
      constructor; [now split | exact Hall].
    + now rewrite map_app, <- app_assoc.
    + intros Hin. apply Hp. now right.
Qed.

(** X15.  On a record of form fields whose keys are distinct and none of
    which is [__proto__], [parseFormFields] keeps every key, in the order
    of the record, each with the reshaped field of its value; the empty
    record gives [undefined]. *)
Theorem parseFormFields_keeps_keys (raw : list (string * JsValue))
  (out : JsValue) :
  NoDup (map fst raw) ->
  ~ In "__proto__" (map fst raw) ->
  Webflow.parseFormFields (JObj raw) = Ret out ->
  match raw with
  | [] => out = JUndefined
  | _ :: _ =>
      exists fields,
        out = JObj fields
        /\ Forall2 (fun kv kf =>
                      fst kf = fst kv
                      /\ Webflow.parseFormFields_field (snd kv) = Ret (snd kf))
             raw fields
  end.
Proof.
  intros Hnd Hp H. unfold Webflow.parseFormFields in H.
  cbn [truthy negb entries] in H. js_simpl.
  destruct (Webflow.parseFormFields_loop raw []) as [fields|] eqn:Hl;
    [|discriminate].
  apply parseFormFields_loop_appends in Hl; [|exact Hnd|exact Hp].
  destruct Hl as (new & -> & Hall). cbn [app] in H.
  destruct Hall as [|kv kf raw' new' Hhead Hrest].
  - now injection H as <-.
  - injection H as <-. eexists. split; [reflexivity|].
    constructor; assumption.
Qed.

Lemma parseFormFields_keeps_keys_witness :
  exists fields,
    JObj [("name", JObj [("displayName", JStr "Name"); ("type", JStr "Plain")]);
          ("email", JObj [("displayName", JUndefined); ("type", JStr "Email")])]
    = JObj fields
    /\ Forall2 (fun kv kf =>
                  fst kf = fst kv
                  /\ Webflow.parseFormFields_field (snd kv) = Ret (snd kf))
         [("name", JObj [("displayName", JStr "Name"); ("type", JStr "Plain")]);
          ("email", JObj [("type", JStr "Email")])]
         fields.
Proof.
  apply (parseFormFields_keeps_keys
           [("name", JObj [("displayName", JStr "Name"); ("type", JStr "Plain")]);
            ("email", JObj [("type", JStr "Email")])]).
  - repeat constructor; cbn; intuition discriminate.
  - cbn. intuition discriminate.
  - reflexivity.
Defined.

(** *** Records that are already in the output form *)

(** X16.  The reshaping of a custom domain and of a script is idempotent:
    a record these mappers have produced passes through them unchanged. *)
Theorem reshaped_domain_and_script_are_fixed (raw out : JsValue) :
  (Webflow.domainInfo raw = Ret out -> Webflow.domainInfo out = Ret out)
  /\ (Webflow.listCustomCode_script raw = Ret out ->
      Webflow.listCustomCode_script out = Ret out).
Proof.
  split; intros H.
  - unfold Webflow.domainInfo in H. invert_binds H.
    repeat match goal with
           | Hs : stringOr _ _ _ = Ret _ |- _ =>
               apply stringOr_string in Hs; destruct Hs as [? ->]
           end.
    reflexivity.
  - unfold Webflow.listCustomCode_script in H. invert_binds H.
    repeat match goal with
           | Hs : stringOr _ _ _ = Ret _ |- _ =>
               apply stringOr_string in Hs; destruct Hs as [? ->]
           end.
    reflexivity.
Qed.

Lemma reshaped_domain_and_script_are_fixed_witness :
  Webflow.domainInfo (JObj [("id", JStr "589a331aa51e760df7ccb89e");
                            ("url", JStr "")])
  = Ret (JObj [("id", JStr "589a331aa51e760df7ccb89e"); ("url", JStr "")]).
Proof.
  apply (proj1 (reshaped_domain_and_script_are_fixed
                  (JObj [("id", JStr "589a331aa51e760df7ccb89e")])
                  (JObj [("id", JStr "589a331aa51e760df7ccb89e");
                         ("url", JStr "")]))).
  reflexivity.
Defined.

(** *** What the Resend tools report on failure *)

(** X17.  When the SDK resolves with an error object, a Resend tool
    returns its failure values after the one call, and its [error] is the
    [message] property of that object as it is: nothing converts it to a
    string, and an error object without a message gives a failure result
    whose [error] is [undefined]. *)
Theorem sdk_error_message_passed_through (w : Resend.World)
  (c : Resend.ToolCall) (key : string) (v : JsValue) :
  supplied (Resend.RESEND_API_KEY w) key ->
  Resend.sdk w [] {| Resend.clientKey := key; Resend.call := sdkCallOf c |}
  = Resend.SdkResolves v ->
  truthy (field v "error") = true ->
  exists out,
    run (Resend.execute w c)
    = (Ret out, [{| Resend.clientKey := key; Resend.call := sdkCallOf c |}])
    /\ field out "error" = field (field v "error") "message"
    /\ match Resend.collectionKey c with
       | Some k => field out k = JArr [] /\ field out "count" = JNum (Int 0)
       | None => field out "success" = JBool false
       end.
Proof.
  intros Hk Hsdk Ht. apply getClient_supplied in Hk.
  destruct v as [| | | | | |answer|name]; try discriminate Ht. cbn [field] in Ht.
  pose proof (getProp_truthy (assoc "error" answer) "message" eq_refl Ht) as Hg.
  destruct c; cbn [Resend.execute sdkCallOf Resend.collectionKey field] in *;
    unfold_resend; js_simpl; rewrite Hk; unfold Resend.await_sdk;
    rewrite Hsdk; cbn [destructured getProp];
    rewrite ?member_own by reflexivity; js_simpl; rewrite Ht, Hg;
    eexists; (split; [reflexivity|]); (split; [reflexivity | repeat split]).
Qed.

Lemma sdk_error_message_passed_through_witness :
  exists out,
    run (Resend.execute
           (Samples.resend
              (Resend.SdkResolves
                 (JObj [("data", JNull);
                        ("error", JObj [("name", JStr "rate_limit_exceeded")])])))
           Resend.ListEmails)
    = (Ret out,
       [{| Resend.clientKey := "test-api-key";
           Resend.call := Resend.EmailsList |}])
    /\ field out "error" = JUndefined
    /\ field out "emails" = JArr [] /\ field out "count" = JNum (Int 0).
Proof.
  apply (sdk_error_message_passed_through
           (Samples.resend
              (Resend.SdkResolves
                 (JObj [("data", JNull);
                        ("error", JObj [("name", JStr "rate_limit_exceeded")])])))
           Resend.ListEmails "test-api-key"
           (JObj [("data", JNull);
                  ("error", JObj [("name", JStr "rate_limit_exceeded")])])).
  - split; [reflexivity | discriminate].
  - reflexivity.
  - reflexivity.
Defined.

(** X18.  On every failure (a result with [success] false) the [id] of
    [getEmail], [getTemplate] and [removeContact] is the key the caller
    looked up, and the [id] of [sendEmail] and [createContact] is the
    empty string. *)
Theorem failure_id (w : Resend.World) (c : Resend.ToolCall) (id : string)
  (out : JsValue) (calls : list Resend.Request) :
  failureId c = Some id ->
  run (Resend.execute w c) = (Ret out, calls) ->
  field out "success" = JBool false ->
  field out "id" = JStr id.
Proof.
  intros Hid H Hs.
  destruct c; cbn [failureId] in Hid; try discriminate Hid;
    injection Hid as <-; cbn [Resend.execute] in H;
    unfold_resend_in H;
    unfold Resend.getEmail_result, Resend.getTemplate_result in H;
    invert_run H; try discriminate Hs; reflexivity.
Qed.

Lemma failure_id_witness :
  field (JObj [("success", JBool false);
               ("id", JStr "4ef9a417-02e9-4d39-ad75-9611e0bf7a83");
               ("error", JStr "Email not found")]) "id"
  = JStr "4ef9a417-02e9-4d39-ad75-9611e0bf7a83".
Proof.
  apply (failure_id
           (Samples.resend (Samples.sdkError "Email not found"))
           (Resend.GetEmail "4ef9a417-02e9-4d39-ad75-9611e0bf7a83")
           "4ef9a417-02e9-4d39-ad75-9611e0bf7a83" _
           [{| Resend.clientKey := "test-api-key";
               Resend.call :=
                 Resend.EmailsGet "4ef9a417-02e9-4d39-ad75-9611e0bf7a83" |}]);
    reflexivity.
Defined.

(** *** The params handed to the SDK *)

Lemma setIfDefined_cases (key : string) (v : JsValue)
  (params : list (string * JsValue)) :
  Resend.setIfDefined key v params
  = if isUndefined v then params else assignField key v params.
Proof. destruct v; reflexivity. Qed.

Lemma assignAll_appends (table params : list (string * JsValue)) :
  NoDup (map fst params ++ map fst table) ->
  ~ In "__proto__" (map fst table) ->
  assignAll table params = (params ++ filter defined table)%list.
Proof.
  revert params. induction table as [|[key v] rest IH]; intros params Hnd Hp.
  - cbn. now rewrite app_nil_r.
  - cbn [assignAll fold_left fst snd filter defined map] in *.
    fold (assignAll rest (Resend.setIfDefined key v params)).
    rewrite setIfDefined_cases.
    change (defined (key, v)) with (negb (isUndefined v)).
    destruct (isUndefined v) eqn:Hu; cbn [negb].
    + apply IH.
      * now apply NoDup_remove_1 in Hnd.
      * intros Hin. apply Hp. now right.
    + unfold assignField.
      destruct (key =? "__proto__") eqn:E.
      { apply String.eqb_eq in E. elim Hp. left. now symmetry. }
      rewrite setField_fresh.
      2: { apply NoDup_remove_2 in Hnd. intros Hin. apply Hnd.
           apply in_or_app. now left. }
      rewrite IH.
      * now rewrite <- app_assoc.
      * now rewrite map_app, <- app_assoc.
      * intros Hin. apply Hp. now right.
Qed.

Lemma assoc_absent (key : string) (fields : list (string * JsValue)) :
  ~ In key (map fst fields) -> assoc key fields = JUndefined.
Proof.
  induction fields as [|[k v] rest IH]; intros Hn; cbn [assoc].
  - reflexivity.
  - destruct (k =? key) eqn:E.
    + apply String.eqb_eq in E. elim Hn. left. exact E.
    + apply IH. intros Hin. apply Hn. now right.
Qed.

Lemma assoc_filter_defined (key : string) (table : list (string * JsValue)) :
  NoDup (map fst table) ->
  assoc key (filter defined table) = assoc key table.
Proof.
  induction table as [|[k v] rest IH]; intros Hnd; [reflexivity|].
  cbn [map fst] in Hnd. inversion Hnd as [|? ? Hfresh Hrest]; subst.
  cbn [filter]. change (defined (k, v)) with (negb (isUndefined v)).
  destruct (isUndefined v) eqn:Hu; cbn [negb assoc].
  - destruct (k =? key) eqn:E.
    + apply String.eqb_eq in E. subst key.
      rewrite (IH Hrest), (assoc_absent k rest Hfresh).
      now destruct v.
    + now apply IH.
  - destruct (k =? key); [reflexivity | now apply IH].
Qed.

Lemma filter_defined_allDefined (table : list (string * JsValue)) :
  allDefined (filter defined table).
Proof.
  apply Forall_forall. intros [k v] Hin. apply filter_In in Hin as [_ Hd].
  unfold defined in Hd. cbn [snd] in *. now destruct v.
Qed.

Lemma suppliedArguments_distinct (c : Resend.ToolCall) :
  NoDup (map fst (suppliedArguments c))
  /\ ~ In "__proto__" (map fst (suppliedArguments c)).
Proof.
  destruct c; cbn [suppliedArguments map fst]; split;
    try (repeat constructor; cbn [In]; intuition discriminate);
    cbn [In]; intuition discriminate.
Qed.

Lemma params_assigned (c : Resend.ToolCall) (params : JsValue) :
  paramsOf c = Some params ->
  params = JObj (assignAll (suppliedArguments c) []).
Proof.
  destruct c; cbn [paramsOf sdkCallOf]; try discriminate;
    intros H; injection H as <-.
  - reflexivity.
  - unfold Resend.createContact_params. cbn [suppliedArguments].
    destruct (Resend.segments input); reflexivity.
  - reflexivity.
Qed.

(** X19.  The [params] object that [sendEmail], [createContact] and
    [listTemplates] hand to the SDK agrees with the caller's arguments on
    every key, the segment ids of [createContact] each wrapped in an
    object with its [id]; and it has no property whose value is
    [undefined]: an argument the caller left out is absent from the
    object. *)
Theorem params_are_supplied_arguments (c : Resend.ToolCall)
  (params : JsValue) :
  paramsOf c = Some params ->
  exists fields,
    params = JObj fields
    /\ allDefined fields
    /\ forall key, assoc key fields = assoc key (suppliedArguments c).
Proof.
  intros H. apply params_assigned in H.
  destruct (suppliedArguments_distinct c) as [Hnd Hp].
  rewrite assignAll_appends in H by assumption. cbn [app] in H.
  exists (filter defined (suppliedArguments c)).
  split; [exact H|]. split; [apply filter_defined_allDefined|].
  intros key. now apply assoc_filter_defined.
Qed.

Lemma params_are_supplied_arguments_witness :
  exists fields,
    Resend.createContact_params
      {| Resend.email := "steve.wozniak@gmail.com";
         Resend.firstName := Some "Steve";
         Resend.lastName := None;
         Resend.unsubscribed := Some false;
         Resend.properties := None;
         Resend.segments := Some ["seg-1"; "seg-2"];
         Resend.topics := None |}
    = JObj fields
    /\ allDefined fields
    /\ forall key,
         assoc key fields
         = assoc key
             [("email", JStr "steve.wozniak@gmail.com");
              ("firstName", JStr "Steve");
              ("lastName", JUndefined);
              ("unsubscribed", JBool false);
              ("properties", JUndefined);
              ("segments", JArr [JObj [("id", JStr "seg-1")];
                                 JObj [("id", JStr "seg-2")]]);
              ("topics", JUndefined)].
Proof.
  apply (params_are_supplied_arguments
           (Resend.CreateContact
              {| Resend.email := "steve.wozniak@gmail.com";
                 Resend.firstName := Some "Steve";
                 Resend.lastName := None;
                 Resend.unsubscribed := Some false;
                 Resend.properties := None;
                 Resend.segments := Some ["seg-1"; "seg-2"];
                 Resend.topics := None |})).
  reflexivity.
Defined.

(** *** Edge cases of the Webflow mappers *)

(** X20.  The two URLs of a site are built from the raw [shortName]
    without a default, unlike the [shortName] field: for a site whose
    [shortName] is absent or [null] the field is the empty string while
    the URLs carry the word undefined, respectively null. *)
Theorem listSites_urls_use_raw_short_name (raw out : JsValue) :
  Webflow.listSites_site raw = Ret out ->
  exists s,
    ToString (field raw "shortName") = Ret s
    /\ field out "designerUrl" = JStr ("https://" ++ s ++ ".design.webflow.com")
    /\ field out "settingsUrl"
       = JStr ("https://webflow.com/dashboard/sites/" ++ s ++ "/general")
    /\ (isNullish (field raw "shortName") = true ->
        field out "shortName" = JStr "" /\ (s = "undefined" \/ s = "null")).
Proof.
  intros H. unfold Webflow.listSites_site in H. invert_binds H.
  repeat match goal with
         | Hg : getProp _ _ = Ret _ |- _ => apply getProp_field in Hg; [|reflexivity]; subst
         end.
  match goal with
  | Hs : ToString (field raw "shortName") = Ret ?s |- _ =>
      exists s; split; [exact Hs|]; rename Hs into Hshort
  end.
  split; [reflexivity|]. split; [reflexivity|].
  intros Hn.
  match goal with
  | Hs : stringOr raw "shortName" _ = Ret _ |- _ =>
      unfold stringOr in Hs; invert_binds Hs;
      match goal with
      | Hg : getProp raw "shortName" = Ret _ |- _ =>
          apply getProp_field in Hg; [|reflexivity]; subst
      end;
      unfold coalesce in Hs; rewrite Hn in Hs; injection Hs as <-
  end.
  split; [reflexivity|].
  destruct (field raw "shortName"); try discriminate Hn;
    injection Hshort as <-; auto.
Qed.

Lemma listSites_urls_use_raw_short_name_witness :
  exists s,
    ToString (field (JObj [("id", JStr "site-1")]) "shortName") = Ret s
    /\ field
         (JObj [("id", JStr "site-1");
                ("displayName", JStr "");
                ("shortName", JStr "");
                ("lastPublished", JUndefined);
                ("lastUpdated", JUndefined);
                ("previewUrl", JUndefined);
                ("timeZone", JUndefined);
                ("designerUrl", JStr "https://undefined.design.webflow.com");
                ("settingsUrl",
                 JStr "https://webflow.com/dashboard/sites/undefined/general");
                ("customDomains", JUndefined)]) "designerUrl"
       = JStr ("https://" ++ s ++ ".design.webflow.com")
    /\ field
         (JObj [("id", JStr "site-1");
                ("displayName", JStr "");
                ("shortName", JStr "");
                ("lastPublished", JUndefined);
                ("lastUpdated", JUndefined);
                ("previewUrl", JUndefined);
                ("timeZone", JUndefined);
                ("designerUrl", JStr "https://undefined.design.webflow.com");
                ("settingsUrl",
                 JStr "https://webflow.com/dashboard/sites/undefined/general");
                ("customDomains", JUndefined)]) "settingsUrl"
       = JStr ("https://webflow.com/dashboard/sites/" ++ s ++ "/general")
    /\ (isNullish (field (JObj [("id", JStr "site-1")]) "shortName") = true ->
        field
          (JObj [("id", JStr "site-1");
                 ("displayName", JStr "");
                 ("shortName", JStr "");
                 ("lastPublished", JUndefined);
                 ("lastUpdated", JUndefined);
                 ("previewUrl", JUndefined);
                 ("timeZone", JUndefined);
                 ("designerUrl", JStr "https://undefined.design.webflow.com");
                 ("settingsUrl",
                  JStr "https://webflow.com/dashboard/sites/undefined/general");
                 ("customDomains", JUndefined)]) "shortName" = JStr ""
        /\ (s = "undefined" \/ s = "null")).
Proof.
  apply (listSites_urls_use_raw_short_name (JObj [("id", JStr "site-1")])).
  reflexivity.
Defined.

(** X21.  The flags [archived] and [draft] of a page are never false in
    the output: a truthy upstream flag gives true, and every falsy one,
    false included, gives [undefined], so a page that is not archived is
    reported like a page without the flag. *)
Theorem page_flags_never_false (page out : JsValue) (flag : string) :
  flag = "archived" \/ flag = "draft" ->
  Webflow.listPages_page page = Ret out ->
  field out flag
  = if truthy (field page flag) then JBool true else JUndefined.
Proof.
  intros Hflag H. unfold Webflow.listPages_page in H. invert_binds H.
  all: repeat match goal with
         | Hg : getProp _ _ = Ret _ |- _ => apply getProp_field in Hg; [|reflexivity]; subst
         end.
  all: destruct Hflag as [-> | ->];
    cbn [field assoc String.eqb Ascii.eqb Bool.eqb]; unfold ToBoolean;
    repeat match goal with
           | Ht : truthy _ = _ |- _ => rewrite Ht
           end;
    reflexivity.
Qed.

Lemma page_flags_never_false_witness :
  field (JObj [("id", JStr "page-1");
               ("title", JStr "");
               ("slug", JStr "");
               ("archived", JUndefined);
               ("draft", JBool true);
               ("createdOn", JUndefined);
               ("lastUpdated", JUndefined);
               ("publishedPath", JUndefined);
               ("seo", JUndefined)]) "archived"
  = if truthy (field (JObj [("id", JStr "page-1");
                            ("archived", JBool false);
                            ("draft", JBool true)]) "archived")
    then JBool true else JUndefined.
Proof.
  apply (page_flags_never_false
           (JObj [("id", JStr "page-1");
                  ("archived", JBool false);
                  ("draft", JBool true)])).
  - left. reflexivity.
  - reflexivity.
Defined.

(** *** The published domains *)

Lemma optArrayMap_cases (what : string) (f : JsValue -> Exc JsValue)
  (v out : JsValue) :
  optArrayMap what f v = Ret out ->
  (isNullish v = true /\ out = JUndefined)
  \/ exists raws items,
       v = JArr raws /\ out = JArr items
       /\ Forall2 (fun raw item => f raw = Ret item) raws items.
Proof.
  unfold optArrayMap. destruct (isNullish v) eqn:Hn; intros H.
  - left. now injection H as <-.
  - right. invert_binds H.
    match goal with
    | Ha : arrayMap _ _ _ = Ret ?l |- _ =>
        apply arrayMap_array in Ha; destruct Ha as (raws & -> & Hmap);
        exists raws, l; repeat split; now apply mapE_Forall2
    end.
Qed.

(** X22.  When [publishSite] reports success, it made one call that
    resolved with a success status, and [publishedDomains] is
    [undefined] when the answer has no [customDomains], and otherwise
    holds each domain of the answer, reshaped, in the upstream order. *)
Theorem publishSite_published_domains (w : Webflow.World)
  (siteId : option string) (customDomains : option (list string))
  (publishToWebflowSubdomain : option bool) (out : JsValue)
  (calls : list Webflow.Request) :
  run (Webflow.publishSite w siteId customDomains publishToWebflowSubdomain)
  = (Ret out, calls) ->
  field out "success" = JBool true ->
  exists req r response,
    calls = [req]
    /\ Webflow.fetch w [] req = Webflow.FetchResolves r
    /\ Webflow.readResponse r = Ret response
    /\ ((isNullish (field response "customDomains") = true
         /\ field out "publishedDomains" = JUndefined)
        \/ exists raws items,
             field response "customDomains" = JArr raws
             /\ field out "publishedDomains" = JArr items
             /\ Forall2 (fun raw item => Webflow.domainInfo raw = Ret item)
                  raws items).
Proof.
  unfold Webflow.publishSite, Webflow.publishSite_try. intros H Hs.
  eapply fetched_then_reshaped
    with (h := fun error =>
                 JObj [("success", JBool false);
                       ("error",
                        JStr (errorMessage error "Failed to publish site"))])
    in H; [|reflexivity].
  destruct H as [[t ->] | (req & r & response & -> & Hf & Hr & Hre)];
    [discriminate Hs|].
  exists req, r, response. repeat split; try assumption.
  unfold Webflow.publishSite_result in Hre. invert_binds Hre.
  match goal with
  | Hg : getProp _ _ = Ret _ |- _ => apply getProp_field in Hg; [|reflexivity]; subst
  end.
  match goal with
  | Ho : optArrayMap _ _ _ = Ret _ |- _ =>
      apply optArrayMap_cases in Ho;
      destruct Ho as [[Hn ->] | (raws & items & Hv & -> & Hall)]
  end.
  - left. split; [exact Hn | reflexivity].
  - right. exists raws, items. repeat split; assumption.
Qed.

Lemma publishSite_published_domains_witness :
  exists req r response,
    [webflowRequest "test-api-key" "/sites/site-1/publish"
       {| Webflow.opt_method := Some Webflow.POST;
          Webflow.opt_body := Some (Webflow.publishSite_body None None);
          Webflow.opt_params := None |} []] = [req]
    /\ Webflow.fetch
         (Samples.webflow
            [Samples.okJson
               (JObj [("customDomains",
                       JArr [JObj [("id", JStr "domain-1");
                                   ("url", JStr "example.com")]])])])
         [] req = Webflow.FetchResolves r
    /\ Webflow.readResponse r = Ret response
    /\ ((isNullish (field response "customDomains") = true
         /\ field (JObj [("success", JBool true);
                         ("publishedDomains",
                          JArr [JObj [("id", JStr "domain-1");
                                      ("url", JStr "example.com")]])])
              "publishedDomains" = JUndefined)
        \/ exists raws items,
             field response "customDomains" = JArr raws
             /\ field (JObj [("success", JBool true);
                             ("publishedDomains",
                              JArr [JObj [("id", JStr "domain-1");
                                          ("url", JStr "example.com")]])])
                  "publishedDomains" = JArr items
             /\ Forall2 (fun raw item => Webflow.domainInfo raw = Ret item)
                  raws items).
Proof.
  apply (publishSite_published_domains
           (Samples.webflow
              [Samples.okJson
                 (JObj [("customDomains",
                         JArr [JObj [("id", JStr "domain-1");
                                     ("url", JStr "example.com")]])])])
           (Some "site-1") None None);
    reflexivity.
Defined.

(** *** Every request of the Webflow tools *)

Lemma getApiKey_returned (w : Webflow.World) (key : string) :
  Webflow.getApiKey w = Ret key -> supplied (Webflow.WEBFLOW_API_KEY w) key.
Proof.
  unfold Webflow.getApiKey, supplied.
  destruct (Webflow.WEBFLOW_API_KEY w) as [k|]; [|discriminate].
  destruct (k =? "") eqn:E; [discriminate|].
  intros H. injection H as <-. split; [reflexivity|]. now apply String.eqb_neq.
Qed.

Lemma keeps_ret {A} (P : Webflow.Request -> Prop) (a : A) : keeps P (retM a).
Proof. intros log H. exact H. Qed.

Lemma keeps_lift {A} (P : Webflow.Request -> Prop) (e : Exc A) :
  keeps P (lift e).
Proof. intros log H. exact H. Qed.

Lemma keeps_bind {A B} (P : Webflow.Request -> Prop)
  (m : M Webflow.Request A) (k : A -> M Webflow.Request B) :
  keeps P m -> (forall a, keeps P (k a)) -> keeps P (bindM m k).
Proof.
  intros Hm Hk log H. unfold bindM. specialize (Hm log H).
  destruct (m log) as [[a|t] log']; cbn [snd] in *; [now apply Hk | exact Hm].
Qed.

Lemma keeps_try_catch {A} (P : Webflow.Request -> Prop)
  (m : M Webflow.Request A) (handler : Thrown -> M Webflow.Request A) :
  keeps P m -> (forall t, keeps P (handler t)) -> keeps P (try_catch m handler).
Proof.
  intros Hm Hh log H. unfold try_catch. specialize (Hm log H).
  destruct (m log) as [[a|t] log']; cbn [snd] in *; [exact Hm | now apply Hh].
Qed.

Lemma keeps_callApi (w : Webflow.World) (path : string)
  (options : Webflow.Options) :
  (match Webflow.opt_method options with
   | Some m => m
   | None => Webflow.GET
   end = Webflow.GET <-> Webflow.opt_body options = None) ->
  keeps (wellFormed w) (Webflow.callApi w path options).
Proof.
  intros Hopt log H. unfold Webflow.callApi. js_simpl.
  destruct (match Webflow.opt_params options with
            | Some params => Webflow.searchParams params
            | None => Ret []
            end) as [q|t]; [|exact H].
  destruct (Webflow.getApiKey w) as [key|t] eqn:Hk; [|exact H].
  apply getApiKey_returned in Hk.
  assert (Hlog : Forall (wellFormed w)
                   (log ++ [webflowRequest key path options q])%list).
  { apply Forall_app. split; [exact H|]. constructor; [|constructor].
    exists key. split; [exact Hk|]. split; [reflexivity|].
    split; [reflexivity | exact Hopt]. }
  unfold Webflow.await_fetch. fold (webflowRequest key path options q).
  destruct (Webflow.fetch w log (webflowRequest key path options q)) as [t|r];
    [exact Hlog|].
  destruct (Webflow.readResponse r); exact Hlog.
Qed.

(** Composes the lemmas on [keeps] along the steps of a tool. *)
Ltac keeps_steps :=
  repeat first
    [ apply keeps_ret
    | apply keeps_lift
    | apply keeps_callApi; cbn; split; intros E;
      first [reflexivity | discriminate E]
    | apply keeps_try_catch; [|intros ?]
    | apply keeps_bind; [|intros ?]
    | match goal with
      | |- keeps _ (if ?b then _ else _) => destruct b
      end ].

(** X23.  Every request a Webflow tool sends, whatever the tool, the
    input and the answers of the network, is authorized with the
    configured key, is declared as JSON exactly when it has a body, and
    has no body exactly when it is a GET. *)
Theorem every_request_well_formed (w : Webflow.World) (c : Webflow.ToolCall) :
  Forall (wellFormed w) (snd (run (Webflow.execute w c))).
Proof.
  assert (H : keeps (wellFormed w) (Webflow.execute w c)).
  { destruct c; cbn [Webflow.execute]; unfold_webflow;
      cbv beta iota delta [bind ret Monad_M]; keeps_steps. }
  apply (H []). constructor.
Qed.

(** *** A rejected SDK call *)

(** A rejected SDK call is caught and reported in the failure shape. *)
Lemma sdk_rejection_caught (w : Resend.World) (c : Resend.ToolCall)
  (key : string) (t : Thrown) :
  supplied (Resend.RESEND_API_KEY w) key ->
  Resend.sdk w [] {| Resend.clientKey := key; Resend.call := sdkCallOf c |}
  = Resend.SdkRejects t ->
  exists out,
    run (Resend.execute w c)
    = (Ret out, [{| Resend.clientKey := key; Resend.call := sdkCallOf c |}])
    /\ failureShape (Resend.collectionKey c) out
    /\ field out "error" = JStr (errorMessage t (fallbackMessage c)).
Proof.
  intros Hk Hsdk. apply getClient_supplied in Hk.
  destruct c;
    cbn [Resend.execute sdkCallOf Resend.collectionKey fallbackMessage] in *;
    unfold_resend; js_simpl; rewrite Hk; unfold Resend.await_sdk;
    rewrite Hsdk;
    (eexists; split; [reflexivity|]; split; [failure_shape | reflexivity]).
Qed.

(** X24.  When the promise of the SDK call rejects, a Resend tool returns
    its failure shape after that one call; the error is the message of
    the thrown [Error], and the fixed message of the tool when what was
    thrown is not an [Error]. *)
Theorem sdk_rejection_reported (w : Resend.World) (c : Resend.ToolCall)
  (key : string) (t : Thrown) :
  supplied (Resend.RESEND_API_KEY w) key ->
  Resend.sdk w [] {| Resend.clientKey := key; Resend.call := sdkCallOf c |}
  = Resend.SdkRejects t ->
  exists out,
    run (Resend.execute w c)
    = (Ret out, [{| Resend.clientKey := key; Resend.call := sdkCallOf c |}])
    /\ failureShape (Resend.collectionKey c) out
    /\ field out "error" = JStr (errorMessage t (fallbackMessage c)).
Proof. exact (sdk_rejection_caught w c key t). Qed.

Lemma sdk_rejection_reported_witness :
  exists out,
    run (Resend.execute
           (Samples.resend (Resend.SdkRejects (ThrowValue (JStr "timeout"))))
           (Resend.SendBatchEmails [JObj []]))
    = (Ret out,
       [{| Resend.clientKey := "test-api-key";
           Resend.call := Resend.BatchSend (JArr [JObj []]) |}])
    /\ failureShape None out
    /\ field out "error" = JStr "Failed to send batch emails".
Proof.
  apply (sdk_rejection_reported
           (Samples.resend (Resend.SdkRejects (ThrowValue (JStr "timeout"))))
           (Resend.SendBatchEmails [JObj []]) "test-api-key"
           (ThrowValue (JStr "timeout"))).
  - split; [reflexivity | discriminate].
  - reflexivity.
Defined.

(** *** Nothing escapes a tool (C1) *)













